(** * Extratores-Python: the extraction scripts and the extractor package

    A shallow embedding of the parts of the repository that the
    specification makes promises about:

    - [extracao_openai_vision_v3.py]: the CSV control ledger
      ([append_ctrl_csv], [carrega_ctrl_csv]), the batch driver
      [process_project] and the semaphore-bounded page requests of
      [extract_text_openai_vision_async];
    - [extracao_dados_pdf_openai.py]: [verificar_pdf_valido] and the
      retrying CSV writer of [gerar_csv_arquivos_pdfs];
    - [src/extractors] and [src/core]: [DirectExtractor],
      [HybridExtractor] and [ExtractorFactory].

    Python strings are lists of code points, files are what the [csv]
    module reads from them, exceptions are values, and every call into a
    third-party library (pdfplumber, PyPDF2, pdf2image, the OpenAI client,
    the file system) is an explicit input that records what the call
    returned or raised. *)

From Stdlib Require Import ZArith NArith Lia.
From stdpp Require Import base option list gmap strings.

Open Scope N_scope.

(** ** Python strings *)

Module PyStr.

(** A [str] is its sequence of code points, so that [len] and
    [str.strip] count and classify characters the way Python does. *)
Abbreviation pystr := (list N).

(** Literals are written as UTF-8 text and decoded once. *)
Definition utf8_step (acc : list N) (b : N) : list N :=
  if b <? 128 then b :: acc
  else if b <? 192 then
    match acc with
    | c :: acc' => (c * 64 + (b - 128)) :: acc'
    | [] => []
    end
  else if b <? 224 then (b - 192) :: acc
  else if b <? 240 then (b - 224) :: acc
  else (b - 240) :: acc.

Definition py (s : string) : pystr :=
  rev (fold_left utf8_step (map Ascii.N_of_ascii (String.list_ascii_of_string s)) []).
#[global] Arguments py : simpl never.

(** [str.isspace] of one character: the code points whose Unicode
    property is White_Space or whose bidirectional class is WS, B or S. *)
Definition isspace (c : N) : bool :=
  ((9 <=? c) && (c <=? 13)) || ((28 <=? c) && (c <=? 32))
  || (c =? 133) || (c =? 160) || (c =? 5760)
  || ((8192 <=? c) && (c <=? 8202))
  || (c =? 8232) || (c =? 8233) || (c =? 8239) || (c =? 8287) || (c =? 12288).

Fixpoint lstrip (s : pystr) : pystr :=
  match s with
  | c :: s' => if isspace c then lstrip s' else s
  | [] => []
  end.

Definition rstrip (s : pystr) : pystr := rev (lstrip (rev s)).

(** [s.strip()] *)
Definition strip (s : pystr) : pystr := rstrip (lstrip s).

(** Truthiness of a string: [if s:] *)
Definition truthy (s : pystr) : bool :=
  match s with [] => false | _ => true end.

(** [s.startswith(p)] *)
Fixpoint startswith (p s : pystr) : bool :=
  match p, s with
  | [], _ => true
  | a :: p', b :: s' => (a =? b) && startswith p' s'
  | _ :: _, [] => false
  end.

(** [p in s] for strings *)
Fixpoint contains (p s : pystr) : bool :=
  startswith p s ||
  match s with
  | [] => false
  | _ :: s' => contains p s'
  end.

(** [s.lower()], on the letters A-Z; every other code point is kept.
    (The messages searched below are matched against ASCII needles.) *)
Definition lower_char (c : N) : N :=
  if (65 <=? c) && (c <=? 90) then c + 32 else c.
Definition lower (s : pystr) : pystr := map lower_char s.

(** [sep.join(parts)] *)
Fixpoint join (sep : pystr) (parts : list pystr) : pystr :=
  match parts with
  | [] => []
  | [p] => p
  | p :: rest => p ++ sep ++ join sep rest
  end.

(** [str(n)] for a non-negative [int] *)
Definition digit_char (d : N) : N := 48 + d.
Fixpoint str_pos_aux (fuel : nat) (n : N) (acc : pystr) : pystr :=
  match fuel with
  | O => acc
  | S fuel' =>
      let acc' := digit_char (n mod 10) :: acc in
      if n / 10 =? 0 then acc' else str_pos_aux fuel' (n / 10) acc'
  end.
Definition str_int (n : N) : pystr := str_pos_aux (S (N.to_nat (N.log2 n))) n [].

(** [os.path.splitext(name)[0]] for a name without directory separators:
    the name up to its last dot, unless only dots precede that dot. *)
Fixpoint rfind_from (c : N) (s : pystr) (i : nat) (found : option nat) : option nat :=
  match s with
  | [] => found
  | x :: s' => rfind_from c s' (S i) (if x =? c then Some i else found)
  end.

Definition splitext_root (name : pystr) : pystr :=
  match rfind_from 46 name 0 None with
  | Some dotIndex =>
      if forallb (N.eqb 46) (take dotIndex name) then name else take dotIndex name
  | None => name
  end.

End PyStr.
Import PyStr.

(** ** Exceptions and results *)

(** The exceptions the modelled code raises or catches by class; every
    other subclass of [Exception] is [OtherError]. The [ValueError] of
    [ExtractorFactory.create_extractor] keeps the two values its message is
    formatted from. *)
Inductive exn : Type :=
| KeyError (key : pystr)
| ImportError (msg : pystr)
| PermissionError (msg : pystr)
| ValueError (msg : pystr)
| ValueError_nao_registrado (extractor_type : pystr) (available_types : list pystr)
| OtherError (msg : pystr).

(** [repr] of a string without quotes, backslashes or control characters,
    and of a list of such strings. *)
Definition repr_str (s : pystr) : pystr := py "'" ++ s ++ py "'".
Definition repr_list (l : list pystr) : pystr :=
  py "[" ++ join (py ", ") (map repr_str l) ++ py "]".

(** [str(e)] *)
Definition exn_str (e : exn) : pystr :=
  match e with
  | KeyError k => repr_str k
  | ImportError m | PermissionError m | ValueError m | OtherError m => m
  | ValueError_nao_registrado t available =>
      py "Tipo de extrator '" ++ t ++ py "' não registrado. Tipos disponíveis: "
      ++ repr_list available
  end.

Definition is_PermissionError (e : exn) : bool :=
  match e with PermissionError _ => true | _ => false end.

Inductive res (A : Type) : Type :=
| Ret (a : A)
| Raise (e : exn).
Arguments Ret {A} a.
Arguments Raise {A} e.

#[global] Instance res_ret : MRet res := fun A a => Ret a.
#[global] Instance res_bind : MBind res := fun A B k m =>
  match m with
  | Ret a => k a
  | Raise e => Raise e
  end.

Fixpoint mapM {A B} (f : A -> res B) (l : list A) : res (list B) :=
  match l with
  | [] => Ret []
  | a :: l' => b ← f a; bs ← mapM f l'; Ret (b :: bs)
  end.

(** ** The csv module, at the level of records *)

Module Csv.

(** One record is the list of its fields; a blank line reads as [[]]. *)
Abbreviation csv_row := (list pystr).

(** A path either does not exist ([None]) or holds the records that
    [csv.reader] yields from it, each written by [csv.writer.writerow]. *)
Abbreviation csv_file := (option (list (list pystr))).

(** A [dict] produced by [csv.DictReader]: the value of a field name is
    a string, or Python's [None] ([restval]) where the record is shorter
    than the header. The surplus of a longer record is stored under the
    key [None], which no string looks up. *)
Abbreviation row_dict := (gmap pystr (option pystr)).

(** [dict(zip(fieldnames, row))], later duplicates winning, followed by
    [d[key] = restval] for [key in fieldnames[len(row):]]. *)
Definition dict_row (fieldnames row : csv_row) : row_dict :=
  let d := foldl (fun d kv => <[fst kv := Some (snd kv)]> d) ∅ (zip fieldnames row) in
  foldl (fun d k => <[k := None]> d) d (drop (length row) fieldnames).

Definition nonblank (r : csv_row) : bool :=
  match r with [] => false | _ => true end.

(** [for row in csv.DictReader(f)]: the first record gives the field
    names, blank records are skipped. *)
Definition DictReader (records : list csv_row) : list row_dict :=
  match records with
  | [] => []
  | fieldnames :: rows => map (dict_row fieldnames) (filter (fun r => nonblank r = true) rows)
  end.

(** [row[k]] *)
Definition getitem (row : row_dict) (k : pystr) : res (option pystr) :=
  match row !! k with
  | Some v => Ret v
  | None => Raise (KeyError k)
  end.

End Csv.
Import Csv.

(** ** extracao_openai_vision_v3.py: the control ledger *)

Module Ledger.

Definition HEADER : csv_row :=
  [py "projeto"; py "arquivo_pdf"; py "hash_pdf"; py "data_processamento";
   py "status"; py "output_path"].

Abbreviation key5 := (option pystr * option pystr * option pystr * option pystr * option pystr)%type.
Abbreviation key3 := (option pystr * option pystr * option pystr)%type.

(** [(row['projeto'], row['arquivo_pdf'], row['hash_pdf'], row['status'],
    row['output_path'])] *)
Definition chave_de (row : row_dict) : res key5 :=
  p ← getitem row (py "projeto");
  a ← getitem row (py "arquivo_pdf");
  h ← getitem row (py "hash_pdf");
  s ← getitem row (py "status");
  o ← getitem row (py "output_path");
  Ret (p, a, h, s, o).

(** The set comprehension of [append_ctrl_csv]. *)
Definition registros_de (records : list csv_row) : res (gset key5) :=
  ks ← mapM chave_de (DictReader records);
  Ret (list_to_set ks).

(** [append_ctrl_csv(projeto, arquivo_pdf, hash_pdf, status, output_path,
    path)]; [agora] is [datetime.now().isoformat()] and [f] the state of
    [path]. The result is the new state of [path]. *)
Definition append_ctrl_csv (projeto arquivo_pdf hash_pdf status output_path : pystr)
    (agora : pystr) (f : csv_file) : res csv_file :=
  let existe := bool_decide (is_Some f) in
  registros ← match f with
               | Some records => registros_de records
               | None => Ret ∅
               end;
  let chave : key5 :=
    (Some projeto, Some arquivo_pdf, Some hash_pdf, Some status, Some output_path) in
  if bool_decide (chave ∈ registros) then Ret f
  else
    Ret (Some (default [] f
               ++ (if existe then [] else [HEADER])
               ++ [[projeto; arquivo_pdf; hash_pdf; agora; status; output_path]])).

(** [carrega_ctrl_csv(path)]: the dict comprehension keeps, for each
    key, the last record that has it. *)
Definition carrega_step (ctrl : gmap key3 row_dict) (row : row_dict)
    : res (gmap key3 row_dict) :=
  p ← getitem row (py "projeto");
  a ← getitem row (py "arquivo_pdf");
  h ← getitem row (py "hash_pdf");
  Ret (<[(p, a, h) := row]> ctrl).

Fixpoint carrega_rows (rows : list row_dict) (ctrl : gmap key3 row_dict)
    : res (gmap key3 row_dict) :=
  match rows with
  | [] => Ret ctrl
  | row :: rows' => ctrl' ← carrega_step ctrl row; carrega_rows rows' ctrl'
  end.

Definition carrega_ctrl_csv (f : csv_file) : res (gmap key3 row_dict) :=
  match f with
  | None => Ret ∅
  | Some records => carrega_rows (DictReader records) ∅
  end.

(** *** process_project *)

(** What one iteration of the loop over [pdf_files] observes. *)
Record pdf_env := {
  filename_pdf : pystr;        (* os.path.basename(pdf_file) *)
  hash_pdf : res pystr;        (* os.makedirs(pdf_dir), then hash_file(pdf_file) *)
  json_output_exists : bool;   (* os.path.exists(json_output) *)
  agora_processing : pystr;    (* datetime.now().isoformat(), "processing" record *)
  extraction : res bool;       (* extract_text_openai_vision(...) *)
  agora_status : pystr;        (* datetime.now().isoformat(), status record *)
  agora_error : pystr          (* datetime.now().isoformat(), record of the handler *)
}.

(** The ledger file, the counter and the positions (in [pdf_files], from
    0) of the files on which extraction was run. *)
Record run := {
  ledger : csv_file;
  success_count : nat;
  extracted : list nat
}.

(** [registro and registro['status'] == 'success' and
    os.path.exists(json_output)] *)
Definition ja_processado (registro : option row_dict) (json_exists : bool) : res bool :=
  match registro with
  | None => Ret false
  | Some r =>
      if bool_decide (r = ∅) then Ret false
      else
        status ← getitem r (py "status");
        Ret (bool_decide (status = Some (py "success")) && json_exists)
  end.

Section process_project.
Variable RESULTS_BASE_PATH : pystr.
Variable project_name : pystr.
Variable ctrl : gmap key3 row_dict.

Definition json_output_de (filename_pdf : pystr) : pystr :=
  let filename := splitext_root filename_pdf in
  let project_output_dir := RESULTS_BASE_PATH ++ py "/" ++ project_name in
  let pdf_dir := project_output_dir ++ py "/" ++ filename in
  pdf_dir ++ py "/openai_vision_" ++ filename ++ py ".json".

(** The body of the [for] loop; an exception leaves it with the state
    reached so far. *)
Definition process_pdf_file (i : nat) (e : pdf_env) (st : run) : run * option exn :=
  let json_output := json_output_de (filename_pdf e) in
  match hash_pdf e with
  | Raise x => (st, Some x)
  | Ret h =>
      let chave : key3 := (Some project_name, Some (filename_pdf e), Some h) in
      match ja_processado (ctrl !! chave) (json_output_exists e) with
      | Raise x => (st, Some x)
      | Ret true => (st, None)
      | Ret false =>
          match append_ctrl_csv project_name (filename_pdf e) h (py "processing")
                  json_output (agora_processing e) (ledger st) with
          | Raise x => (st, Some x)
          | Ret l1 =>
              let st1 := {| ledger := l1; success_count := success_count st;
                            extracted := extracted st ++ [i] |} in
              let tried : res (bool * csv_file) :=
                extraction e ≫= fun success : bool =>
                l2 ← append_ctrl_csv project_name (filename_pdf e) h
                       (if success then py "success" else py "error")
                       json_output (agora_status e) l1;
                Ret (success, l2) in
              match tried with
              | Ret (success, l2) =>
                  ({| ledger := l2;
                      success_count := (success_count st + if success then 1 else 0)%nat;
                      extracted := extracted st1 |}, None)
              | Raise _ =>
                  match append_ctrl_csv project_name (filename_pdf e) h (py "error")
                          json_output (agora_error e) l1 with
                  | Ret l3 =>
                      ({| ledger := l3; success_count := success_count st;
                          extracted := extracted st1 |}, None)
                  | Raise x => (st1, Some x)
                  end
              end
          end
      end
  end.

Fixpoint process_pdf_files (i : nat) (pdf_files : list pdf_env) (st : run)
    : run * option exn :=
  match pdf_files with
  | [] => (st, None)
  | e :: rest =>
      match process_pdf_file i e st with
      | (st', None) => process_pdf_files (S i) rest st'
      | (st', Some x) => (st', Some x)
      end
  end.

(** [process_project(project_name, ctrl, MAX_CONCURRENT_API_CALLS)];
    [pdf_files] is the sorted glob of the project directory and [l0]
    the ledger file when the call starts. Creating the output
    directories and moving the project afterwards do not touch the
    ledger and are taken to succeed. *)
Definition process_project (pdf_files : list pdf_env) (l0 : csv_file)
    : (pystr * bool * nat) * run :=
  let st0 := {| ledger := l0; success_count := 0; extracted := [] |} in
  match pdf_files with
  | [] => ((project_name, false, 0%nat), st0)
  | _ =>
      match process_pdf_files 0 pdf_files st0 with
      | (st, None) => ((project_name, true, success_count st), st)
      | (st, Some _) => ((project_name, false, 0%nat), st)
      end
  end.

End process_project.

End Ledger.
Import Ledger.

(** ** extracao_dados_pdf_openai.py *)

Module PdfOpenai.

(** *** verificar_pdf_valido *)

(** What is observable of a run: the attempts started and the calls of
    [time.sleep], in milliseconds ([1.0 * tentativa] is [1000 * tentativa],
    [0.2] is [200]). *)
Inductive event : Type :=
| Tentativa (n : nat)
| Sleep (ms : Z).

(** What the calls of one attempt return or raise. *)
Record tentativa_env := {
  t_exists : res bool;        (* pdf_path.exists() *)
  t_st_size : res N;          (* pdf_path.stat().st_size *)
  t_tempdir : option exn;     (* entering tempfile.TemporaryDirectory() *)
  t_convert : res nat;        (* len(convert_from_path(...)), or what it raises *)
  t_cleanup : option exn      (* leaving the TemporaryDirectory block *)
}.

Inductive flow : Type :=
| Return (r : bool * pystr)
| Continue.

Definition max_tentativas : nat := 3.

(** ['winerror 32' in error_msg or 'sendo usado por outro processo' in
    error_msg], with [error_msg = str(e).lower()] *)
Definition arquivo_em_uso (e : exn) : bool :=
  let error_msg := lower (exn_str e) in
  contains (py "winerror 32") error_msg
  || contains (py "sendo usado por outro processo") error_msg.

Definition keywords : list pystr :=
  [py "trailer dictionary"; py "xref table"; py "page count";
   py "syntax error"; py "not a pdf file"; py "corrupted"].

Definition str_nat (n : nat) : pystr := str_int (N.of_nat n).

(** The inner [try ... except Exception ... finally] around
    [convert_from_path]. *)
Definition converter (tentativa : nat) (env : tentativa_env) : flow * list event :=
  let '(fl, ev) :=
    match t_convert env with
    | Ret pages =>
        if (0 <? pages)%nat then (Return (true, py "PDF válido"), [Sleep 200])
        else (Return (false, py "PDF sem páginas válidas"), [])
    | Raise e =>
        let error_msg := lower (exn_str e) in
        if arquivo_em_uso e then
          if (tentativa <? max_tentativas)%nat
          then (Continue, [Sleep (1000 * Z.of_nat tentativa)])
          else (Return (false, py "Arquivo em uso após " ++ str_nat max_tentativas
                               ++ py " tentativas: " ++ exn_str e), [])
        else if existsb (fun keyword => contains keyword error_msg) keywords
        then (Return (false, py "PDF corrompido: " ++ exn_str e), [])
        else (Return (false, py "Erro ao processar PDF: " ++ exn_str e), [])
    end in
  (fl, ev ++ [Sleep 200]).

(** The outer [except Exception as e]. *)
Definition externo (tentativa : nat) (e : exn) : flow * list event :=
  if arquivo_em_uso e then
    if (tentativa <? max_tentativas)%nat
    then (Continue, [Sleep (1000 * Z.of_nat tentativa)])
    else (Return (false, py "Erro persistente após " ++ str_nat max_tentativas
                         ++ py " tentativas: " ++ exn_str e), [])
  else (Return (false, py "Erro na validação: " ++ exn_str e), []).

(** One iteration of [for tentativa in range(1, max_tentativas + 1)]. *)
Definition tentar (tentativa : nat) (env : tentativa_env) : flow * list event :=
  match t_exists env with
  | Raise e => externo tentativa e
  | Ret false => (Return (false, py "Arquivo não encontrado"), [])
  | Ret true =>
      match t_st_size env with
      | Raise e => externo tentativa e
      | Ret st_size =>
          if st_size =? 0 then (Return (false, py "Arquivo vazio"), [])
          else if st_size <? 100
          then (Return (false, py "Arquivo muito pequeno (possivelmente corrompido)"), [])
          else
            match t_tempdir env with
            | Some e => externo tentativa e
            | None =>
                let '(fl, ev) := converter tentativa env in
                match t_cleanup env with
                | Some e => let '(fl', ev') := externo tentativa e in (fl', ev ++ ev')
                | None => (fl, ev)
                end
            end
      end
  end.

Fixpoint tentativas_loop (envs : nat -> tentativa_env) (tentativa restantes : nat)
    : (bool * pystr) * list event :=
  match restantes with
  | O => ((false, py "Falha na validação após " ++ str_nat max_tentativas
                  ++ py " tentativas"), [])
  | S restantes' =>
      let '(fl, ev) := tentar tentativa (envs tentativa) in
      match fl with
      | Return r => (r, Tentativa tentativa :: ev)
      | Continue =>
          let '(r, ev') := tentativas_loop envs (S tentativa) restantes' in
          (r, Tentativa tentativa :: ev ++ ev')
      end
  end.

(** [verificar_pdf_valido(pdf_path)]; [envs n] is what attempt [n]
    meets. *)
Definition verificar_pdf_valido (envs : nat -> tentativa_env)
    : (bool * pystr) * list event :=
  tentativas_loop envs 1 max_tentativas.

(** *** gerar_csv_arquivos_pdfs *)

(** The files of the machine that matter here, by path: the records each
    one holds. *)
Abbreviation files := (gmap pystr (list (list pystr))).

Inductive wevent : Type :=
| EscreveCsv (tentativas : nat)     (* open(path_csv, "w") is tried *)
| BackupCriado (backup_path : pystr)
| BackupFalhou
| Dorme (segundos : Z)
| EscreveTemp (temp_csv_path : pystr).

(** What one attempt to write meets. *)
Record escrita_env := {
  w_backup_path : pystr;    (* path_csv.with_suffix('.backup_<now>.csv') *)
  w_copy2 : option exn;     (* shutil.copy2(path_csv, backup_path) *)
  w_escrita : option exn    (* open(path_csv, "w") and the writerow calls *)
}.

(** The records written: the header, then one record per element of
    [sorted(registros_unicos)]. *)
Definition conteudo (registros : list (pystr * pystr * pystr)) : list csv_row :=
  [py "nome"; py "caminho_arquivo"; py "caminho_subdir"]
  :: map (fun r => [r.1.1; r.1.2; r.2]) registros.

Section escrita.
Variable path_csv : pystr.
Variable registros : list (pystr * pystr * pystr).   (* sorted(registros_unicos) *)
Variable envs : nat -> escrita_env.
Variable temp_csv_path : pystr.      (* Path.home() / "Documents" / "csv_entrada_arquivos_temp_<now>.csv" *)
Variable temp_escrita : option exn.  (* open(temp_csv_path, "w") and the writerow calls *)

(** The body of [while not csv_escrito and tentativas < max_tentativas],
    with [tentativas] already incremented. A write that raises leaves
    the files as they were. *)
Definition escrever_uma (tentativas : nat) (fs : files)
    : res bool * files * list wevent :=
  let env := envs tentativas in
  let '(fs1, ev1) :=
    if bool_decide (is_Some (fs !! path_csv)) && (1 <? tentativas)%nat then
      match w_copy2 env, fs !! path_csv with
      | None, Some c => (<[w_backup_path env := c]> fs, [BackupCriado (w_backup_path env)])
      | _, _ => (fs, [BackupFalhou])
      end
    else (fs, []) in
  match w_escrita env with
  | None =>
      (Ret true, <[path_csv := conteudo registros]> fs1, ev1 ++ [EscreveCsv tentativas])
  | Some perm_error =>
      if is_PermissionError perm_error then
        if (tentativas <? max_tentativas)%nat
        then (Ret false, fs1, ev1 ++ [EscreveCsv tentativas; Dorme 2])
        else
          match temp_escrita with
          | None =>
              (Ret true, <[temp_csv_path := conteudo registros]> fs1,
               ev1 ++ [EscreveCsv tentativas; EscreveTemp temp_csv_path])
          | Some _ =>
              (Raise perm_error, fs1,
               ev1 ++ [EscreveCsv tentativas; EscreveTemp temp_csv_path])
          end
      else
        if (max_tentativas <=? tentativas)%nat
        then (Raise perm_error, fs1, ev1 ++ [EscreveCsv tentativas])
        else (Ret false, fs1, ev1 ++ [EscreveCsv tentativas])
  end.

Fixpoint escrever (restantes tentativas : nat) (fs : files)
    : res unit * files * list wevent :=
  match restantes with
  | O => (Ret tt, fs, [])
  | S restantes' =>
      if (tentativas <? max_tentativas)%nat then
        match escrever_uma (S tentativas) fs with
        | (Ret true, fs', ev) => (Ret tt, fs', ev)
        | (Ret false, fs', ev) =>
            let '(r, fs'', ev') := escrever restantes' (S tentativas) fs' in
            (r, fs'', ev ++ ev')
        | (Raise e, fs', ev) => (Raise e, fs', ev)
        end
      else (Ret tt, fs, [])
  end.

(** [gerar_csv_arquivos_pdfs(arquivos_pdfs, subdirs, path_csv)] from the
    point where [registros_unicos] is known: [vazio] is
    [not arquivos_pdfs], [em_uso] is [verificar_arquivo_em_uso(path_csv)]
    and [mkdir] what [csv_dir.mkdir(parents=True, exist_ok=True)]
    raises. The outer handler logs and raises the exception again. *)
Definition gerar_csv_arquivos_pdfs (vazio em_uso : bool) (mkdir : option exn) (fs : files)
    : res unit * files * list wevent :=
  if vazio then (Ret tt, fs, [])
  else if em_uso then
    (Raise (PermissionError (py "Arquivo está sendo usado por outro processo: " ++ path_csv)),
     fs, [])
  else
    match mkdir with
    | Some e => (Raise e, fs, [])
    | None => escrever max_tentativas 0 fs
    end.

End escrita.

End PdfOpenai.
Import PdfOpenai.

(** ** extracao_openai_vision_v3.py: the page requests of
       extract_text_openai_vision_async *)

Module Vision.

(** Where one coroutine [process_with_semaphore(page_num, image_data)]
    stands: before [async with semaphore], inside it and not yet awaiting
    [client.chat.completions.create], awaiting it, or past the block. *)
Inductive task : Type :=
| Waiting
| Acquired
| Requesting
| Finished.

#[global] Instance task_eq_dec : EqDecision task.
Proof. solve_decision. Defined.

(** The event loop during [asyncio.gather] of the tasks: the counter of the
    semaphore and one entry per page. *)
Record gather := {
  sem_value : N;
  tasks : list task
}.

(** [asyncio.Semaphore(max_concurrent)] *)
Definition Semaphore (value : Z) : res N :=
  if (value <? 0)%Z then Raise (ValueError (py "Semaphore initial value must be >= 0"))
  else Ret (Z.to_N value).

(** The semaphore is created once, then one task per element of
    [page_data] is handed to [asyncio.gather]. *)
Definition launch (max_concurrent : Z) (n_pages : nat) : res gather :=
  v ← Semaphore max_concurrent;
  Ret {| sem_value := v; tasks := replicate n_pages Waiting |}.

(** One scheduling step of the loop: a task enters the block when the
    counter is positive, issues its request, or gets its answer (or its
    exception, which [process_page_async] turns into a result) and
    leaves the block. *)
Inductive step : gather -> gather -> Prop :=
| step_acquire s i :
    tasks s !! i = Some Waiting ->
    0 < sem_value s ->
    step s {| sem_value := sem_value s - 1; tasks := <[i := Acquired]> (tasks s) |}
| step_request s i :
    tasks s !! i = Some Acquired ->
    step s {| sem_value := sem_value s; tasks := <[i := Requesting]> (tasks s) |}
| step_release s i :
    tasks s !! i = Some Requesting ->
    step s {| sem_value := sem_value s + 1; tasks := <[i := Finished]> (tasks s) |}.

Definition count (t : task) (s : gather) : nat :=
  length (filter (fun x => x = t) (tasks s)).

(** Page requests sent and not yet answered. *)
Definition in_flight (s : gather) : nat := count Requesting s.

End Vision.
Import Vision.

(** ** src/core and src/extractors *)

Module Extractors.

(** [ExtractionResult]; times are in milliseconds. The defaulted fields
    [metadata] and [timestamp] are never set by the extractors. *)
Record ExtractionResult := {
  file_path : pystr;
  success : bool;
  text_content : pystr;
  pages_processed : nat;
  extraction_method : pystr;
  processing_time : Z;
  file_size : N;
  error_message : option pystr
}.

Definition with_method (r : ExtractionResult) (m : pystr) : ExtractionResult :=
  {| file_path := file_path r; success := success r; text_content := text_content r;
     pages_processed := pages_processed r; extraction_method := m;
     processing_time := processing_time r; file_size := file_size r;
     error_message := error_message r |}.

(** The entries of a config dict that the extractors read: absent, or a
    value of the type the code expects. *)
Record config_dict := {
  cfg_use_pdfplumber : option bool;
  cfg_use_pypdf2 : option bool;
  cfg_min_text_length : option Z;
  cfg_prefer_direct : option bool;
  cfg_ocr_fallback : option bool;
  cfg_ocr_language : option pystr;
  cfg_ocr_dpi : option Z;
  cfg_ocr_max_pages : option Z
}.

(** [{}] *)
Definition empty_config : config_dict :=
  {| cfg_use_pdfplumber := None; cfg_use_pypdf2 := None; cfg_min_text_length := None;
     cfg_prefer_direct := None; cfg_ocr_fallback := None; cfg_ocr_language := None;
     cfg_ocr_dpi := None; cfg_ocr_max_pages := None |}.

(** What the file system says about [pdf_path]. *)
Record path_env := {
  p_path : pystr;
  p_exists : res bool;      (* pdf_path.exists() *)
  p_is_file : res bool;     (* pdf_path.is_file() *)
  p_suffix : pystr;         (* pdf_path.suffix *)
  p_st_size : res N         (* pdf_path.stat().st_size *)
}.

(** [BaseExtractor.validate_pdf] *)
Definition validate_pdf (p : path_env) : bool :=
  let checks : res bool :=
    p_exists p ≫= fun e : bool =>
    if negb e then Ret false else
    p_is_file p ≫= fun f : bool =>
    if negb f then Ret false else
    if negb (bool_decide (lower (p_suffix p) = py ".pdf")) then Ret false else
    p_st_size p ≫= fun n : N =>
    if n =? 0 then Ret false else Ret true in
  match checks with
  | Ret b => b
  | Raise _ => false
  end.

(** [self.get_file_info(pdf_path).get('file_size', 0)] *)
Definition file_info_size (p : path_env) : N :=
  match p_st_size p with
  | Ret n => n
  | Raise _ => 0
  end.

(** *** DirectExtractor *)

(** [page.extract_text()] of one page. *)
Inductive page_read : Type :=
| PageText (text : option pystr)
| PageRaises (e : exn).

(** What a library makes of the file: opening it and counting its pages
    raises, or gives the pages. *)
Inductive pdf_open : Type :=
| OpenRaises (e : exn)
| Opened (pages : list page_read).

Record backend_env := {
  b_open : pdf_open;
  b_clock : Z               (* time.time() when the result is built *)
}.

(** [f"=== PÁGINA {page_num} ===\n{text}\n"] *)
Definition page_block (page_num : nat) (text : pystr) : pystr :=
  py "=== PÁGINA " ++ str_int (N.of_nat page_num) ++ py " ===" ++ [10] ++ text ++ [10].

(** [text and text.strip()] *)
Definition has_text (text : option pystr) : bool :=
  match text with
  | Some t => truthy t && truthy (strip t)
  | None => false
  end.

(** The loop [for page_num, page in enumerate(pages, 1)]. *)
Fixpoint read_pages (page_num : nat) (pages : list page_read)
    (text_content : list pystr) (pages_processed : nat) : list pystr * nat :=
  match pages with
  | [] => (text_content, pages_processed)
  | PageText (Some text) :: rest =>
      if has_text (Some text)
      then read_pages (S page_num) rest (text_content ++ [page_block page_num text])
                      (S pages_processed)
      else read_pages (S page_num) rest text_content pages_processed
  | _ :: rest => read_pages (S page_num) rest text_content pages_processed
  end.

(** The common body of [_extract_with_pdfplumber] and
    [_extract_with_pypdf2], which differ in the library and its name. *)
Definition extract_with (method : pystr) (p : path_env) (start_time : Z)
    (file_size_ : N) (b : backend_env) : ExtractionResult :=
  match b_open b with
  | Opened pages =>
      let '(text_content, pages_processed) := read_pages 1 pages [] 0 in
      let success := (0 <? length text_content)%nat in
      let final_text := if success then join [10] text_content else [] in
      {| file_path := p_path p; success := success; text_content := final_text;
         pages_processed := pages_processed; extraction_method := method;
         processing_time := b_clock b - start_time; file_size := file_size_;
         error_message := None |}
  | OpenRaises e =>
      {| file_path := p_path p; success := false; text_content := [];
         pages_processed := 0; extraction_method := method;
         processing_time := b_clock b - start_time; file_size := file_size_;
         error_message := Some (py "Erro na extração com " ++ method ++ py ": " ++ exn_str e) |}
  end.

Definition _extract_with_pdfplumber := extract_with (py "pdfplumber").
Definition _extract_with_pypdf2 := extract_with (py "PyPDF2").

Record DirectExtractor := {
  use_pdfplumber : bool;
  use_pypdf2 : bool
}.

(** The libraries whose import succeeded. *)
Record libs := {
  PDFPLUMBER_AVAILABLE : bool;
  PYPDF2_AVAILABLE : bool;
  PDF2IMAGE_AVAILABLE : bool;
  PYTESSERACT_AVAILABLE : bool
}.

(** [DirectExtractor(config)]: [BaseExtractor.__init__] and
    [_setup_extractor]. *)
Definition DirectExtractor_init (l : libs) (config : config_dict) : res DirectExtractor :=
  let use_pdfplumber := PDFPLUMBER_AVAILABLE l && default true (cfg_use_pdfplumber config) in
  let use_pypdf2 := PYPDF2_AVAILABLE l && default true (cfg_use_pypdf2 config) in
  if negb use_pdfplumber && negb use_pypdf2
  then Raise (ImportError (py "Nem pdfplumber nem PyPDF2 estão disponíveis"))
  else Ret {| use_pdfplumber := use_pdfplumber; use_pypdf2 := use_pypdf2 |}.

Inductive backend : Type :=
| Pdfplumber
| PyPDF2.

(** What one call of [DirectExtractor.extract_text] meets. *)
Record direct_env := {
  d_path : path_env;
  d_start : Z;              (* start_time = time.time() *)
  d_plumber : backend_env;
  d_pypdf2 : backend_env;
  d_clock : Z               (* time.time() when extract_text builds a result itself *)
}.

Definition direct_name : pystr := py "Direct PDF Text Extractor".

(** [DirectExtractor.extract_text(pdf_path)], with the libraries tried,
    in order. *)
Definition direct_extract_text (self : DirectExtractor) (env : direct_env)
    : ExtractionResult * list backend :=
  let p := d_path env in
  let failure msg :=
    {| file_path := p_path p; success := false; text_content := [];
       pages_processed := 0; extraction_method := direct_name;
       processing_time := d_clock env - d_start env; file_size := file_info_size p;
       error_message := Some msg |} in
  if negb (validate_pdf p) then (failure (py "PDF inválido ou inacessível"), [])
  else
    let plumber :=
      if use_pdfplumber self
      then Some (_extract_with_pdfplumber p (d_start env) (file_info_size p) (d_plumber env))
      else None in
    let tried1 := match plumber with Some _ => [Pdfplumber] | None => [] end in
    let done1 :=
      match plumber with
      | Some result =>
          if success result && truthy (strip (text_content result)) then Some result else None
      | None => None
      end in
    match done1 with
    | Some result => (result, tried1)
    | None =>
        if use_pypdf2 self then
          let result := _extract_with_pypdf2 p (d_start env) (file_info_size p) (d_pypdf2 env) in
          if success result then (result, tried1 ++ [PyPDF2])
          else (failure (py "Não foi possível extrair texto com métodos diretos"),
                tried1 ++ [PyPDF2])
        else (failure (py "Não foi possível extrair texto com métodos diretos"), tried1)
    end.

(** *** OCRExtractor *)

Record OCRExtractor := {
  ocr_language : pystr;
  ocr_dpi : Z;
  max_pages : option Z
}.

(** [OCRExtractor(config)] *)
Definition OCRExtractor_init (l : libs) (config : config_dict) : res OCRExtractor :=
  if negb (PDF2IMAGE_AVAILABLE l)
  then Raise (ImportError (py "pdf2image não está disponível"))
  else if negb (PYTESSERACT_AVAILABLE l)
  then Raise (ImportError (py "pytesseract não está disponível"))
  else Ret {| ocr_language := default (py "por") (cfg_ocr_language config);
              ocr_dpi := default 300%Z (cfg_ocr_dpi config);
              max_pages := cfg_ocr_max_pages config |}.

(** *** HybridExtractor *)

(** The attributes of an instance; the two last ones do not exist
    ([None]) until an attempt of that kind has returned a result. *)
Record HybridExtractor := {
  min_text_threshold : Z;
  prefer_direct : bool;
  ocr_fallback : bool;
  _last_direct_result : option ExtractionResult;
  _last_ocr_result : option ExtractionResult
}.

(** [HybridExtractor(config)] *)
Definition HybridExtractor_init (config : config_dict) : res HybridExtractor :=
  Ret {| min_text_threshold := default 50%Z (cfg_min_text_length config);
         prefer_direct := default true (cfg_prefer_direct config);
         ocr_fallback := default true (cfg_ocr_fallback config);
         _last_direct_result := None;
         _last_ocr_result := None |}.

Definition set_last_direct (self : HybridExtractor) (r : option ExtractionResult) :=
  {| min_text_threshold := min_text_threshold self; prefer_direct := prefer_direct self;
     ocr_fallback := ocr_fallback self; _last_direct_result := r;
     _last_ocr_result := _last_ocr_result self |}.

Definition set_last_ocr (self : HybridExtractor) (r : option ExtractionResult) :=
  {| min_text_threshold := min_text_threshold self; prefer_direct := prefer_direct self;
     ocr_fallback := ocr_fallback self; _last_direct_result := _last_direct_result self;
     _last_ocr_result := r |}.

(** What one call of [HybridExtractor.extract_text] meets. [h_direct] is
    [ExtractorFactory.get_extractor('direct', None)] followed by
    [direct_extractor.extract_text(pdf_path)]: the result, or the
    exception either raises; [h_ocr] likewise for ['ocr']. *)
Record hybrid_env := {
  h_path : path_env;
  h_start : Z;
  h_clock : Z;
  h_direct : res ExtractionResult;
  h_ocr : res ExtractionResult
}.

Inductive attempt : Type :=
| DirectAttempt
| OCRAttempt.

Definition hybrid_name : pystr := py "Hybrid PDF Text Extractor".

Definition error_result (p : path_env) (method : pystr) (e : exn) : ExtractionResult :=
  {| file_path := p_path p; success := false; text_content := [];
     pages_processed := 0; extraction_method := method;
     processing_time := 0; file_size := 0; error_message := Some (exn_str e) |}.

Definition _try_direct_extraction (self : HybridExtractor) (env : hybrid_env)
    : ExtractionResult * HybridExtractor :=
  match h_direct env with
  | Ret result => (result, set_last_direct self (Some result))
  | Raise e => (error_result (h_path env) (py "Direct (Error)") e, self)
  end.

Definition _try_ocr_extraction (self : HybridExtractor) (env : hybrid_env)
    : ExtractionResult * HybridExtractor :=
  match h_ocr env with
  | Ret result => (result, set_last_ocr self (Some result))
  | Raise e => (error_result (h_path env) (py "OCR (Error)") e, self)
  end.

Definition _is_extraction_successful (self : HybridExtractor) (result : ExtractionResult)
    : bool :=
  if negb (success result) then false
  else if (Z.of_nat (length (strip (text_content result))) <? min_text_threshold self)%Z
  then false
  else if (pages_processed result =? 0)%nat then false
  else true.

(** "Se ambos falharam, retorna o melhor resultado disponível". The
    result returned is the object kept in the attribute, so renaming its
    method renames it there too. *)
Definition partial_result (self : HybridExtractor) (env : hybrid_env)
    : ExtractionResult * HybridExtractor :=
  match prefer_direct self, _last_direct_result self, _last_ocr_result self with
  | true, Some r, _ =>
      let r' := with_method r (hybrid_name ++ py " (Direct - Partial)") in
      (r', set_last_direct self (Some r'))
  | _, _, Some r =>
      let r' := with_method r (hybrid_name ++ py " (OCR - Partial)") in
      (r', set_last_ocr self (Some r'))
  | _, _, None =>
      ({| file_path := p_path (h_path env); success := false; text_content := [];
          pages_processed := 0; extraction_method := hybrid_name;
          processing_time := h_clock env - h_start env;
          file_size := file_info_size (h_path env);
          error_message := Some (py "Nenhum método de extração foi bem-sucedido") |}, self)
  end.

Definition ocr_strategy (self : HybridExtractor) (env : hybrid_env) (tried : list attempt)
    : ExtractionResult * HybridExtractor * list attempt :=
  if ocr_fallback self then
    let '(ocr_result, self1) := _try_ocr_extraction self env in
    if _is_extraction_successful self1 ocr_result then
      let r := with_method ocr_result (hybrid_name ++ py " (OCR)") in
      (r, set_last_ocr self1 (Some r), tried ++ [OCRAttempt])
    else (partial_result self1 env, tried ++ [OCRAttempt])
  else (partial_result self env, tried).

(** [HybridExtractor.extract_text(pdf_path)]: the result, the instance
    afterwards and the sub-extractors invoked, in order. *)
Definition hybrid_extract_text (self : HybridExtractor) (env : hybrid_env)
    : ExtractionResult * HybridExtractor * list attempt :=
  let p := h_path env in
  if negb (validate_pdf p) then
    ({| file_path := p_path p; success := false; text_content := [];
        pages_processed := 0; extraction_method := hybrid_name;
        processing_time := h_clock env - h_start env; file_size := file_info_size p;
        error_message := Some (py "PDF inválido ou inacessível") |}, self, [])
  else if prefer_direct self then
    let '(direct_result, self1) := _try_direct_extraction self env in
    if _is_extraction_successful self1 direct_result then
      let r := with_method direct_result (hybrid_name ++ py " (Direct)") in
      (r, set_last_direct self1 (Some r), [DirectAttempt])
    else ocr_strategy self1 env [DirectAttempt]
  else ocr_strategy self env [].

(** *** ExtractorFactory *)

Inductive extractor_class : Type :=
| DirectExtractor_class
| OCRExtractor_class
| HybridExtractor_class.

Inductive extractor : Type :=
| Direct (d : DirectExtractor)
| OCR (o : OCRExtractor)
| Hybrid (h : HybridExtractor).

(** [type(instance)] *)
Definition class_of (x : extractor) : extractor_class :=
  match x with
  | Direct _ => DirectExtractor_class
  | OCR _ => OCRExtractor_class
  | Hybrid _ => HybridExtractor_class
  end.

(** [extractor_class(config_dict)] *)
Definition new (l : libs) (c : extractor_class) (config : config_dict) : res extractor :=
  match c with
  | DirectExtractor_class => d ← DirectExtractor_init l config; Ret (Direct d)
  | OCRExtractor_class => o ← OCRExtractor_init l config; Ret (OCR o)
  | HybridExtractor_class => h ← HybridExtractor_init config; Ret (Hybrid h)
  end.

(** A [ConfigManager]: its identity and the fields of its
    [ExtractionConfig] that reach the extractors through [to_dict]. *)
Record ConfigManager := {
  cm_id : N;
  cm_min_text_length : Z;
  cm_ocr_language : pystr;
  cm_ocr_dpi : Z;
  cm_ocr_max_pages : option Z
}.

(** [config.config.to_dict()] *)
Definition to_dict (config : ConfigManager) : config_dict :=
  {| cfg_use_pdfplumber := None; cfg_use_pypdf2 := None;
     cfg_min_text_length := Some (cm_min_text_length config);
     cfg_prefer_direct := None; cfg_ocr_fallback := None;
     cfg_ocr_language := Some (cm_ocr_language config);
     cfg_ocr_dpi := Some (cm_ocr_dpi config);
     cfg_ocr_max_pages := cm_ocr_max_pages config |}.

(** A [dict] with string keys, in insertion order. *)
Fixpoint dict_get {V} (k : pystr) (d : list (pystr * V)) : option V :=
  match d with
  | [] => None
  | (k', v) :: d' => if bool_decide (k = k') then Some v else dict_get k d'
  end.

Fixpoint dict_set {V} (k : pystr) (v : V) (d : list (pystr * V)) : list (pystr * V) :=
  match d with
  | [] => [(k, v)]
  | (k', v') :: d' =>
      if bool_decide (k = k') then (k, v) :: d' else (k', v') :: dict_set k v d'
  end.

Definition keys {V} (d : list (pystr * V)) : list pystr := map fst d.

(** The two class attributes of [ExtractorFactory]. *)
Record ExtractorFactory := {
  _extractors : list (pystr * extractor_class);
  _instances : list (pystr * extractor)
}.

(** [ExtractorFactory.register_extractor(extractor_type, extractor_class)] *)
Definition register_extractor (cls : ExtractorFactory) (extractor_type : pystr)
    (c : extractor_class) : ExtractorFactory :=
  {| _extractors := dict_set extractor_type c (_extractors cls);
     _instances := _instances cls |}.

(** [ExtractorFactory.create_extractor(extractor_type, config)]: what it
    returns or raises, and the factory afterwards. *)
Definition create_extractor (l : libs) (cls : ExtractorFactory) (extractor_type : pystr)
    (config : option ConfigManager) : res extractor * ExtractorFactory :=
  if negb (bool_decide (extractor_type ∈ keys (_extractors cls))) then
    let available_types := keys (_extractors cls) in
    (Raise (ValueError_nao_registrado extractor_type available_types), cls)
  else
    match dict_get extractor_type (_extractors cls) with
    | None => (Raise (KeyError extractor_type), cls)
    | Some extractor_class =>
        let config_dict :=
          match config with
          | Some c => to_dict c
          | None => empty_config
          end in
        (new l extractor_class config_dict, cls)
    end.

(** [ExtractorFactory.get_extractor(extractor_type, config)] *)
Definition get_extractor (l : libs) (cls : ExtractorFactory) (extractor_type : pystr)
    (config : option ConfigManager) : res extractor * ExtractorFactory :=
  let cache_key :=
    extractor_type ++ py "_"
    ++ match config with
       | Some c => str_int (cm_id c)
       | None => py "default"
       end in
  match dict_get cache_key (_instances cls) with
  | Some x => (Ret x, cls)
  | None =>
      match create_extractor l cls extractor_type config with
      | (Ret x, cls') =>
          (Ret x, {| _extractors := _extractors cls';
                     _instances := dict_set cache_key x (_instances cls') |})
      | (Raise e, cls') => (Raise e, cls')
      end
  end.

End Extractors.
Import Extractors.

(** ** extracao_openai_vision_v3.py: the other readers and writers of the
       ledger *)

Module LedgerTools.

(** [carregar_csv_em_memoria(csv_path)]: the set of the [arquivo_pdf]
    values and the records. *)
Definition carregar_csv_em_memoria (f : csv_file)
    : res (gset (option pystr) * list row_dict) :=
  match f with
  | None => Ret (∅, [])
  | Some records =>
      nomes ← mapM (fun row => getitem row (py "arquivo_pdf")) (DictReader records);
      Ret (list_to_set nomes, DictReader records)
  end.

(** [append_registro_csv(dados, csv_path)]: the new state of the file. *)
Definition append_registro_csv (dados : csv_row) (f : csv_file) : csv_file :=
  let existe := bool_decide (is_Some f) in
  Some (default [] f
        ++ (if existe then []
            else [[py "projeto"; py "arquivo_pdf"; py "hash_pdf"; py "data_processamento";
                   py "status"; py "output_path"]])
        ++ [dados]).

(** One PDF that [processados_dir.rglob("*.pdf")] yields. *)
Record pdf_achado := {
  a_name : pystr;          (* pdf_path.name *)
  a_projeto : res pystr;   (* pdf_path.parents[1].name *)
  a_hash : res pystr;      (* the SHA-256 of its bytes, or what reading it raises *)
  a_agora : pystr;         (* datetime.now().isoformat() *)
  a_str : pystr            (* str(pdf_path) *)
}.

(** The loop of [corrigir_csv_com_base_processados]: the file, the paths
    added and the exception that stopped it, if any. [nomes_csv] is read
    once, before the loop. *)
Fixpoint corrigir_loop (nomes_csv : gset (option pystr)) (pdfs : list pdf_achado)
    (f : csv_file) (pdfs_faltantes : list pystr) : csv_file * list pystr * option exn :=
  match pdfs with
  | [] => (f, pdfs_faltantes, None)
  | pdf :: rest =>
      if bool_decide (Some (a_name pdf) ∈ nomes_csv)
      then corrigir_loop nomes_csv rest f pdfs_faltantes
      else
        match a_projeto pdf with
        | Raise e => (f, pdfs_faltantes, Some e)
        | Ret projeto =>
            let hash_pdf := match a_hash pdf with Ret h => h | Raise _ => [] end in
            let registro :=
              [projeto; a_name pdf; hash_pdf; a_agora pdf; py "missing_in_csv"; a_str pdf] in
            corrigir_loop nomes_csv rest (append_registro_csv registro f)
              (pdfs_faltantes ++ [a_str pdf])
        end
  end.

(** [corrigir_csv_com_base_processados(processados_path, csv_path)] *)
Definition corrigir_csv_com_base_processados (pdfs : list pdf_achado) (f : csv_file)
    : csv_file * list pystr * option exn :=
  match carregar_csv_em_memoria f with
  | Raise e => (f, [], Some e)
  | Ret (nomes_csv, _) => corrigir_loop nomes_csv pdfs f []
  end.

End LedgerTools.
Import LedgerTools.


(** ** The extractors: the remaining methods *)

Module MoreExtractors.

(** *** ExtractorFactory *)

(** [ExtractorFactory.get_available_extractors()] *)
Definition get_available_extractors (cls : ExtractorFactory) : list pystr :=
  keys (_extractors cls).

(** [ExtractorFactory.clear_cache()] *)
Definition clear_cache (cls : ExtractorFactory) : ExtractorFactory :=
  {| _extractors := _extractors cls; _instances := [] |}.

(** The key under which [get_extractor] caches an instance. *)
Definition cache_key (extractor_type : pystr) (config : option ConfigManager) : pystr :=
  extractor_type ++ py "_"
  ++ match config with
     | Some c => str_int (cm_id c)
     | None => py "default"
     end.

(** [extractor.is_suitable_for(pdf_path)], as the three classes define
    it. *)
Definition is_suitable_for (x : extractor) (p : path_env) : bool :=
  match x with
  | Direct _ => if negb (validate_pdf p) then false else true
  | OCR _ => if negb (validate_pdf p) then false else true
  | Hybrid _ => validate_pdf p
  end.

(** The first loop of [auto_select_extractor]; [envs t] is what the file
    system says about [pdf_path] when the extractor of type [t] is asked.
    An exception of [get_extractor] is logged and the type passed over. *)
Fixpoint suitable_loop (l : libs) (config : option ConfigManager) (envs : pystr -> path_env)
    (types : list pystr) (cls : ExtractorFactory) (suitable_extractors : list (pystr * extractor))
    : list (pystr * extractor) * ExtractorFactory :=
  match types with
  | [] => (suitable_extractors, cls)
  | extractor_type :: rest =>
      match get_extractor l cls extractor_type config with
      | (Ret x, cls') =>
          suitable_loop l config envs rest cls'
            (if is_suitable_for x (envs extractor_type)
             then suitable_extractors ++ [(extractor_type, x)]
             else suitable_extractors)
      | (Raise _, cls') => suitable_loop l config envs rest cls' suitable_extractors
      end
  end.

(** [ExtractorFactory.auto_select_extractor(pdf_path, config)] *)
Definition auto_select_extractor (l : libs) (cls : ExtractorFactory)
    (envs : pystr -> path_env) (config : option ConfigManager)
    : res extractor * ExtractorFactory :=
  let '(suitable_extractors, cls1) :=
    suitable_loop l config envs (keys (_extractors cls)) cls [] in
  match suitable_extractors with
  | [] =>
      if bool_decide (py "hybrid" ∈ keys (_extractors cls1))
      then get_extractor l cls1 (py "hybrid") config
      else
        match keys (_extractors cls1) with
        | first_type :: _ => get_extractor l cls1 first_type config
        | [] => (Raise (ValueError (py "Nenhum extrator disponível")), cls1)
        end
  | (selected_type, selected_extractor) :: _ =>
      match find (fun te : pystr * extractor => bool_decide (te.1 = py "hybrid"))
              suitable_extractors with
      | Some (_, x) => (Ret x, cls1)
      | None => (Ret selected_extractor, cls1)
      end
  end.

(** *** HybridExtractor: the adaptive strategy *)

(** [_estimate_pdf_type(pdf_path)]. The size is compared in bytes:
    [st_size / (1024 * 1024) > 50] holds exactly when
    [st_size > 52428800], and [< 1] exactly when [st_size < 1048576]. *)
Definition _estimate_pdf_type (p : path_env) : pystr :=
  match p_st_size p with
  | Ret st_size =>
      if 52428800 <? st_size then py "scanned"
      else if st_size <? 1048576 then py "native"
      else py "mixed"
  | Raise _ => py "mixed"
  end.

(** [HybridExtractor.extract_with_adaptive_strategy(pdf_path)]: the
    result, the instance afterwards and the sub-extractors invoked. A
    result that is renamed is the object kept in the attribute. *)
Definition extract_with_adaptive_strategy (self : HybridExtractor) (env : hybrid_env)
    : ExtractionResult * HybridExtractor * list attempt :=
  let pdf_type := _estimate_pdf_type (h_path env) in
  if bool_decide (pdf_type = py "native") then hybrid_extract_text self env
  else if bool_decide (pdf_type = py "scanned") then
    let '(ocr_result, self1) := _try_ocr_extraction self env in
    if success ocr_result then
      let r := with_method ocr_result (hybrid_name ++ py " (OCR Direct)") in
      (r, match h_ocr env with
          | Ret _ => set_last_ocr self1 (Some r)
          | Raise _ => self1
          end, [OCRAttempt])
    else
      let '(direct_result, self2) := _try_direct_extraction self1 env in
      if success direct_result then
        let r := with_method direct_result (hybrid_name ++ py " (Direct Fallback)") in
        (r, match h_direct env with
            | Ret _ => set_last_direct self2 (Some r)
            | Raise _ => self2
            end, [OCRAttempt; DirectAttempt])
      else (direct_result, self2, [OCRAttempt; DirectAttempt])
  else hybrid_extract_text self env.

(** *** OCRExtractor.extract_text *)

(** What one call of [OCRExtractor.extract_text] meets: the images that
    [convert_from_path] gives, each with what
    [pytesseract.image_to_string] makes of it, or the exception that
    the conversion raises. *)
Record ocr_env := {
  o_path : path_env;
  o_start : Z;                        (* start_time = time.time() *)
  o_convert : res (list (res pystr));
  o_clock : Z                         (* time.time() when the result is built *)
}.

(** The [metadata] that [_extract_with_ocr] attaches to the result it
    builds after the loop; it is carried beside the record. *)
Record ocr_metadata := {
  md_ocr_language : pystr;
  md_ocr_dpi : Z;
  md_total_pages : nat;
  md_pages_limited : bool
}.

Definition ocr_name : pystr := py "OCR PDF Text Extractor".

(** [str(n)] of an [int]. *)
Definition str_Z (n : Z) : pystr :=
  if (n <? 0)%Z then py "-" ++ str_int (Z.to_N (- n)) else str_int (Z.to_N n).

(** [min(total_pages, self.max_pages) if self.max_pages else total_pages],
    as the number of rounds of [range(pages_to_process)]. *)
Definition pages_to_process (self : OCRExtractor) (total_pages : nat) : nat :=
  match max_pages self with
  | Some m =>
      if (m =? 0)%Z then total_pages
      else Z.to_nat (Z.min (Z.of_nat total_pages) m)
  | None => total_pages
  end.

(** [self.max_pages and total_pages > self.max_pages] *)
Definition limited (self : OCRExtractor) (total_pages : nat) : bool :=
  match max_pages self with
  | Some m => negb (m =? 0)%Z && (m <? Z.of_nat total_pages)%Z
  | None => false
  end.

Definition nota (total_pages : nat) (m : Z) : pystr :=
  [10] ++ py "[NOTA: PDF tem " ++ str_int (N.of_nat total_pages)
  ++ py " páginas, mas apenas " ++ str_Z m ++ py " foram processadas via OCR]" ++ [10].

(** The loop [for page_num in range(pages_to_process)] over the images it
    reaches: the blocks, the counter and the pages given to
    [image_to_string], numbered from 1. *)
Fixpoint ocr_pages (page_num : nat) (images : list (res pystr))
    (text_content : list pystr) (pages_processed : nat) (lidas : list nat)
    : list pystr * nat * list nat :=
  match images with
  | [] => (text_content, pages_processed, lidas)
  | Ret text :: rest =>
      if truthy (strip text)
      then ocr_pages (S page_num) rest (text_content ++ [page_block (S page_num) text])
             (S pages_processed) (lidas ++ [S page_num])
      else ocr_pages (S page_num) rest text_content pages_processed (lidas ++ [S page_num])
  | Raise _ :: rest =>
      ocr_pages (S page_num) rest text_content pages_processed (lidas ++ [S page_num])
  end.

(** [OCRExtractor._extract_with_ocr(pdf_path, start_time, file_info)] *)
Definition _extract_with_ocr (self : OCRExtractor) (env : ocr_env)
    : ExtractionResult * option ocr_metadata * list nat :=
  let p := o_path env in
  match o_convert env with
  | Ret images =>
      let total_pages := length images in
      let '(blocks, pages_processed, lidas) :=
        ocr_pages 0 (take (pages_to_process self total_pages) images) [] 0%nat [] in
      let text_content :=
        if limited self total_pages
        then blocks ++ [nota total_pages (default 0%Z (max_pages self))]
        else blocks in
      let success := (0 <? length text_content)%nat in
      ({| file_path := p_path p; success := success;
          text_content := if success then join [10] text_content else [];
          pages_processed := pages_processed; extraction_method := py "Tesseract OCR";
          processing_time := o_clock env - o_start env; file_size := file_info_size p;
          error_message :=
            if success then None
            else Some (py "OCR não conseguiu extrair texto de nenhuma página") |},
       Some {| md_ocr_language := ocr_language self; md_ocr_dpi := ocr_dpi self;
               md_total_pages := total_pages;
               md_pages_limited :=
                 match max_pages self with
                 | Some m => (m <? Z.of_nat total_pages)%Z
                 | None => false
                 end |},
       lidas)
  | Raise e =>
      ({| file_path := p_path p; success := false; text_content := [];
          pages_processed := 0; extraction_method := py "Tesseract OCR";
          processing_time := o_clock env - o_start env; file_size := file_info_size p;
          error_message := Some (py "Erro na extração OCR: " ++ exn_str e) |}, None, [])
  end.

(** [OCRExtractor.extract_text(pdf_path)] *)
Definition ocr_extract_text (self : OCRExtractor) (env : ocr_env)
    : ExtractionResult * option ocr_metadata * list nat :=
  let p := o_path env in
  if negb (validate_pdf p) then
    ({| file_path := p_path p; success := false; text_content := [];
        pages_processed := 0; extraction_method := ocr_name;
        processing_time := o_clock env - o_start env; file_size := file_info_size p;
        error_message := Some (py "PDF inválido ou inacessível") |}, None, [])
  else _extract_with_ocr self env.

End MoreExtractors.
Import MoreExtractors.

(** ** async_processor.py: batches, statistics and the text written out *)

Module AsyncProcessor.

(** The integer fields of [ProcessingStats]; the float
    [total_processing_time] and the two timestamps are left out. *)
Record ProcessingStats := {
  total_files : nat;
  processed_files : nat;
  successful_extractions : nat;
  failed_extractions : nat;
  total_characters_extracted : nat
}.

(** [result.characters_extracted] *)
Definition characters_extracted (result : ExtractionResult) : nat :=
  if truthy (text_content result) then length (text_content result) else 0%nat.

(** [_update_stats(result)] *)
Definition _update_stats (stats : ProcessingStats) (result : ExtractionResult)
    : ProcessingStats :=
  if success result then
    {| total_files := total_files stats;
       processed_files := S (processed_files stats);
       successful_extractions := S (successful_extractions stats);
       failed_extractions := failed_extractions stats;
       total_characters_extracted :=
         (total_characters_extracted stats + characters_extracted result)%nat |}
  else
    {| total_files := total_files stats;
       processed_files := S (processed_files stats);
       successful_extractions := successful_extractions stats;
       failed_extractions := S (failed_extractions stats);
       total_characters_extracted := total_characters_extracted stats |}.

(** One file of the list: its path and what the task that runs
    [_process_single_file] on it hands to [asyncio.gather]. *)
Abbreviation tarefa := (pystr * res ExtractionResult)%type.

(** The entry of [processed_results] for one task. *)
Definition resultado_de (t : tarefa) : ExtractionResult :=
  match t.2 with
  | Ret result => result
  | Raise e =>
      {| file_path := t.1; success := false; text_content := [];
         pages_processed := 0; extraction_method := py "Error";
         processing_time := 0; file_size := 0; error_message := Some (exn_str e) |}
  end.

Record AsyncPDFProcessor := {
  max_workers : Z;
  batch_size : Z;
  (* what the progress callback raises when called with (processed, total) *)
  progress_callback : option (nat -> nat -> option exn)
}.

(** [_process_batch(batch, extractor_type)]; the callback for a processed
    file only observes, and what it raises is logged. *)
Definition _process_batch (self : AsyncPDFProcessor) (batch : list tarefa)
    (stats : ProcessingStats) : res (list ExtractionResult) * ProcessingStats :=
  if (max_workers self <=? 0)%Z
  then (Raise (ValueError (py "max_workers must be greater than 0")), stats)
  else
    let processed_results := map resultado_de batch in
    (Ret processed_results, foldl _update_stats stats processed_results).

(** [range(i, stop, step)] for a positive [step]. *)
Fixpoint range_step (fuel : nat) (i stop step : nat) : list nat :=
  match fuel with
  | O => []
  | S fuel' => if (i <? stop)%nat then i :: range_step fuel' (i + step) stop step else []
  end.

(** The loop of [process_files] over the starts of the batches: what it
    returns or raises, the statistics and the calls of the progress
    callback. *)
Fixpoint process_batches (self : AsyncPDFProcessor) (pdf_files : list tarefa)
    (starts : list nat) (results : list ExtractionResult) (stats : ProcessingStats)
    (calls : list (nat * nat))
    : res (list ExtractionResult) * ProcessingStats * list (nat * nat) :=
  match starts with
  | [] => (Ret results, stats, calls)
  | i :: rest =>
      let batch := take (Z.to_nat (batch_size self)) (drop i pdf_files) in
      match _process_batch self batch stats with
      | (Raise e, stats') => (Raise e, stats', calls)
      | (Ret batch_results, stats') =>
          let results' := results ++ batch_results in
          match progress_callback self with
          | None => process_batches self pdf_files rest results' stats' calls
          | Some callback =>
              let calls' := calls ++ [(length results', length pdf_files)] in
              match callback (length results') (length pdf_files) with
              | None => process_batches self pdf_files rest results' stats' calls'
              | Some e => (Raise e, stats', calls')
              end
          end
      end
  end.

(** [process_files(pdf_files, extractor_type)] *)
Definition process_files (self : AsyncPDFProcessor) (pdf_files : list tarefa)
    : res (list ExtractionResult) * ProcessingStats * list (nat * nat) :=
  let stats :=
    {| total_files := length pdf_files; processed_files := 0;
       successful_extractions := 0; failed_extractions := 0;
       total_characters_extracted := 0 |} in
  if (batch_size self =? 0)%Z
  then (Raise (ValueError (py "range() arg 3 must not be zero")), stats, [])
  else if (batch_size self <? 0)%Z then (Ret [], stats, [])
  else
    process_batches self pdf_files
      (range_step (length pdf_files) 0 (length pdf_files) (Z.to_nat (batch_size self)))
      [] stats [].

(** [s.replace(old, new)] for a pattern of one character, and for one of
    two different characters. *)
Definition replace1 (old : N) (new : pystr) (s : pystr) : pystr :=
  flat_map (fun c => if c =? old then new else [c]) s.

Fixpoint replace2 (a b : N) (new : pystr) (s : pystr) : pystr :=
  match s with
  | [] => []
  | c :: s' =>
      match s' with
      | d :: s'' =>
          if (c =? a) && (d =? b) then new ++ replace2 a b new s''
          else c :: replace2 a b new s'
      | [] => [c]
      end
  end.

(** The [cleaned_content] that [_save_text_result] writes. *)
Definition cleaned_content (text_content : pystr) : pystr :=
  let c1 := replace1 0 [] text_content in
  let c2 := replace1 65279 [] c1 in
  replace1 13 [10] (replace2 13 10 [10] c2).

End AsyncProcessor.
Import AsyncProcessor.

(** ** extracao_dados_pdf_openai.py: the CSVs of directories *)

Module CsvTools.

(** [row.get(k)] *)
Definition row_get (row : row_dict) (k : pystr) : option pystr :=
  match row !! k with
  | Some v => v
  | None => None
  end.

(** The values of a column that are truthy, as the set that
    [comparar_csvs_faltantes] and [remover_pastas_csv] build. *)
Definition nomes_da_coluna (coluna_nome : pystr) (records : list csv_row) : gset pystr :=
  list_to_set
    (omap (fun row =>
             match row_get row coluna_nome with
             | Some nome => if truthy nome then Some nome else None
             | None => None
             end) (DictReader records)).

(** *** gerar_csv_manter_diretorios *)

(** The loop over [subdirs], each given as [(subdir.name, str(subdir))]:
    the records written. *)
Fixpoint manter_loop (subdirs : list (pystr * pystr)) (subdirs_unicos : gset pystr)
    : list csv_row :=
  match subdirs with
  | [] => []
  | (nome, caminho) :: rest =>
      if bool_decide (nome ∉ subdirs_unicos)
      then [nome; caminho] :: manter_loop rest ({[nome]} ∪ subdirs_unicos)
      else manter_loop rest subdirs_unicos
  end.

(** [gerar_csv_manter_diretorios(path_entrada, path_csv_entrada)]:
    [listar] is what [listar_pdfs_hibrido] gives as [subdirs] or raises,
    [abrir] what opening and writing the CSV raises. *)
Definition gerar_csv_manter_diretorios (listar : res (list (pystr * pystr)))
    (abrir : option exn) (path_csv_entrada : pystr) (fs : files) : res unit * files :=
  match listar with
  | Raise e => (Raise e, fs)
  | Ret subdirs =>
      match abrir with
      | Some e => (Raise e, fs)
      | None =>
          (Ret tt,
           <[path_csv_entrada := [py "nome"; py "caminho"] :: manter_loop subdirs ∅]> fs)
      end
  end.

(** *** remover_pastas_csv *)

(** An entry of [path_entrada.iterdir()]. *)
Record pasta := {
  item_name : pystr;
  item_is_dir : bool;
  item_rmtree : option exn    (* what shutil.rmtree(item) raises *)
}.

(** The loop over the entries: the names removed, in order, and the
    exception that stopped it. *)
Fixpoint remover_loop (nomes_permitidos : gset pystr) (items : list pasta)
    : list pystr * option exn :=
  match items with
  | [] => ([], None)
  | item :: rest =>
      if item_is_dir item && bool_decide (item_name item ∉ nomes_permitidos) then
        match item_rmtree item with
        | Some e => ([], Some e)
        | None =>
            let '(removidos, e) := remover_loop nomes_permitidos rest in
            (item_name item :: removidos, e)
        end
      else remover_loop nomes_permitidos rest
  end.

(** [remover_pastas_csv(path_csv, path_entrada)]: the directories removed
    and the exception raised again, if any. *)
Definition remover_pastas_csv (path_csv : pystr) (entrada_existe : bool)
    (items : res (list pasta)) (fs : files) : list pystr * option exn :=
  match fs !! path_csv with
  | None => ([], None)
  | Some records =>
      if negb entrada_existe then ([], None)
      else
        match items with
        | Raise e => ([], Some e)
        | Ret l => remover_loop (nomes_da_coluna (py "nome") records) l
        end
  end.

(** *** comparar_csvs_faltantes *)

(** [DictWriter.writerow(row)] for a row that [DictReader] made of
    [record]: a record longer than the header carries its surplus under
    the key [None], which the writer refuses; a missing field ([None]) is
    written as the empty string. *)
Definition escreve_linha (fieldnames record : csv_row) : res csv_row :=
  if (length fieldnames <? length record)%nat
  then Raise (ValueError (py "dict contains fields not in fieldnames: None"))
  else Ret (map (fun k => default [] (row_get (dict_row fieldnames record) k)) fieldnames).

(** The rows written one after the other until one is refused. *)
Fixpoint escreve_linhas (fieldnames : csv_row) (records : list csv_row)
    : list csv_row * option exn :=
  match records with
  | [] => ([], None)
  | record :: rest =>
      match escreve_linha fieldnames record with
      | Raise e => ([], Some e)
      | Ret linha =>
          let '(linhas, e) := escreve_linhas fieldnames rest in
          (linha :: linhas, e)
      end
  end.

(** [nome and nome not in nomes_comparacao], with
    [nome = row.get(coluna_nome)] *)
Definition falta (coluna_nome : pystr) (nomes_comparacao : gset pystr)
    (fieldnames record : csv_row) : bool :=
  match row_get (dict_row fieldnames record) coluna_nome with
  | Some nome => truthy nome && bool_decide (nome ∉ nomes_comparacao)
  | None => false
  end.

Definition nao_encontrado (path : pystr) : exn :=
  OtherError (py "[Errno 2] No such file or directory: " ++ repr_str path).

(** [comparar_csvs_faltantes(path_csv_fonte, path_csv_comparacao,
    path_csv_saida, coluna_nome)]; the handler logs and raises again. *)
Definition comparar_csvs_faltantes (path_csv_fonte path_csv_comparacao path_csv_saida
    coluna_nome : pystr) (fs : files) : res unit * files :=
  match fs !! path_csv_comparacao with
  | None => (Raise (nao_encontrado path_csv_comparacao), fs)
  | Some comparacao =>
      let nomes_comparacao := nomes_da_coluna coluna_nome comparacao in
      match fs !! path_csv_fonte with
      | None => (Raise (nao_encontrado path_csv_fonte), fs)
      | Some [] =>
          (* reader_fonte.fieldnames reads from the closed file *)
          (Raise (ValueError (py "I/O operation on closed file.")),
           <[path_csv_saida := []]> fs)
      | Some (fieldnames :: rows) =>
          let registros_faltantes :=
            filter (fun record => falta coluna_nome nomes_comparacao fieldnames record = true)
                   (filter (fun r => nonblank r = true) rows) in
          let '(linhas, e) := escreve_linhas fieldnames registros_faltantes in
          (match e with Some x => Raise x | None => Ret tt end,
           <[path_csv_saida := fieldnames :: linhas]> fs)
      end
  end.

End CsvTools.
Import CsvTools.

(** ** extracao_openai_vision_v3.py: the text and the files of
       extract_text_openai_vision_async *)

Module VisionText.

(** [f"=== PÁGINA {page_num} ===\n"] and [f"\n\n{'='*30}\n\n"] *)
Definition cabecalho_pagina (page_num : nat) : pystr :=
  py "=== PÁGINA " ++ str_nat page_num ++ py " ===" ++ [10].

Definition separador : pystr := [10; 10] ++ replicate 30 61 ++ [10; 10].

(** What [process_page_async] returns as [page_text]: the content of the
    answer ([None] when the answer has none), or the error text. *)
Definition page_text_de (resposta : res (option pystr)) : option pystr :=
  match resposta with
  | Ret content => content
  | Raise e => Some (py "[ERRO NA API OPENAI: " ++ exn_str e ++ py "]")
  end.

(** The three strings appended for one entry of [results]. *)
Definition trecho_pagina (r : nat * option pystr) : list pystr :=
  match r.2 with
  | Some page_text =>
      if truthy page_text && truthy (strip page_text)
         && negb (startswith (py "[ERRO") page_text)
      then [cabecalho_pagina r.1; strip page_text; separador]
      else [cabecalho_pagina r.1;
            if truthy page_text then page_text
            else py "[PÁGINA EM BRANCO OU SEM TEXTO DETECTADO]";
            separador]
  | None =>
      [cabecalho_pagina r.1; py "[PÁGINA EM BRANCO OU SEM TEXTO DETECTADO]"; separador]
  end.

(** [results.sort(key=lambda x: x[0])]: a stable sort by page number. *)
Fixpoint insere (x : nat * option pystr) (l : list (nat * option pystr))
    : list (nat * option pystr) :=
  match l with
  | [] => [x]
  | y :: l' => if (x.1 <=? y.1)%nat then x :: l else y :: insere x l'
  end.

Definition ordena (l : list (nat * option pystr)) : list (nat * option pystr) :=
  foldr insere [] l.

(** The six strings at the head of [extracted_text]. *)
Definition cabecalho (basename agora : pystr) (paginas : nat) (max_concurrent : Z)
    : list pystr :=
  [py "=== EXTRAÇÃO OPENAI VISION API (ASSÍNCRONA) ===" ++ [10];
   py "Arquivo: " ++ basename ++ [10];
   py "Data/Hora: " ++ agora ++ [10];
   py "Páginas processadas: " ++ str_nat paginas ++ [10];
   py "Processamento: PARALELO (" ++ str_Z max_concurrent
     ++ py " requisições simultâneas)" ++ [10];
   replicate 50 61 ++ [10; 10]].

(** [extracted_text] after the loop over [results]; [respostas] holds,
    page by page, what the request of the page gave. [asyncio.gather]
    returns the results in the order of the tasks, each with the number
    of its page. *)
Definition extracted_text (basename agora : pystr) (max_concurrent : Z)
    (respostas : list (res (option pystr))) : list pystr :=
  let results := imap (fun i resposta => (S i, page_text_de resposta)) respostas in
  cabecalho basename agora (length respostas) max_concurrent
  ++ flat_map trecho_pagina (ordena results).

(** What saving meets. *)
Record salvar_env := {
  s_requisicao : option pystr;  (* requisicao_async(...): None after an error *)
  s_txt : option exn;           (* open(txt_path, "w") and the write *)
  s_json_txt : option exn;      (* open(json_output_txt, "w") *)
  s_json : option exn;          (* open(json_output, "w") *)
  s_exists : bool;              (* os.path.exists(txt_path) *)
  s_erro_txt : option exn       (* the handler: open(txt_path, "w") and its writes *)
}.

(** Text files by path. *)
Abbreviation textos := (gmap pystr pystr).

(** [StructuredLogger]: the keys of [phase_times], the phases that were
    started and not ended, in the order of the dict; the times stored
    under them are left out. *)
Record StructuredLogger := {
  phase_times : list pystr
}.

(** [end_phase(phase_name, success)] *)
Definition end_phase (phase_name : pystr) (self : StructuredLogger) : StructuredLogger :=
  if bool_decide (phase_name ∉ phase_times self) then self
  else {| phase_times := filter (fun phase => phase <> phase_name) (phase_times self) |}.

(** [start_phase(phase_name, description)] *)
Definition start_phase (phase_name : pystr) (self : StructuredLogger) : StructuredLogger :=
  let self1 :=
    if bool_decide (phase_name ∈ phase_times self) then end_phase phase_name self
    else self in
  {| phase_times := phase_times self1 ++ [phase_name] |}.

(** [for phase in logger.phase_times.keys(): logger.end_phase(phase, False)].
    The iterator of a dict keeps the size the dict had when the loop
    began; each time the loop asks for the next key, also after the last
    one, it raises [RuntimeError] if the dict has another size by then.
    [restantes] counts the keys not yet visited, [pos] the ones
    visited. *)
Fixpoint encerrar_fases (restantes pos di_used : nat) (self : StructuredLogger)
    : option exn * StructuredLogger :=
  if negb (length (phase_times self) =? di_used)%nat
  then (Some (OtherError (py "dictionary changed size during iteration")), self)
  else
    match restantes with
    | O => (None, self)
    | S restantes' =>
        match phase_times self !! pos with
        | Some phase => encerrar_fases restantes' (S pos) di_used (end_phase phase self)
        | None => (None, self)
        end
    end.

(** The calls of [start_phase] and [end_phase] that
    [extract_text_openai_vision_async] has made when it comes to save the
    results, the conversion and the page requests having returned. *)
Definition ate_salvar (self : StructuredLogger) : StructuredLogger :=
  start_phase (py "FILE_SAVE")
    (end_phase (py "API_CALL")
       (start_phase (py "API_CALL")
          (end_phase (py "TEXT_PROC")
             (start_phase (py "TEXT_PROC")
                (end_phase (py "PDF_CONV")
                   (start_phase (py "PDF_CONV")
                      (end_phase (py "INIT")
                         (start_phase (py "INIT") self)))))))).

(** The handler [except Exception as e] of
    [extract_text_openai_vision_async]: with a logger the active phases
    are ended first, then the error text is written and [False]
    returned. *)
Definition registrar_erro (logger : option StructuredLogger) (txt_path : pystr) (e : exn)
    (env : salvar_env) (fs : textos) : res bool * textos * option StructuredLogger :=
  let '(falha, logger') :=
    match logger with
    | Some self =>
        let '(x, self') :=
          encerrar_fases (length (phase_times self)) 0 (length (phase_times self)) self in
        (x, Some self')
    | None => (None, None)
    end in
  match falha with
  | Some x => (Raise x, fs, logger')
  | None =>
      match s_erro_txt env with
      | Some e' => (Raise e', fs, logger')
      | None =>
          (Ret false,
           <[txt_path := py "ERRO NA OPENAI VISION API ASSÍNCRONA: " ++ exn_str e ++ [10]
                         ++ py "Verifique se a chave da API está configurada corretamente."
                         ++ [10]]> fs,
           logger')
      end
  end.

(** The end of [extract_text_openai_vision_async], from the call of
    [requisicao_async] on; [logger] is the logger as it is then. An
    [open] that raises leaves the file as it was;
    [open(json_output_txt, "w")] has emptied the file when
    ["".join(extracted_json)] raises [TypeError] for the [None] that
    [requisicao_async] returned. *)
Definition salvar (logger : option StructuredLogger)
    (txt_path json_output_txt json_output : pystr)
    (extracted_text : list pystr) (env : salvar_env) (fs : textos)
    : res bool * textos * option StructuredLogger :=
  match s_txt env with
  | Some e => registrar_erro logger txt_path e env fs
  | None =>
      let fs1 := <[txt_path := concat extracted_text]> fs in
      match s_json_txt env with
      | Some e => registrar_erro logger txt_path e env fs1
      | None =>
          match s_requisicao env with
          | None =>
              registrar_erro logger txt_path
                (OtherError (py "sequence item 0: expected str instance, NoneType found"))
                env (<[json_output_txt := []]> fs1)
          | Some extracted_json =>
              let fs2 := <[json_output_txt := extracted_json]> fs1 in
              match s_json env with
              | Some e => registrar_erro logger txt_path e env fs2
              | None =>
                  let fs3 := <[json_output := extracted_json]> fs2 in
                  (Ret (s_exists env), fs3, end_phase (py "FILE_SAVE") <$> logger)
              end
          end
      end
  end.

End VisionText.
Import VisionText.
(** * What the specification talks about *)

(** "A row with those five field values already exists in the file": some
    record that [csv.DictReader] yields from the file has these values
    under the five names; the value under [data_processamento] is free. *)
Definition tem_registro (f : csv_file)
    (projeto arquivo_pdf hash_pdf status output_path : pystr) : Prop :=
  exists records row,
    f = Some records /\ row ∈ DictReader records
    /\ row !! py "projeto" = Some (Some projeto)
    /\ row !! py "arquivo_pdf" = Some (Some arquivo_pdf)
    /\ row !! py "hash_pdf" = Some (Some hash_pdf)
    /\ row !! py "status" = Some (Some status)
    /\ row !! py "output_path" = Some (Some output_path).

(** The record carries the key (project, file name, hash). *)
Definition tem_chave (row : row_dict) (k : key3) : Prop :=
  row !! py "projeto" = Some k.1.1
  /\ row !! py "arquivo_pdf" = Some k.1.2
  /\ row !! py "hash_pdf" = Some k.2.

(** The ledger check of [process_project] lets the file pass over. *)
Definition pulado (project_name : pystr) (ctrl : gmap key3 row_dict) (e : pdf_env) : Prop :=
  exists h, hash_pdf e = Ret h
    /\ ja_processado (ctrl !! (Some project_name, Some (filename_pdf e), Some h))
         (json_output_exists e) = Ret true.


(** The attempts a run made, in order. *)
Definition tentativas_de (evs : list event) : list nat :=
  omap (fun ev => match ev with Tentativa n => Some n | Sleep _ => None end) evs.


(** What the log shows of the backup before a new attempt to write:
    nothing when [path_csv] does not exist, else the copy made or its
    failure. *)
Definition backup_evento (existe : bool) (env : escrita_env) : list wevent :=
  if existe then
    [match w_copy2 env with
     | None => BackupCriado (w_backup_path env)
     | Some _ => BackupFalhou
     end]
  else [].

(** A page "whose extracted text is non-empty after stripping
    whitespace". *)
Definition com_texto (pg : page_read) : bool :=
  match pg with
  | PageText (Some text) => negb (bool_decide (strip text = []))
  | _ => false
  end.

(** The delimited blocks of the pages with text, numbered from
    [page_num]. *)
Fixpoint blocos (page_num : nat) (pages : list page_read) : list pystr :=
  match pages with
  | [] => []
  | pg :: rest =>
      match pg with
      | PageText (Some text) =>
          if com_texto pg then page_block page_num text :: blocos (S page_num) rest
          else blocos (S page_num) rest
      | _ => blocos (S page_num) rest
      end
  end.

(** "The attempt succeeds with non-whitespace text." *)
Definition extraiu_texto (r : ExtractionResult) : bool :=
  success r && negb (bool_decide (strip (text_content r) = [])).

(** The counter of the semaphore and the tasks inside the [async with]
    block add up to the initial value. *)
Definition balanced (max_concurrent : Z) (s : gather) : Prop :=
  (Z.of_N (sem_value s) + Z.of_nat (count Acquired s) + Z.of_nat (in_flight s)
   = max_concurrent)%Z.

(** ** Concrete runs *)

Module Ex.

(** A ledger in which [a.pdf] of project [p] was processed with success. *)
Definition ledger : csv_file :=
  Some [HEADER;
        [py "p"; py "a.pdf"; py "h"; py "2025-01-01T10:00:00"; py "processing";
         py "R/p/a/openai_vision_a.json"];
        [py "p"; py "a.pdf"; py "h"; py "2025-01-01T10:05:00"; py "success";
         py "R/p/a/openai_vision_a.json"]].

Definition registro : row_dict :=
  dict_row HEADER
    [py "p"; py "a.pdf"; py "h"; py "2025-01-01T10:05:00"; py "success";
     py "R/p/a/openai_vision_a.json"].

Definition ctrl : gmap key3 row_dict :=
  <[(Some (py "p"), Some (py "a.pdf"), Some (py "h")) := registro]> ∅.

(** The same PDF on a later run, its JSON output present or gone. *)
Definition a_pdf (json_exists : bool) : pdf_env :=
  {| filename_pdf := py "a.pdf"; hash_pdf := Ret (py "h");
     json_output_exists := json_exists;
     agora_processing := py "2025-02-01T09:00:00";
     extraction := Ret true;
     agora_status := py "2025-02-01T09:03:00";
     agora_error := py "2025-02-01T09:03:01" |}.

(** A PDF that another process keeps open during all three attempts. *)
Definition em_uso : exn :=
  PermissionError (py "[WinError 32] O arquivo já está sendo usado por outro processo").

Definition sempre_em_uso (tentativa : nat) : tentativa_env :=
  {| t_exists := Ret true; t_st_size := Ret 2048; t_tempdir := None;
     t_convert := Raise em_uso; t_cleanup := None |}.

(** A CSV that is locked on the first write; on the second attempt the
    backup copy fails and the write goes through. *)
Definition csv_antigo : list csv_row :=
  [[py "nome"; py "caminho_arquivo"; py "caminho_subdir"]].

Definition arquivos : files := <[py "C:/saida/arquivos.csv" := csv_antigo]> ∅.

Definition novos : list (pystr * pystr * pystr) :=
  [(py "a.pdf", py "C:/docs/p/a.pdf", py "C:/docs/p")].

Definition bloqueado : exn := PermissionError (py "[Errno 13] Permission denied").

Definition escrita_sem_backup (tentativas : nat) : escrita_env :=
  match tentativas with
  | 1%nat => {| w_backup_path := py "C:/saida/arquivos.backup_1.csv";
                w_copy2 := None; w_escrita := Some bloqueado |}
  | _ => {| w_backup_path := py "C:/saida/arquivos.backup_2.csv";
            w_copy2 := Some bloqueado; w_escrita := None |}
  end.

(** The same CSV, locked during all three attempts. *)
Definition sempre_bloqueado (tentativas : nat) : escrita_env :=
  {| w_backup_path := py "C:/saida/arquivos.backup_" ++ str_nat tentativas ++ py ".csv";
     w_copy2 := None; w_escrita := Some bloqueado |}.

(** A valid two-page PDF: both libraries read "Fatura 2024" on page 1
    and only blanks on page 2. *)
Definition fatura : path_env :=
  {| p_path := py "C:/docs/p/fatura.pdf"; p_exists := Ret true; p_is_file := Ret true;
     p_suffix := py ".pdf"; p_st_size := Ret 2048 |}.

Definition paginas : backend_env :=
  {| b_open := Opened [PageText (Some (py "Fatura 2024")); PageText (Some (py "   "))];
     b_clock := 1500 |}.

Definition leitura : direct_env :=
  {| d_path := fatura; d_start := 1000; d_plumber := paginas; d_pypdf2 := paginas;
     d_clock := 1600 |}.

(** An extractor configured with [use_pdfplumber: False]. *)
Definition so_pypdf2 : DirectExtractor := {| use_pdfplumber := false; use_pypdf2 := true |}.

Definition ambos : DirectExtractor := {| use_pdfplumber := true; use_pypdf2 := true |}.

Definition instaladas : libs :=
  {| PDFPLUMBER_AVAILABLE := true; PYPDF2_AVAILABLE := true;
     PDF2IMAGE_AVAILABLE := true; PYTESSERACT_AVAILABLE := true |}.

(** A hybrid extractor with the default settings, the direct extractor
    returning the short text above and OCR a longer one. *)
Definition hibrido : HybridExtractor :=
  {| min_text_threshold := 50; prefer_direct := true; ocr_fallback := true;
     _last_direct_result := None; _last_ocr_result := None |}.

Definition resultado_direto : ExtractionResult := (direct_extract_text ambos leitura).1.

Definition resultado_ocr : ExtractionResult :=
  {| file_path := py "C:/docs/p/fatura.pdf"; success := true;
     text_content :=
       py "Fatura 2024 - Total a pagar: R$ 1.234,56 - Vencimento: 10/01/2025";
     pages_processed := 2; extraction_method := py "OCR PDF Text Extractor";
     processing_time := 9000; file_size := 2048; error_message := None |}.

(** What the direct extractor returns for a page with a longer line. *)
Definition resultado_direto_longo : ExtractionResult :=
  {| file_path := py "C:/docs/p/fatura.pdf"; success := true;
     text_content :=
       page_block 1 (py "Fatura 2024 - Total a pagar: R$ 1.234,56 - Vencimento: 10/01/2025");
     pages_processed := 1; extraction_method := py "pdfplumber";
     processing_time := 500; file_size := 2048; error_message := None |}.

Definition leitura_hibrida (direct : ExtractionResult) : hybrid_env :=
  {| h_path := fatura; h_start := 1000; h_clock := 11000;
     h_direct := Ret direct; h_ocr := Ret resultado_ocr |}.

(** The factory after the three extractor modules were imported: each
    class is registered by its decorator when its module is loaded. *)
Definition fabrica : ExtractorFactory :=
  register_extractor
    (register_extractor
       (register_extractor {| _extractors := []; _instances := [] |}
          (py "direct") DirectExtractor_class)
       (py "ocr") OCRExtractor_class)
    (py "hybrid") HybridExtractor_class.

(** A machine where [pdf2image] is not installed. [ocr_extractor.py]
    still loads there, since [pytesseract] and [PIL.Image] are imported,
    and registers [OCRExtractor] under ['ocr']. *)
Definition sem_pdf2image : libs :=
  {| PDFPLUMBER_AVAILABLE := true; PYPDF2_AVAILABLE := true;
     PDF2IMAGE_AVAILABLE := false; PYTESSERACT_AVAILABLE := true |}.

(** The flags with [PYTESSERACT_AVAILABLE] false. Loading
    [ocr_extractor.py] in that state stops at the annotation
    [Image.Image] of [preprocess_image], so the module does not register
    ['ocr'] there; the flags serve where a property holds for every state
    of the libraries. *)
Definition sem_pytesseract : libs :=
  {| PDFPLUMBER_AVAILABLE := true; PYPDF2_AVAILABLE := true;
     PDF2IMAGE_AVAILABLE := true; PYTESSERACT_AVAILABLE := false |}.

(** Three pages with [max_concurrent = 2]: two tasks are inside the
    block, one of them awaiting the API, the third waits. *)
Definition tres_paginas : gather :=
  {| sem_value := 2; tasks := [Waiting; Waiting; Waiting] |}.

Definition duas_dentro : gather :=
  {| sem_value := 0; tasks := [Requesting; Acquired; Waiting] |}.

(** [{'use_pdfplumber': False}] *)
Definition sem_pdfplumber : config_dict :=
  {| cfg_use_pdfplumber := Some false; cfg_use_pypdf2 := None; cfg_min_text_length := None;
     cfg_prefer_direct := None; cfg_ocr_fallback := None; cfg_ocr_language := None;
     cfg_ocr_dpi := None; cfg_ocr_max_pages := None |}.

End Ex.

(** ** More of what the code keeps *)

(** A ledger as the scripts leave it: no file yet, or a file whose first
    record is the header. *)
Definition ledger_ok (f : csv_file) : Prop :=
  f = None \/ exists rows, f = Some (HEADER :: rows).

(** The records of a file. *)
Definition registros_do_arquivo (f : csv_file) : list csv_row := default [] f.

(** The key that [append_ctrl_csv] reads from a record under the header:
    fields 0, 1, 2, 4 and 5, [None] where the record is too short. *)
Definition chave_linha (row : csv_row) : key5 :=
  (row !! 0%nat, row !! 1%nat, row !! 2%nat, row !! 4%nat, row !! 5%nat).

(** The status that [process_project] records for a file it extracted. *)
Definition status_final (e : pdf_env) : pystr :=
  match extraction e with
  | Ret true => py "success"
  | _ => py "error"
  end.

(** The ledger check passes over the file (decided). *)
Definition foi_pulado (project_name : pystr) (ctrl : gmap key3 row_dict) (e : pdf_env) : bool :=
  match hash_pdf e with
  | Ret h =>
      match ja_processado (ctrl !! (Some project_name, Some (filename_pdf e), Some h))
              (json_output_exists e) with
      | Ret true => true
      | _ => false
      end
  | Raise _ => false
  end.

(** Neither hashing the file nor the ledger check raises. *)
Definition sem_falha (project_name : pystr) (ctrl : gmap key3 row_dict) (e : pdf_env) : Prop :=
  exists h b,
    hash_pdf e = Ret h
    /\ ja_processado (ctrl !! (Some project_name, Some (filename_pdf e), Some h))
         (json_output_exists e) = Ret b.

(** The file is extracted with success in this run. *)
Definition extraido_com_sucesso (project_name : pystr) (ctrl : gmap key3 row_dict)
    (e : pdf_env) : bool :=
  negb (foi_pulado project_name ctrl e)
  && match extraction e with Ret true => true | _ => false end.


(** The file names that the ledger holds under [arquivo_pdf]: the second
    field of each non-blank record under the header ([None] when the record
    has one field only). *)
Definition nomes_do_arquivo (f : csv_file) : gset (option pystr) :=
  list_to_set (map (fun r : csv_row => r !! 1%nat)
                 (filter (fun r => nonblank r = true) (tail (registros_do_arquivo f)))).

(** The PDFs whose name is not among [nomes]. *)
Definition faltantes (nomes : gset (option pystr)) (pdfs : list pdf_achado) : list pdf_achado :=
  filter (fun pdf => Some (a_name pdf) ∉ nomes) pdfs.

(** Reading the project directory of the PDF does not raise. *)
Definition projeto_legivel (pdf : pdf_achado) : Prop :=
  exists projeto, a_projeto pdf = Ret projeto.

(** ** Further examples *)

Module Ex2.

(** A PDF whose bytes cannot be read. *)
Definition ilegivel : pdf_env :=
  {| filename_pdf := py "b.pdf"; hash_pdf := Raise (PermissionError (py "b.pdf"));
     json_output_exists := false;
     agora_processing := py "2025-02-01T09:10:00";
     extraction := Ret true;
     agora_status := py "2025-02-01T09:13:00";
     agora_error := py "2025-02-01T09:13:01" |}.

(** A ledger in which a failed run of a.pdf follows a successful one. *)
Definition sucesso_e_erro : csv_file :=
  Some [HEADER;
        [py "p"; py "a.pdf"; py "h"; py "2025-01-01T10:00:00"; py "processing";
         py "R/p/a/openai_vision_a.json"];
        [py "p"; py "a.pdf"; py "h"; py "2025-01-01T10:03:00"; py "success";
         py "R/p/a/openai_vision_a.json"];
        [py "p"; py "a.pdf"; py "h"; py "2025-01-15T10:03:00"; py "error";
         py "R/p/a/openai_vision_a.json"]].

Definition ctrl_sucesso_e_erro : gmap key3 row_dict :=
  match carrega_ctrl_csv sucesso_e_erro with Ret c => c | Raise _ => ∅ end.

(** Two PDFs of the same name in two project directories, and one that the
    ledger of [Ex.ledger] names. *)
Definition achado (projeto nome : string) : pdf_achado :=
  {| a_name := py nome; a_projeto := Ret (py projeto); a_hash := Ret (py "h9");
     a_agora := py "2025-03-01T08:00:00";
     a_str := py "Processados/" ++ py projeto ++ py "/" ++ py projeto ++ py "/" ++ py nome |}.

Definition achados : list pdf_achado :=
  [achado "p" "a.pdf"; achado "q" "c.pdf"; achado "r" "c.pdf"].

End Ex2.

(** The OCR attempt of a hybrid call does not pass the quality check: it
    raises, or its result fails [_is_extraction_successful]. *)
Definition ocr_sem_exito (self : HybridExtractor) (env : hybrid_env) : Prop :=
  match h_ocr env with
  | Ret r => _is_extraction_successful self r = false
  | Raise _ => True
  end.

(** The result is good enough for the hybrid extractor: it succeeded, its
    stripped text reaches the threshold and at least one page was read. *)
Definition aprovado (self : HybridExtractor) (r : ExtractionResult) : Prop :=
  success r = true
  /\ (min_text_threshold self <= Z.of_nat (length (strip (text_content r))))%Z
  /\ (1 <= pages_processed r)%nat.

(** The delimited blocks of the images in which OCR finds text, the first
    image being page [page_num + 1]. *)
Fixpoint ocr_blocos (page_num : nat) (images : list (res pystr)) : list pystr :=
  match images with
  | [] => []
  | Ret text :: rest =>
      if truthy (strip text)
      then page_block (S page_num) text :: ocr_blocos (S page_num) rest
      else ocr_blocos (S page_num) rest
  | Raise _ :: rest => ocr_blocos (S page_num) rest
  end.

Module Ex3.

(** Three files, the task of the second one raising, processed in batches
    of two without a progress callback. *)
Definition tarefas : list tarefa :=
  [(py "C:/docs/p/fatura.pdf", Ret Ex.resultado_direto_longo);
   (py "C:/docs/p/b.pdf", Raise (OtherError (py "cancelado")));
   (py "C:/docs/p/c.pdf", Ret Ex.resultado_ocr)].

Definition processador : AsyncPDFProcessor :=
  {| max_workers := 4; batch_size := 2; progress_callback := None |}.

(** The same with a progress callback that returns normally. *)
Definition com_progresso : AsyncPDFProcessor :=
  {| max_workers := 4; batch_size := 2; progress_callback := Some (fun _ _ => None) |}.

End Ex3.

(** The time a run of [verificar_pdf_valido] spends in [time.sleep], in
    milliseconds. *)
Definition espera (ev : list event) : Z :=
  foldr (fun e acc => match e with Sleep ms => ms + acc | Tentativa _ => acc end)%Z 0%Z ev.

(** Attempt [t] converts the PDF: the file is there with at least 100
    bytes, the temporary directory opens, [convert_from_path] gives at
    least one page and leaving the directory raises nothing. *)
Definition converte (env : tentativa_env) : Prop :=
  t_exists env = Ret true
  /\ (exists st_size, t_st_size env = Ret st_size /\ 100 <= st_size)
  /\ t_tempdir env = None
  /\ (exists pages, t_convert env = Ret pages /\ (0 < pages)%nat)
  /\ t_cleanup env = None.

Module Ex4.

(** Three directories under the input directory, a CSV that keeps two of
    them and one that has no [nome] column. *)
Definition subdirs : list (pystr * pystr) :=
  [(py "p1", py "C:/entrada/p1"); (py "p2", py "C:/entrada/p2")].

Definition pastas : list pasta :=
  [{| item_name := py "p1"; item_is_dir := true; item_rmtree := None |};
   {| item_name := py "leia.txt"; item_is_dir := false; item_rmtree := None |};
   {| item_name := py "p3"; item_is_dir := true; item_rmtree := None |}].

Definition sem_coluna_nome : files :=
  <[py "C:/saida/manter.csv" :=
      [[py "pasta"; py "caminho"]; [py "p1"; py "C:/entrada/p1"]]]> ∅.

Definition fonte : files :=
  <[py "C:/saida/fonte.csv" :=
      [[py "nome"; py "caminho"]; [py "a.pdf"; py "C:/docs/a.pdf"]; [];
       [py ""; py "C:/docs/x"]; [py "b.pdf"]]]> ∅.

End Ex4.

(** The string between the delimiter of a page and the separator. *)
Definition miolo_pagina (resposta : res (option pystr)) : pystr :=
  match page_text_de resposta with
  | Some page_text =>
      if truthy page_text && truthy (strip page_text)
         && negb (startswith (py "[ERRO") page_text)
      then strip page_text
      else if truthy page_text then page_text
           else py "[PÁGINA EM BRANCO OU SEM TEXTO DETECTADO]"
  | None => py "[PÁGINA EM BRANCO OU SEM TEXTO DETECTADO]"
  end.

Module Ex5.

(** Three pages: one answered, one whose request failed, one blank. *)
Definition respostas : list (res (option pystr)) :=
  [Ret (Some (py "Boleto - vencimento 10/01/2025"));
   Raise (OtherError (py "Rate limit"));
   Ret (Some (py "  "))].

(** Saving when the consolidation request failed. *)
Definition sem_resposta : salvar_env :=
  {| s_requisicao := None; s_txt := None; s_json_txt := None; s_json := None;
     s_exists := true; s_erro_txt := None |}.

End Ex5.
(** * Properties *)

(** ** Strings and results *)

Example py_decodes_utf8 : py "PÁGINA" = [80; 193; 71; 73; 78; 65].
Proof. reflexivity. Qed.

Example str_int_examples :
  str_int 120 = py "120" /\ str_int 0 = py "0" /\ str_int 7 = py "7".
Proof. repeat split; reflexivity. Qed.

Example splitext_root_examples :
  splitext_root (py "nota.fiscal.pdf") = py "nota.fiscal"
  /\ splitext_root (py ".pdf") = py ".pdf"
  /\ splitext_root (py "a.PDF") = py "a".
Proof. repeat split; reflexivity. Qed.



(** ** The records of csv.DictReader *)





(** ** append_ctrl_csv *)

Lemma getitem_Ret (row : row_dict) (k : pystr) (v : option pystr) :
  row !! k = Some v -> getitem row k = Ret v.
Proof. unfold getitem. by intros ->. Qed.


Lemma chave_de_Ret (row : row_dict) (p a h s o : option pystr) :
  row !! py "projeto" = Some p -> row !! py "arquivo_pdf" = Some a ->
  row !! py "hash_pdf" = Some h -> row !! py "status" = Some s ->
  row !! py "output_path" = Some o ->
  chave_de row = Ret (p, a, h, s, o).
Proof.
  intros Hp Ha Hh Hs Ho. unfold chave_de.
  rewrite (getitem_Ret _ _ _ Hp), (getitem_Ret _ _ _ Ha), (getitem_Ret _ _ _ Hh),
    (getitem_Ret _ _ _ Hs), (getitem_Ret _ _ _ Ho).
  reflexivity.
Qed.

(** C7: when the path does not exist, [append_ctrl_csv] leaves a file
    holding the header record [projeto, arquivo_pdf, hash_pdf,
    data_processamento, status, output_path] followed by the new record;
    on an existing file it appends nothing, or one record, or fails while
    reading; the record appended always has the six fields in the header's
    order. *)
Theorem append_ctrl_csv_header_and_fields
    (projeto arquivo_pdf hash_pdf status output_path agora : pystr) :
  append_ctrl_csv projeto arquivo_pdf hash_pdf status output_path agora None
  = Ret (Some [[py "projeto"; py "arquivo_pdf"; py "hash_pdf"; py "data_processamento";
                py "status"; py "output_path"];
               [projeto; arquivo_pdf; hash_pdf; agora; status; output_path]])
  /\ forall records,
       append_ctrl_csv projeto arquivo_pdf hash_pdf status output_path agora (Some records)
       = Ret (Some records)
       \/ append_ctrl_csv projeto arquivo_pdf hash_pdf status output_path agora (Some records)
          = Ret (Some (records
                       ++ [[projeto; arquivo_pdf; hash_pdf; agora; status; output_path]]))
       \/ exists k,
            append_ctrl_csv projeto arquivo_pdf hash_pdf status output_path agora (Some records)
            = Raise (KeyError k).
Proof.
  split.
  - unfold append_ctrl_csv. cbn.
    rewrite bool_decide_eq_false_2 by apply not_elem_of_empty. reflexivity.
  - intros records. unfold append_ctrl_csv, registros_de.
    destruct (mapM chave_de (DictReader records)) as [ks|e] eqn:Hks; cbn.
    + case_bool_decide; [by left | right; left; reflexivity].
    + right; right.
      assert (Hkey : forall rows e', mapM chave_de rows = Raise e' -> exists k, e' = KeyError k).
      { clear. induction rows as [|r rows IH]; intros e' H; [discriminate|].
        cbn in H. destruct (chave_de r) as [k|e0] eqn:Hr; cbn in H.
        - destruct (mapM chave_de rows) as [ks|e1]; cbn in H; [discriminate|].
          injection H as <-. by apply IH.
        - injection H as <-. revert Hr. unfold chave_de, getitem.
          destruct (r !! py "projeto"); cbn; [|intros [= ?]; subst; eauto].
          destruct (r !! py "arquivo_pdf"); cbn; [|intros [= ?]; subst; eauto].
          destruct (r !! py "hash_pdf"); cbn; [|intros [= ?]; subst; eauto].
          destruct (r !! py "status"); cbn; [|intros [= ?]; subst; eauto].
          destruct (r !! py "output_path"); cbn; [|intros [= ?]; subst; eauto].
          intros [=]. }
      destruct (Hkey _ _ Hks) as [k ->]. by exists k.
Qed.



(** On the ledger that a first call created, an equal call at a later time
    changes nothing. *)
Example append_ctrl_csv_twice (agora1 agora2 : pystr) :
  append_ctrl_csv (py "p") (py "a.pdf") (py "h") (py "success") (py "o") agora2
    (Some [HEADER; [py "p"; py "a.pdf"; py "h"; agora1; py "success"; py "o"]])
  = Ret (Some [HEADER; [py "p"; py "a.pdf"; py "h"; agora1; py "success"; py "o"]]).
Proof. vm_compute. reflexivity. Qed.

(** ** carrega_ctrl_csv *)

Lemma carrega_step_Ret (ctrl ctrl' : gmap key3 row_dict) (row : row_dict) :
  carrega_step ctrl row = Ret ctrl' ->
  exists k, tem_chave row k /\ ctrl' = <[k := row]> ctrl.
Proof.
  unfold carrega_step, getitem, tem_chave.
  destruct (row !! py "projeto") as [p|]; cbn; [|discriminate].
  destruct (row !! py "arquivo_pdf") as [a|]; cbn; [|discriminate].
  destruct (row !! py "hash_pdf") as [h|]; cbn; [|discriminate].
  intros [= <-]. by exists (p, a, h).
Qed.

Lemma tem_chave_inj (row : row_dict) (k1 k2 : key3) :
  tem_chave row k1 -> tem_chave row k2 -> k1 = k2.
Proof.
  destruct k1 as [[p1 a1] h1], k2 as [[p2 a2] h2]. unfold tem_chave. cbn.
  intros (Hp1 & Ha1 & Hh1) (Hp2 & Ha2 & Hh2). congruence.
Qed.

Lemma carrega_rows_preserve (rows : list row_dict) (ctrl ctrl' : gmap key3 row_dict)
    (k : key3) (v : row_dict) :
  carrega_rows rows ctrl = Ret ctrl' ->
  ctrl !! k = Some v ->
  (forall r, r ∈ rows -> ~ tem_chave r k) ->
  ctrl' !! k = Some v.
Proof.
  revert ctrl. induction rows as [|row rows IH]; intros ctrl Hrun Hk Hno; cbn in Hrun.
  - by injection Hrun as <-.
  - destruct (carrega_step ctrl row) as [ctrl1|] eqn:Hstep; cbn in Hrun; [|discriminate].
    apply carrega_step_Ret in Hstep as (k1 & Hk1 & ->).
    apply (IH _ Hrun).
    + rewrite lookup_insert_ne; [done|]. intros ->.
      apply (Hno row); [apply elem_of_cons; by left | done].
    + intros r Hr. apply Hno, elem_of_cons. by right.
Qed.

(** The dict that [carrega_ctrl_csv] builds maps a key to the last record
    of the file that carries it. *)
Lemma carrega_rows_last (rows1 rows2 : list row_dict) (row : row_dict)
    (ctrl0 ctrl : gmap key3 row_dict) (k : key3) :
  carrega_rows (rows1 ++ row :: rows2) ctrl0 = Ret ctrl ->
  tem_chave row k ->
  (forall r, r ∈ rows2 -> ~ tem_chave r k) ->
  ctrl !! k = Some row.
Proof.
  revert ctrl0. induction rows1 as [|r1 rows1 IH]; intros ctrl0 Hrun Hk Hno; cbn in Hrun.
  - destruct (carrega_step ctrl0 row) as [ctrl1|] eqn:Hstep; cbn in Hrun; [|discriminate].
    apply carrega_step_Ret in Hstep as (k1 & Hk1 & ->).
    rewrite (tem_chave_inj _ _ _ Hk1 Hk) in Hrun.
    apply (carrega_rows_preserve _ _ _ _ _ Hrun); [apply lookup_insert_eq | done].
  - destruct (carrega_step ctrl0 r1) as [ctrl1|] eqn:Hstep; cbn in Hrun; [|discriminate].
    by apply (IH ctrl1).
Qed.

(** ** process_project *)

Section process_project_facts.
Variables (RESULTS_BASE_PATH project_name : pystr) (ctrl : gmap key3 row_dict).

Lemma process_pdf_file_extracted (i : nat) (e : pdf_env) (st : run) :
  let st' := (process_pdf_file RESULTS_BASE_PATH project_name ctrl i e st).1 in
  extracted st' = extracted st
  \/ (extracted st' = extracted st ++ [i] /\ ~ pulado project_name ctrl e).
Proof.
  unfold process_pdf_file.
  destruct (hash_pdf e) as [h|x] eqn:Hh; [|by left].
  destruct (ja_processado _ _) as [[|]|x] eqn:Hja; [by left | | by left].
  assert (Hnot : ~ pulado project_name ctrl e).
  { intros (h' & Hh' & Hja'). rewrite Hh in Hh'. injection Hh' as <-.
    rewrite Hja in Hja'. discriminate. }
  destruct (append_ctrl_csv _ _ _ (py "processing") _ _ _) as [l1|x]; [|by left].
  destruct (extraction e) as [ok|x]; cbn.
  - destruct (append_ctrl_csv _ _ _ (if ok then _ else _) _ _ _) as [l2|x]; cbn.
    + by right.
    + destruct (append_ctrl_csv _ _ _ (py "error") _ _ _); by right.
  - destruct (append_ctrl_csv _ _ _ (py "error") _ _ _); by right.
Qed.

Lemma process_pdf_files_extracted (pdf_files : list pdf_env) (start : nat) (st : run) (j : nat) :
  j ∈ extracted (process_pdf_files RESULTS_BASE_PATH project_name ctrl start pdf_files st).1 ->
  j ∈ extracted st
  \/ exists e, (start <= j)%nat /\ pdf_files !! (j - start)%nat = Some e
               /\ ~ pulado project_name ctrl e.
Proof.
  revert start st. induction pdf_files as [|e rest IH]; intros start st; cbn.
  - by left.
  - pose proof (process_pdf_file_extracted start e st) as Hone. cbn in Hone.
    destruct (process_pdf_file _ _ _ start e st) as [st' [x|]] eqn:Hstep; cbn in *.
    + intros Hj. destruct Hone as [Heq|[Heq Hnot]]; rewrite Heq in Hj; [by left|].
      apply elem_of_app in Hj as [Hj|Hj]; [by left|].
      apply list_elem_of_singleton in Hj as ->. right. exists e.
      rewrite Nat.sub_diag. auto.
    + intros Hj. apply IH in Hj as [Hj|(e' & Hle & Hlook & Hnot)].
      * destruct Hone as [Heq|[Heq Hnot]]; rewrite Heq in Hj; [by left|].
        apply elem_of_app in Hj as [Hj|Hj]; [by left|].
        apply list_elem_of_singleton in Hj as ->. right. exists e.
        rewrite Nat.sub_diag. auto.
      * right. exists e'. split; [lia|]. split; [|done].
        replace (j - start)%nat with (S (j - S start)) by lia. done.
Qed.

End process_project_facts.

(** C1, as the code has it: a PDF whose key (project, file name, SHA-256)
    is mapped by [ctrl] to a record with status [success], and whose JSON
    output still exists, is skipped: extraction is not run on it. *)
Theorem process_project_skips_success_with_output
    (RESULTS_BASE_PATH project_name : pystr) (ctrl : gmap key3 row_dict)
    (pdf_files : list pdf_env) (l0 : csv_file)
    (i : nat) (e : pdf_env) (h : pystr) (registro : row_dict) :
  pdf_files !! i = Some e ->
  hash_pdf e = Ret h ->
  ctrl !! (Some project_name, Some (filename_pdf e), Some h) = Some registro ->
  registro !! py "status" = Some (Some (py "success")) ->
  json_output_exists e = true ->
  i ∉ extracted (process_project RESULTS_BASE_PATH project_name ctrl pdf_files l0).2.
Proof.
  intros Hi Hh Hctrl Hstatus Hjson Hin.
  assert (Hskip : pulado project_name ctrl e).
  { exists h. split; [done|]. rewrite Hctrl. unfold ja_processado.
    rewrite bool_decide_eq_false_2.
    - rewrite (getitem_Ret _ _ _ Hstatus). cbn.
      rewrite bool_decide_eq_true_2 by done. by rewrite Hjson.
    - intros ->. by rewrite lookup_empty in Hstatus. }
  unfold process_project in Hin.
  destruct pdf_files as [|e0 rest]; [by rewrite lookup_nil in Hi|].
  pose proof (process_pdf_files_extracted RESULTS_BASE_PATH project_name ctrl
                (e0 :: rest) 0 {| ledger := l0; success_count := 0; extracted := [] |} i) as Hloop.
  destruct (process_pdf_files _ _ _ 0 (e0 :: rest) _) as [st [x|]]; cbn in Hin, Hloop;
    (destruct (Hloop Hin) as [Hnil|(e' & _ & Hlook & Hnot)];
     [by apply elem_of_nil in Hnil|]);
    rewrite Nat.sub_0_r, Hi in Hlook; injection Hlook as <-; contradiction.
Qed.

Lemma process_project_skips_success_with_output_witness :
  0%nat ∉ extracted (process_project (py "R") (py "p") Ex.ctrl [Ex.a_pdf true] Ex.ledger).2.
Proof.
  apply (process_project_skips_success_with_output (py "R") (py "p") Ex.ctrl
           [Ex.a_pdf true] Ex.ledger 0 (Ex.a_pdf true) (py "h") Ex.registro).
  - reflexivity.
  - reflexivity.
  - vm_compute. reflexivity.
  - vm_compute. reflexivity.
  - reflexivity.
Defined.

(** C1, as stated, fails: the ledger holds a [success] record for the
    project, file name and hash (and [carrega_ctrl_csv] maps the key to
    it), yet with the JSON output gone the file is extracted again. *)
Lemma process_project_reprocesses_when_output_missing :
  carrega_ctrl_csv Ex.ledger = Ret Ex.ctrl
  /\ Ex.ctrl !! (Some (py "p"), Some (py "a.pdf"), Some (py "h")) = Some Ex.registro
  /\ Ex.registro !! py "status" = Some (Some (py "success"))
  /\ hash_pdf (Ex.a_pdf false) = Ret (py "h")
  /\ extracted (process_project (py "R") (py "p") Ex.ctrl [Ex.a_pdf false] Ex.ledger).2
     = [0%nat].
Proof. repeat split; vm_compute; reflexivity. Qed.

(** ** verificar_pdf_valido *)





(** Whatever the attempts meet, the attempts made are 1, 1-2 or 1-2-3. *)
Lemma verificar_pdf_valido_at_most_3 (envs : nat -> tentativa_env) :
  tentativas_de (verificar_pdf_valido envs).2 `prefix_of` [1; 2; 3]%nat.
Proof.
  assert (Hext : forall t e, tentativas_de (externo t e).2 = []).
  { intros t e. unfold externo.
    destruct (arquivo_em_uso e), (t <? max_tentativas)%nat; reflexivity. }
  assert (Hconv : forall t env, tentativas_de (converter t env).2 = []).
  { intros t env. unfold converter.
    destruct (t_convert env) as [pages|e].
    - destruct (0 <? pages)%nat; reflexivity.
    - destruct (arquivo_em_uso e); [destruct (t <? max_tentativas)%nat; reflexivity|].
      match goal with |- context [existsb ?f keywords] => destruct (existsb f keywords) end;
        reflexivity. }
  assert (Hno : forall t env, tentativas_de (tentar t env).2 = []).
  { intros t env. unfold tentar.
    destruct (t_exists env) as [[|]|e]; [|reflexivity|apply Hext].
    destruct (t_st_size env) as [n|e]; [|apply Hext].
    destruct (n =? 0); [reflexivity|]. destruct (n <? 100); [reflexivity|].
    destruct (t_tempdir env) as [e|]; [apply Hext|].
    specialize (Hconv t env). destruct (converter t env) as [fl ev].
    destruct (t_cleanup env) as [e|]; [|exact Hconv].
    specialize (Hext t e). destruct (externo t e) as [fl' ev']. cbn in *.
    unfold tentativas_de in *. by rewrite omap_app, Hconv, Hext. }
  unfold verificar_pdf_valido, max_tentativas. cbn [tentativas_loop].
  pose proof (Hno 1%nat (envs 1%nat)) as H1.
  pose proof (Hno 2%nat (envs 2%nat)) as H2.
  pose proof (Hno 3%nat (envs 3%nat)) as H3.
  destruct (tentar 1 (envs 1%nat)) as [[r1|] ev1]; cbn in *.
  { rewrite H1. by exists [2; 3]%nat. }
  destruct (tentar 2 (envs 2%nat)) as [[r2|] ev2]; cbn in *.
  { unfold tentativas_de in *. rewrite omap_app, H1. cbn. rewrite H2. by exists [3%nat]. }
  destruct (tentar 3 (envs 3%nat)) as [[r3|] ev3]; cbn in *.
  - unfold tentativas_de in *. rewrite omap_app, H1. cbn. rewrite omap_app, H2. cbn.
    rewrite H3. by exists [].
  - unfold tentativas_de in *. rewrite omap_app, H1. cbn. rewrite omap_app, H2. cbn.
    rewrite omap_app, H3. by exists [].
Qed.

Example verificar_pdf_valido_sempre_em_uso :
  verificar_pdf_valido Ex.sempre_em_uso
  = ((false, py "Arquivo em uso após 3 tentativas: [WinError 32] O arquivo já está sendo usado por outro processo"),
     [Tentativa 1; Sleep 1000; Sleep 200; Tentativa 2; Sleep 2000; Sleep 200;
      Tentativa 3; Sleep 200]).
Proof. vm_compute. reflexivity. Qed.


(** ** gerar_csv_arquivos_pdfs *)

Section escrita_facts.
Variables (path_csv : pystr) (registros : list (pystr * pystr * pystr)).
Variables (envs : nat -> escrita_env) (temp_csv_path : pystr) (temp_escrita : option exn).

(** An attempt other than the last that meets a [PermissionError]: the
    backup is tried when due, nothing is written, two seconds of sleep
    follow and the loop goes on. *)
Lemma escrever_uma_PermissionError (tentativas : nat) (fs : files) (msg : pystr) :
  w_escrita (envs tentativas) = Some (PermissionError msg) ->
  (tentativas < max_tentativas)%nat ->
  exists fs1,
    escrever_uma path_csv registros envs temp_csv_path temp_escrita tentativas fs
    = (Ret false, fs1,
       backup_evento (bool_decide (is_Some (fs !! path_csv)) && (1 <? tentativas)%nat)
         (envs tentativas)
       ++ [EscreveCsv tentativas; Dorme 2])
    /\ fs1 !! path_csv = fs !! path_csv.
Proof.
  intros Hw Hlt. apply Nat.ltb_lt in Hlt. unfold escrever_uma, backup_evento.
  rewrite Hw. cbn [is_PermissionError]. rewrite Hlt.
  destruct (bool_decide (is_Some (fs !! path_csv)) && (1 <? tentativas)%nat) eqn:Hb.
  - destruct (w_copy2 (envs tentativas)); [eexists; split; reflexivity|].
    destruct (fs !! path_csv) as [c|] eqn:Hc.
    2:{ rewrite bool_decide_eq_false_2 in Hb by apply is_Some_None. discriminate. }
    eexists; split; [reflexivity|].
    destruct (decide (w_backup_path (envs tentativas) = path_csv)) as [->|Hne].
    + by rewrite lookup_insert_eq.
    + by rewrite lookup_insert_ne.
  - eexists; split; reflexivity.
Qed.

(** The last attempt meeting a [PermissionError]: the fallback file is
    written, and only if that fails too is the [PermissionError] raised. *)
Lemma escrever_uma_fallback (fs : files) (msg : pystr) :
  w_escrita (envs max_tentativas) = Some (PermissionError msg) ->
  exists fs1,
    escrever_uma path_csv registros envs temp_csv_path temp_escrita max_tentativas fs
    = (match temp_escrita with
       | None => Ret true
       | Some _ => Raise (PermissionError msg)
       end,
       match temp_escrita with
       | None => <[temp_csv_path := conteudo registros]> fs1
       | Some _ => fs1
       end,
       backup_evento (bool_decide (is_Some (fs !! path_csv))) (envs max_tentativas)
       ++ [EscreveCsv max_tentativas; EscreveTemp temp_csv_path])
    /\ fs1 !! path_csv = fs !! path_csv.
Proof.
  intros Hw. unfold escrever_uma, backup_evento.
  rewrite Hw. cbn [is_PermissionError]. rewrite andb_true_r.
  replace (max_tentativas <? max_tentativas)%nat with false by reflexivity.
  destruct (bool_decide (is_Some (fs !! path_csv))) eqn:Hb.
  - destruct (w_copy2 (envs max_tentativas)).
    { destruct temp_escrita; eexists; split; reflexivity. }
    destruct (fs !! path_csv) as [c|] eqn:Hc.
    2:{ rewrite bool_decide_eq_false_2 in Hb by apply is_Some_None. discriminate. }
    exists (<[w_backup_path (envs max_tentativas) := c]> fs).
    split; [by destruct temp_escrita|].
    destruct (decide (w_backup_path (envs max_tentativas) = path_csv)) as [->|Hne].
    + by rewrite lookup_insert_eq.
    + by rewrite lookup_insert_ne.
  - destruct temp_escrita; eexists; split; reflexivity.
Qed.

End escrita_facts.

(** C4, as the code has it: when the three attempts to write [path_csv]
    each raise [PermissionError], every failed attempt is followed by a new
    one after 2 s, up to three; before the second and the third a backup
    copy of the existing file is attempted (made, or its failure logged);
    after the third the records go to the fallback file, and the
    [PermissionError] of the third attempt is raised only if writing the
    fallback file fails as well. [path_csv] itself is left as it was. *)
Theorem gerar_csv_arquivos_pdfs_retry_then_fallback
    (path_csv : pystr) (registros : list (pystr * pystr * pystr))
    (envs : nat -> escrita_env) (temp_csv_path : pystr) (temp_escrita : option exn)
    (fs : files) (m1 m2 m3 : pystr) :
  w_escrita (envs 1%nat) = Some (PermissionError m1) ->
  w_escrita (envs 2%nat) = Some (PermissionError m2) ->
  w_escrita (envs 3%nat) = Some (PermissionError m3) ->
  let existe := bool_decide (is_Some (fs !! path_csv)) in
  exists fs',
    gerar_csv_arquivos_pdfs path_csv registros envs temp_csv_path temp_escrita
      false false None fs
    = (match temp_escrita with
       | None => Ret tt
       | Some _ => Raise (PermissionError m3)
       end,
       match temp_escrita with
       | None => <[temp_csv_path := conteudo registros]> fs'
       | Some _ => fs'
       end,
       [EscreveCsv 1; Dorme 2]
       ++ backup_evento existe (envs 2%nat) ++ [EscreveCsv 2; Dorme 2]
       ++ backup_evento existe (envs 3%nat) ++ [EscreveCsv 3; EscreveTemp temp_csv_path])
    /\ fs' !! path_csv = fs !! path_csv.
Proof.
  intros H1 H2 H3 existe. unfold gerar_csv_arquivos_pdfs.
  change max_tentativas with 3%nat. cbn [escrever].
  destruct (escrever_uma_PermissionError path_csv registros envs temp_csv_path temp_escrita
              1 fs m1 H1) as (fs1 & E1 & L1); [unfold max_tentativas; lia|].
  destruct (escrever_uma_PermissionError path_csv registros envs temp_csv_path temp_escrita
              2 fs1 m2 H2) as (fs2 & E2 & L2); [unfold max_tentativas; lia|].
  destruct (escrever_uma_fallback path_csv registros envs temp_csv_path temp_escrita
              fs2 m3 H3) as (fs3 & E3 & L3).
  change max_tentativas with 3%nat in E3.
  rewrite E1, E2, E3.
  exists fs3. split; [|congruence].
  rewrite L2, L1. fold existe.
  replace (1 <? 1)%nat with false by reflexivity.
  replace (1 <? 2)%nat with true by reflexivity.
  rewrite andb_false_r, andb_true_r.
  destruct temp_escrita; cbn; rewrite <- ?app_assoc; reflexivity.
Qed.

Lemma gerar_csv_arquivos_pdfs_retry_then_fallback_witness :
  exists fs',
    gerar_csv_arquivos_pdfs (py "C:/saida/arquivos.csv") Ex.novos Ex.sempre_bloqueado
      (py "C:/Users/u/Documents/csv_entrada_arquivos_temp_1.csv") None
      false false None Ex.arquivos
    = (Ret tt,
       <[py "C:/Users/u/Documents/csv_entrada_arquivos_temp_1.csv" := conteudo Ex.novos]> fs',
       [EscreveCsv 1; Dorme 2]
       ++ backup_evento true (Ex.sempre_bloqueado 2) ++ [EscreveCsv 2; Dorme 2]
       ++ backup_evento true (Ex.sempre_bloqueado 3)
       ++ [EscreveCsv 3; EscreveTemp (py "C:/Users/u/Documents/csv_entrada_arquivos_temp_1.csv")])
    /\ fs' !! py "C:/saida/arquivos.csv" = Ex.arquivos !! py "C:/saida/arquivos.csv".
Proof.
  exact (gerar_csv_arquivos_pdfs_retry_then_fallback (py "C:/saida/arquivos.csv") Ex.novos
           Ex.sempre_bloqueado (py "C:/Users/u/Documents/csv_entrada_arquivos_temp_1.csv") None
           Ex.arquivos (py "[Errno 13] Permission denied") (py "[Errno 13] Permission denied")
           (py "[Errno 13] Permission denied") eq_refl eq_refl eq_refl).
Defined.

(** C4, as stated, fails: the first write of an existing CSV raises
    [PermissionError] and is retried, but the copy to the backup path
    fails, so the second write replaces the file with no backup copy of
    it having been taken. *)
Lemma gerar_csv_arquivos_pdfs_retries_without_backup :
  w_escrita (Ex.escrita_sem_backup 1) = Some Ex.bloqueado
  /\ Ex.arquivos !! py "C:/saida/arquivos.csv" = Some Ex.csv_antigo
  /\ gerar_csv_arquivos_pdfs (py "C:/saida/arquivos.csv") Ex.novos Ex.escrita_sem_backup
       (py "C:/Users/u/Documents/csv_entrada_arquivos_temp_1.csv") None
       false false None Ex.arquivos
     = (Ret tt,
        <[py "C:/saida/arquivos.csv" := conteudo Ex.novos]> ∅,
        [EscreveCsv 1; Dorme 2; BackupFalhou; EscreveCsv 2]).
Proof. repeat split; vm_compute; reflexivity. Qed.

(** ** DirectExtractor *)

Lemma truthy_false (s : pystr) : truthy s = negb (bool_decide (s = [])).
Proof. by destruct s. Qed.

Lemma has_text_com_texto (text : pystr) :
  has_text (Some text) = com_texto (PageText (Some text)).
Proof.
  cbn. rewrite (truthy_false (strip text)). destruct text as [|c text]; [reflexivity|].
  reflexivity.
Qed.

Lemma read_pages_blocos (pages : list page_read) (page_num : nat)
    (text_content : list pystr) (pages_processed : nat) :
  read_pages page_num pages text_content pages_processed
  = (text_content ++ blocos page_num pages,
     (pages_processed + length (blocos page_num pages))%nat).
Proof.
  revert page_num text_content pages_processed.
  induction pages as [|pg rest IH]; intros page_num text_content pages_processed.
  - cbn. by rewrite app_nil_r, Nat.add_0_r.
  - destruct pg as [[text|]|e]; cbn [read_pages blocos]; [|apply IH..].
    rewrite has_text_com_texto. destruct (com_texto (PageText (Some text))).
    + rewrite IH. cbn [length]. rewrite <- app_assoc. f_equal. lia.
    + apply IH.
Qed.

Lemma length_blocos (pages : list page_read) (page_num : nat) :
  length (blocos page_num pages) = length (filter (fun pg => com_texto pg = true) pages).
Proof.
  revert page_num. induction pages as [|pg rest IH]; intros page_num; [reflexivity|].
  rewrite filter_cons. destruct pg as [[text|]|e]; cbn [blocos].
  - destruct (com_texto (PageText (Some text))) eqn:Hc.
    + rewrite decide_True by done. cbn. by rewrite IH.
    + rewrite decide_False by done. apply IH.
  - rewrite decide_False by done. apply IH.
  - rewrite decide_False by done. apply IH.
Qed.

Lemma blocos_elem (pages : list page_read) (page_num i : nat) (text : pystr) :
  pages !! i = Some (PageText (Some text)) -> strip text <> [] ->
  page_block (page_num + i) text ∈ blocos page_num pages.
Proof.
  revert page_num i. induction pages as [|pg rest IH]; intros page_num i Hi Hs.
  - by rewrite lookup_nil in Hi.
  - destruct i as [|i].
    + cbn in Hi. injection Hi as ->. cbn [blocos com_texto].
      rewrite bool_decide_eq_false_2 by done. cbn. rewrite Nat.add_0_r.
      apply elem_of_cons. by left.
    + cbn in Hi. specialize (IH (S page_num) i Hi Hs).
      replace (page_num + S i)%nat with (S page_num + i)%nat by lia.
      destruct pg as [[t|]|e]; cbn [blocos]; try done.
      destruct (com_texto (PageText (Some t))); [apply elem_of_cons; by right | done].
Qed.

Lemma join_elem (sep : pystr) (parts : list pystr) (x : pystr) :
  x ∈ parts -> exists pre post, join sep parts = pre ++ x ++ post.
Proof.
  induction parts as [|p rest IH]; intros Hx; [by apply elem_of_nil in Hx|].
  apply elem_of_cons in Hx as [->|Hx].
  - destruct rest as [|q rest].
    + exists [], []. cbn. by rewrite app_nil_r.
    + exists [], (sep ++ join sep (q :: rest)). reflexivity.
  - destruct (IH Hx) as (pre & post & E). destruct rest as [|q rest].
    + by apply elem_of_nil in Hx.
    + exists (p ++ sep ++ pre), post. cbn [join] in *. rewrite E.
      by rewrite <- !app_assoc.
Qed.

Lemma extract_with_Opened (method : pystr) (p : path_env) (start_time : Z) (size : N)
    (b : backend_env) (pages : list page_read) :
  b_open b = Opened pages ->
  text_content (extract_with method p start_time size b) = join [10] (blocos 1 pages)
  /\ pages_processed (extract_with method p start_time size b) = length (blocos 1 pages)
  /\ success (extract_with method p start_time size b) = (0 <? length (blocos 1 pages))%nat.
Proof.
  intros Hb. unfold extract_with. rewrite Hb, read_pages_blocos. cbn.
  destruct (blocos 1 pages); cbn; auto.
Qed.

(** C6: in the text that [_extract_with_pdfplumber] and
    [_extract_with_pypdf2] build from an opened PDF, each page [n] (from 1)
    whose text is not blank appears as the line [=== PÁGINA n ===]
    directly followed by the page's text; the text is made of the blocks
    of those pages alone, and [pages_processed] counts exactly them. *)
Theorem direct_extraction_page_delimiters
    (extrair : path_env -> Z -> N -> backend_env -> ExtractionResult)
    (p : path_env) (start_time : Z) (size : N) (b : backend_env) (pages : list page_read) :
  extrair = _extract_with_pdfplumber \/ extrair = _extract_with_pypdf2 ->
  b_open b = Opened pages ->
  let r := extrair p start_time size b in
  (forall i text,
      pages !! i = Some (PageText (Some text)) -> strip text <> [] ->
      exists pre post,
        text_content r
        = pre ++ (py "=== PÁGINA " ++ str_int (N.of_nat (S i)) ++ py " ===" ++ [10] ++ text)
              ++ post)
  /\ text_content r = join [10] (blocos 1 pages)
  /\ pages_processed r = length (filter (fun pg => com_texto pg = true) pages).
Proof.
  intros Hex Hb r.
  assert (Hr : exists method, r = extract_with method p start_time size b).
  { destruct Hex as [-> | ->]; eexists; reflexivity. }
  destruct Hr as [method Hr]. rewrite Hr.
  destruct (extract_with_Opened method p start_time size b pages Hb) as (Ht & Hp & _).
  rewrite Ht, Hp, length_blocos. split; [|done].
  intros i text Hi Hs.
  destruct (join_elem [10] (blocos 1 pages) (page_block (1 + i) text)) as (pre & post & E).
  { by apply blocos_elem. }
  exists pre, ([10] ++ post). rewrite E. unfold page_block.
  by rewrite <- !app_assoc.
Qed.

Lemma direct_extraction_page_delimiters_witness :
  let r := _extract_with_pdfplumber Ex.fatura 1000 2048 Ex.paginas in
  (forall i text,
      [PageText (Some (py "Fatura 2024")); PageText (Some (py "   "))] !! i
      = Some (PageText (Some text)) -> strip text <> [] ->
      exists pre post,
        text_content r
        = pre ++ (py "=== PÁGINA " ++ str_int (N.of_nat (S i)) ++ py " ===" ++ [10] ++ text)
              ++ post)
  /\ text_content r
     = join [10] (blocos 1 [PageText (Some (py "Fatura 2024")); PageText (Some (py "   "))])
  /\ pages_processed r
     = length (filter (fun pg => com_texto pg = true)
                 [PageText (Some (py "Fatura 2024")); PageText (Some (py "   "))]).
Proof.
  apply (direct_extraction_page_delimiters _extract_with_pdfplumber Ex.fatura 1000 2048
           Ex.paginas [PageText (Some (py "Fatura 2024")); PageText (Some (py "   "))]).
  - left. reflexivity.
  - reflexivity.
Defined.

Example extract_with_pdfplumber_fatura :
  text_content (_extract_with_pdfplumber Ex.fatura 1000 2048 Ex.paginas)
  = py "=== PÁGINA 1 ===" ++ [10] ++ py "Fatura 2024" ++ [10]
  /\ pages_processed (_extract_with_pdfplumber Ex.fatura 1000 2048 Ex.paginas) = 1%nat.
Proof. split; vm_compute; reflexivity. Qed.

Lemma extraiu_texto_code (r : ExtractionResult) :
  success r && truthy (strip (text_content r)) = extraiu_texto r.
Proof. unfold extraiu_texto. by rewrite truthy_false. Qed.

(** C5, as the code has it: on a valid PDF, an extractor with pdfplumber
    enabled tries pdfplumber first and returns its result when that
    succeeded with non-blank text; PyPDF2 is tried only when it is enabled
    and pdfplumber is disabled or did not give such a result; and when no
    enabled library succeeds, the result has [success = False], empty
    [text_content] and [pages_processed = 0]. *)
Theorem direct_extract_text_order (self : DirectExtractor) (env : direct_env) :
  validate_pdf (d_path env) = true ->
  let plumber :=
    _extract_with_pdfplumber (d_path env) (d_start env) (file_info_size (d_path env))
      (d_plumber env) in
  let pypdf2 :=
    _extract_with_pypdf2 (d_path env) (d_start env) (file_info_size (d_path env))
      (d_pypdf2 env) in
  let r := (direct_extract_text self env).1 in
  let tried := (direct_extract_text self env).2 in
  (use_pdfplumber self = true -> exists rest, tried = Pdfplumber :: rest)
  /\ (use_pdfplumber self = true -> extraiu_texto plumber = true ->
      r = plumber /\ tried = [Pdfplumber])
  /\ (PyPDF2 ∈ tried ->
      use_pypdf2 self = true
      /\ (use_pdfplumber self = false \/ extraiu_texto plumber = false))
  /\ ((use_pdfplumber self = true -> extraiu_texto plumber = false) ->
      (use_pypdf2 self = true -> success pypdf2 = false) ->
      success r = false /\ text_content r = [] /\ pages_processed r = 0%nat).
Proof.
  intros Hv plumber pypdf2 r tried.
  unfold r, tried, direct_extract_text. rewrite Hv. cbn [negb].
  fold plumber pypdf2. clearbody plumber pypdf2. clear r tried.
  destruct (use_pdfplumber self), (use_pypdf2 self); rewrite ?extraiu_texto_code;
    destruct (extraiu_texto plumber) eqn:Hp, (success pypdf2) eqn:Hs; cbn;
    (split; [intros; (eauto || discriminate)|]);
    (split; [intros; (done || discriminate)|]);
    (split; [intros Hin; repeat (apply elem_of_cons in Hin as [Hin|Hin]; [discriminate|]);
             try (by apply elem_of_nil in Hin); auto|]);
    intros H1 H2; try (specialize (H1 eq_refl)); try (specialize (H2 eq_refl));
    try discriminate; auto.
Qed.

Lemma direct_extract_text_order_witness :
  let plumber := _extract_with_pdfplumber Ex.fatura 1000 2048 Ex.paginas in
  let pypdf2 := _extract_with_pypdf2 Ex.fatura 1000 2048 Ex.paginas in
  let r := (direct_extract_text Ex.ambos Ex.leitura).1 in
  let tried := (direct_extract_text Ex.ambos Ex.leitura).2 in
  (use_pdfplumber Ex.ambos = true -> exists rest, tried = Pdfplumber :: rest)
  /\ (use_pdfplumber Ex.ambos = true -> extraiu_texto plumber = true ->
      r = plumber /\ tried = [Pdfplumber])
  /\ (PyPDF2 ∈ tried ->
      use_pypdf2 Ex.ambos = true
      /\ (use_pdfplumber Ex.ambos = false \/ extraiu_texto plumber = false))
  /\ ((use_pdfplumber Ex.ambos = true -> extraiu_texto plumber = false) ->
      (use_pypdf2 Ex.ambos = true -> success pypdf2 = false) ->
      success r = false /\ text_content r = [] /\ pages_processed r = 0%nat).
Proof.
  apply (direct_extract_text_order Ex.ambos Ex.leitura). reflexivity.
Defined.

(** C5, as stated, fails: an extractor built with [use_pdfplumber: False]
    reads a valid PDF with PyPDF2 alone; pdfplumber is not attempted
    first, and PyPDF2 runs without any pdfplumber attempt having failed. *)
Lemma direct_extract_text_skips_disabled_pdfplumber :
  DirectExtractor_init Ex.instaladas Ex.sem_pdfplumber = Ret Ex.so_pypdf2
  /\ validate_pdf (d_path Ex.leitura) = true
  /\ (direct_extract_text Ex.so_pypdf2 Ex.leitura).2 = [PyPDF2]
  /\ (direct_extract_text Ex.so_pypdf2 Ex.leitura).1
     = _extract_with_pypdf2 Ex.fatura 1000 2048 Ex.paginas.
Proof. repeat split; vm_compute; reflexivity. Qed.

(** ** HybridExtractor *)

(** C2, as the code has it: on a valid PDF, with [prefer_direct] set, when
    the direct extractor returns a successful result with at least
    [min_text_threshold] characters of stripped text and at least one page
    processed, [extract_text] returns that result, its method renamed to
    "Hybrid PDF Text Extractor (Direct)", and does not invoke the OCR
    extractor. *)
Theorem hybrid_extract_text_direct_success
    (self : HybridExtractor) (env : hybrid_env) (r : ExtractionResult) :
  validate_pdf (h_path env) = true ->
  prefer_direct self = true ->
  h_direct env = Ret r ->
  success r = true ->
  (min_text_threshold self <= Z.of_nat (length (strip (text_content r))))%Z ->
  pages_processed r <> 0%nat ->
  (hybrid_extract_text self env).1.1 = with_method r (hybrid_name ++ py " (Direct)")
  /\ (hybrid_extract_text self env).2 = [DirectAttempt]
  /\ OCRAttempt ∉ (hybrid_extract_text self env).2.
Proof.
  intros Hv Hp Hd Hs Hlen Hpages.
  assert (Hok : _is_extraction_successful (set_last_direct self (Some r)) r = true).
  { unfold _is_extraction_successful. rewrite Hs. cbn.
    destruct (Z.ltb_spec (Z.of_nat (length (strip (text_content r)))) (min_text_threshold self));
      [lia|].
    destruct (Nat.eqb_spec (pages_processed r) 0); [done|reflexivity]. }
  unfold hybrid_extract_text, _try_direct_extraction.
  rewrite Hv, Hp, Hd. cbn [negb]. rewrite Hok. cbn.
  repeat split. intros Hin. apply list_elem_of_singleton in Hin. discriminate.
Qed.

Lemma hybrid_extract_text_direct_success_witness :
  (hybrid_extract_text Ex.hibrido (Ex.leitura_hibrida Ex.resultado_direto_longo)).1.1
  = with_method Ex.resultado_direto_longo (hybrid_name ++ py " (Direct)")
  /\ (hybrid_extract_text Ex.hibrido (Ex.leitura_hibrida Ex.resultado_direto_longo)).2
     = [DirectAttempt]
  /\ OCRAttempt ∉ (hybrid_extract_text Ex.hibrido (Ex.leitura_hibrida Ex.resultado_direto_longo)).2.
Proof.
  apply (hybrid_extract_text_direct_success Ex.hibrido
           (Ex.leitura_hibrida Ex.resultado_direto_longo) Ex.resultado_direto_longo);
    try reflexivity.
  - vm_compute. discriminate.
  - vm_compute. discriminate.
Defined.

(** C2, as stated, fails: direct extraction of a valid PDF yields the
    non-empty text of one page, 28 characters once stripped; that is
    below the default threshold of 50, so OCR is invoked and its result is
    the one returned. *)
Lemma hybrid_extract_text_short_text_runs_ocr :
  HybridExtractor_init empty_config = Ret Ex.hibrido
  /\ validate_pdf Ex.fatura = true
  /\ success Ex.resultado_direto = true
  /\ text_content Ex.resultado_direto
     = py "=== PÁGINA 1 ===" ++ [10] ++ py "Fatura 2024" ++ [10]
  /\ length (strip (text_content Ex.resultado_direto)) = 28%nat
  /\ (hybrid_extract_text Ex.hibrido (Ex.leitura_hibrida Ex.resultado_direto)).2
     = [DirectAttempt; OCRAttempt]
  /\ (hybrid_extract_text Ex.hibrido (Ex.leitura_hibrida Ex.resultado_direto)).1.1
     = with_method Ex.resultado_ocr (hybrid_name ++ py " (OCR)").
Proof. repeat split; vm_compute; reflexivity. Qed.

(** ** ExtractorFactory *)

Lemma dict_get_None {V} (k : pystr) (d : list (pystr * V)) :
  dict_get k d = None <-> k ∉ keys d.
Proof.
  induction d as [|[k' v] d IH]; cbn.
  - split; [intros _; apply not_elem_of_nil | done].
  - rewrite not_elem_of_cons. case_bool_decide; [|tauto].
    split; [discriminate | intros [? _]; done].
Qed.

Lemma new_class_of (l : libs) (c : extractor_class) (config : config_dict) (x : extractor) :
  new l c config = Ret x -> class_of x = c.
Proof.
  destruct c; cbn.
  - destruct (DirectExtractor_init l config); cbn; [intros [= <-]; reflexivity | discriminate].
  - destruct (OCRExtractor_init l config); cbn; [intros [= <-]; reflexivity | discriminate].
  - intros [= <-]. reflexivity.
Qed.

Lemma new_raises (l : libs) (c : extractor_class) (config : config_dict) (e : exn) :
  new l c config = Raise e -> exists msg, e = ImportError msg.
Proof.
  destruct c; cbn.
  - unfold DirectExtractor_init. destruct (_ && _); cbn; [intros [= <-]; eauto | discriminate].
  - unfold OCRExtractor_init. destruct (negb _); cbn; [intros [= <-]; eauto|].
    destruct (negb _); cbn; [intros [= <-]; eauto | discriminate].
  - discriminate.
Qed.

(** C10, as the code has it: for a type that is not registered,
    [create_extractor] raises the [ValueError] naming the type and the
    registered types; for a registered type it calls the registered class
    with the config dict, and returns the instance of that class unless
    the constructor raises its [ImportError], which then propagates. The
    registry and the instance cache are the same afterwards in every
    case. *)
Theorem create_extractor_unregistered_or_class
    (l : libs) (cls : ExtractorFactory) (extractor_type : pystr)
    (config : option ConfigManager) :
  (create_extractor l cls extractor_type config).2 = cls
  /\ (extractor_type ∉ keys (_extractors cls) ->
      (create_extractor l cls extractor_type config).1
      = Raise (ValueError_nao_registrado extractor_type (keys (_extractors cls))))
  /\ (forall c,
        dict_get extractor_type (_extractors cls) = Some c ->
        (create_extractor l cls extractor_type config).1
        = new l c (from_option to_dict empty_config config)
        /\ match (create_extractor l cls extractor_type config).1 with
           | Ret x => class_of x = c
           | Raise e => exists msg, e = ImportError msg
           end).
Proof.
  unfold create_extractor. split; [|split].
  - case_bool_decide; cbn; [|done]. by destruct (dict_get _ _).
  - intros Hnot. by rewrite bool_decide_eq_false_2.
  - intros c Hc.
    assert (Hin : extractor_type ∈ keys (_extractors cls)).
    { destruct (decide (extractor_type ∈ keys (_extractors cls))) as [|Hn]; [done|].
      apply dict_get_None in Hn. congruence. }
    rewrite bool_decide_eq_true_2 by done. cbn [negb]. rewrite Hc. cbn [fst].
    assert (Hcfg : match config with Some c0 => to_dict c0 | None => empty_config end
                   = from_option to_dict empty_config config) by by destruct config.
    rewrite Hcfg. split; [reflexivity|].
    destruct (new l c _) as [x|e] eqn:Hnew.
    + by apply new_class_of in Hnew.
    + by apply new_raises in Hnew.
Qed.

Example create_extractor_unknown_type :
  create_extractor Ex.instaladas Ex.fabrica (py "vision") None
  = (Raise (ValueError_nao_registrado (py "vision") [py "direct"; py "ocr"; py "hybrid"]),
     Ex.fabrica).
Proof. vm_compute. reflexivity. Qed.

(** C10, as stated, fails: ['ocr'] is registered, yet where [pdf2image]
    cannot be imported the constructor raises [ImportError] and no
    instance is returned. *)
Lemma create_extractor_constructor_raises :
  dict_get (py "ocr") (_extractors Ex.fabrica) = Some OCRExtractor_class
  /\ create_extractor Ex.sem_pdf2image Ex.fabrica (py "ocr") None
     = (Raise (ImportError (py "pdf2image não está disponível")), Ex.fabrica).
Proof. split; vm_compute; reflexivity. Qed.

(** ** The page requests of extract_text_openai_vision_async *)

Lemma count_insert (l : list task) (i : nat) (a b t : task) :
  l !! i = Some a ->
  (length (filter (fun x => x = t) (<[i := b]> l)) + (if decide (a = t) then 1 else 0)
   = length (filter (fun x => x = t) l) + (if decide (b = t) then 1 else 0))%nat.
Proof.
  revert i. induction l as [|x l IH]; intros i Hi; [by rewrite lookup_nil in Hi|].
  destruct i as [|i]; cbn in Hi.
  - injection Hi as ->. change (<[0%nat := b]> (a :: l)) with (b :: l).
    rewrite !filter_cons.
    destruct (decide (a = t)), (decide (b = t)); cbn; lia.
  - specialize (IH i Hi). change (<[S i := b]> (x :: l)) with (x :: <[i := b]> l).
    rewrite !filter_cons.
    destruct (decide (x = t)); cbn; lia.
Qed.

Lemma launch_balanced (max_concurrent : Z) (n_pages : nat) (s0 : gather) :
  launch max_concurrent n_pages = Ret s0 -> balanced max_concurrent s0.
Proof.
  unfold launch, Semaphore. destruct (Z.ltb_spec max_concurrent 0); cbn; [discriminate|].
  intros [= <-]. unfold balanced, in_flight, count. cbn [sem_value tasks].
  assert (Hrep : forall t, t <> Waiting ->
            length (filter (fun x => x = t) (replicate n_pages Waiting)) = 0%nat).
  { intros t Ht. induction n_pages as [|n IH]; [reflexivity|].
    change (replicate (S n) Waiting) with (Waiting :: replicate n Waiting).
    rewrite filter_cons, decide_False by congruence. exact IH. }
  rewrite !Hrep by discriminate. lia.
Qed.

Ltac decide_tasks :=
  repeat match goal with
         | H : context [decide (?a = ?b)] |- _ => destruct (decide (a = b)); try discriminate
         end.

Lemma step_balanced (max_concurrent : Z) (s s' : gather) :
  step s s' -> balanced max_concurrent s -> balanced max_concurrent s'.
Proof.
  unfold balanced, in_flight, count.
  intros [s1 i Hi Hpos | s1 i Hi | s1 i Hi] Hbal; cbn [sem_value tasks].
  - pose proof (count_insert _ _ _ Acquired Acquired Hi) as HA.
    pose proof (count_insert _ _ _ Acquired Requesting Hi) as HR.
    decide_tasks; try congruence. lia.
  - pose proof (count_insert _ _ _ Requesting Acquired Hi) as HA.
    pose proof (count_insert _ _ _ Requesting Requesting Hi) as HR.
    decide_tasks; try congruence. lia.
  - pose proof (count_insert _ _ _ Finished Acquired Hi) as HA.
    pose proof (count_insert _ _ _ Finished Requesting Hi) as HR.
    decide_tasks; try congruence. lia.
Qed.

(** A request is only ever issued by a task that is inside the block. *)
Lemma request_from_inside_block (s s' : gather) :
  step s s' -> (in_flight s < in_flight s')%nat ->
  exists i, tasks s !! i = Some Acquired /\ tasks s' = <[i := Requesting]> (tasks s).
Proof.
  unfold in_flight, count.
  intros [s1 i Hi Hpos | s1 i Hi | s1 i Hi] Hlt; cbn [sem_value tasks] in *.
  - pose proof (count_insert _ _ _ Acquired Requesting Hi) as HR.
    decide_tasks; try congruence. lia.
  - by exists i.
  - pose proof (count_insert _ _ _ Finished Requesting Hi) as HR.
    decide_tasks; try congruence. lia.
Qed.

(** C8: from the moment the tasks are launched, in every state the event
    loop can reach, the semaphore's counter plus the tasks inside the
    [async with] block equal [max_concurrent]; hence the page requests in
    flight never exceed [max_concurrent]. (A task issues its request only
    from inside the block, which it enters by taking one unit of the
    counter.) *)
Theorem page_requests_bounded (max_concurrent : Z) (n_pages : nat) (s0 s : gather) :
  launch max_concurrent n_pages = Ret s0 ->
  rtc step s0 s ->
  balanced max_concurrent s /\ (Z.of_nat (in_flight s) <= max_concurrent)%Z.
Proof.
  intros Hl Hsteps.
  assert (Hbal : balanced max_concurrent s).
  { apply launch_balanced in Hl.
    induction Hsteps as [s|s1 s2 s3 H12 _ IH]; [exact Hl|].
    apply IH. by eapply step_balanced. }
  split; [exact Hbal|]. unfold balanced in Hbal. lia.
Qed.

Lemma page_requests_bounded_witness :
  balanced 2 Ex.duas_dentro /\ (Z.of_nat (in_flight Ex.duas_dentro) <= 2)%Z.
Proof.
  apply (page_requests_bounded 2 3 Ex.tres_paginas Ex.duas_dentro).
  - reflexivity.
  - eapply rtc_l; [apply (step_acquire Ex.tres_paginas 0%nat); [reflexivity | done]|].
    eapply rtc_l; [apply (step_acquire _ 1%nat); [reflexivity | done]|].
    eapply rtc_l; [apply (step_request _ 0%nat); reflexivity|].
    apply rtc_refl.
Defined.

(** With two units all taken, the third task cannot enter the block. *)
Example duas_dentro_blocks_third (s' : gather) :
  step Ex.duas_dentro s' ->
  s' = {| sem_value := 0; tasks := [Requesting; Requesting; Waiting] |}
  \/ s' = {| sem_value := 1; tasks := [Finished; Acquired; Waiting] |}.
Proof.
  intros Hs. inversion Hs as [s i Hi Hpos | s i Hi | s i Hi]; subst.
  - cbn in Hpos. lia.
  - destruct i as [|[|[|i]]]; cbn in Hi; try discriminate. by left.
  - destruct i as [|[|[|i]]]; cbn in Hi; try discriminate. by right.
Qed.

(** * Further properties *)

(** ** The ledger under its header *)

Lemma dict_row_HEADER_lookups (row : csv_row) :
  dict_row HEADER row !! py "projeto" = Some (row !! 0%nat)
  /\ dict_row HEADER row !! py "arquivo_pdf" = Some (row !! 1%nat)
  /\ dict_row HEADER row !! py "hash_pdf" = Some (row !! 2%nat)
  /\ dict_row HEADER row !! py "status" = Some (row !! 4%nat)
  /\ dict_row HEADER row !! py "output_path" = Some (row !! 5%nat).
Proof.
  destruct row as [|a [|b [|c [|d [|e [|f r]]]]]];
    try (repeat split; vm_compute; reflexivity).
  unfold dict_row.
  replace (drop (length (a :: b :: c :: d :: e :: f :: r)) HEADER) with (@nil pystr)
    by (symmetry; apply drop_ge; cbn; lia).
  repeat split; vm_compute; reflexivity.
Qed.

Lemma res_bind_Ret {A B} (a : A) (k : A -> res B) : (Ret a ≫= k) = k a.
Proof. reflexivity. Qed.

Lemma chave_de_HEADER (row : csv_row) :
  chave_de (dict_row HEADER row) = Ret (chave_linha row).
Proof.
  destruct (dict_row_HEADER_lookups row) as (Hp & Ha & Hh & Hs & Ho).
  by apply chave_de_Ret.
Qed.

Lemma mapM_chave_de_HEADER (rows : list csv_row) :
  mapM chave_de (map (dict_row HEADER) rows) = Ret (map chave_linha rows).
Proof.
  induction rows as [|r rows IH]; [reflexivity|].
  cbn [map mapM]. rewrite chave_de_HEADER. cbn. rewrite IH. reflexivity.
Qed.

Lemma registros_de_HEADER (rows : list csv_row) :
  registros_de (HEADER :: rows)
  = Ret (list_to_set (map chave_linha (filter (fun r => nonblank r = true) rows))).
Proof.
  unfold registros_de, DictReader. rewrite mapM_chave_de_HEADER. reflexivity.
Qed.

(** On a file that starts with the header, [append_ctrl_csv] appends the
    record exactly when no record of the file has its key. *)
Lemma append_ctrl_csv_HEADER
    (projeto arquivo_pdf hash_pdf status output_path agora : pystr) (rows : list csv_row) :
  append_ctrl_csv projeto arquivo_pdf hash_pdf status output_path agora (Some (HEADER :: rows))
  = Ret (Some (HEADER :: rows
               ++ if bool_decide
                       ((Some projeto, Some arquivo_pdf, Some hash_pdf, Some status,
                         Some output_path)
                        ∈ map chave_linha (filter (fun r => nonblank r = true) rows))
                  then []
                  else [[projeto; arquivo_pdf; hash_pdf; agora; status; output_path]])).
Proof.
  unfold append_ctrl_csv. rewrite registros_de_HEADER. cbn.
  destruct (bool_decide (_ ∈ map chave_linha _)) eqn:Hin.
  - apply bool_decide_eq_true in Hin.
    rewrite bool_decide_eq_true_2 by by apply elem_of_list_to_set.
    by rewrite app_nil_r.
  - apply bool_decide_eq_false in Hin.
    rewrite bool_decide_eq_false_2; [reflexivity|].
    intros H. by apply elem_of_list_to_set in H.
Qed.

Lemma append_ctrl_csv_None
    (projeto arquivo_pdf hash_pdf status output_path agora : pystr) :
  append_ctrl_csv projeto arquivo_pdf hash_pdf status output_path agora None
  = Ret (Some [HEADER; [projeto; arquivo_pdf; hash_pdf; agora; status; output_path]]).
Proof.
  unfold append_ctrl_csv. cbn.
  rewrite bool_decide_eq_false_2 by apply not_elem_of_empty. reflexivity.
Qed.

Lemma tem_registro_HEADER (rows : list csv_row) (row : csv_row)
    (projeto arquivo_pdf hash_pdf status output_path : pystr) :
  row ∈ rows -> nonblank row = true ->
  chave_linha row
  = (Some projeto, Some arquivo_pdf, Some hash_pdf, Some status, Some output_path) ->
  tem_registro (Some (HEADER :: rows)) projeto arquivo_pdf hash_pdf status output_path.
Proof.
  intros Hin Hnb Hk. exists (HEADER :: rows), (dict_row HEADER row).
  split; [reflexivity|]. split.
  - cbn. apply list_elem_of_fmap. exists row. split; [reflexivity|].
    by apply list_elem_of_filter.
  - destruct (dict_row_HEADER_lookups row) as (Hp & Ha & Hh & Hs & Ho).
    unfold chave_linha in Hk. injection Hk as E0 E1 E2 E4 E5.
    rewrite Hp, Ha, Hh, Hs, Ho, E0, E1, E2, E4, E5. done.
Qed.

Lemma tem_registro_prefix (rows more : list csv_row)
    (projeto arquivo_pdf hash_pdf status output_path : pystr) :
  tem_registro (Some (HEADER :: rows)) projeto arquivo_pdf hash_pdf status output_path ->
  tem_registro (Some (HEADER :: rows ++ more)) projeto arquivo_pdf hash_pdf status output_path.
Proof.
  intros (records & row & Hf & Hrow & Hk). injection Hf as <-.
  exists (HEADER :: rows ++ more), row. split; [reflexivity|]. split; [|exact Hk].
  cbn in *. apply list_elem_of_fmap in Hrow as (r & -> & Hr).
  apply list_elem_of_fmap. exists r. split; [reflexivity|].
  rewrite filter_app. apply elem_of_app. by left.
Qed.

Lemma append_ctrl_csv_on_ledger_ok
    (f : csv_file) (projeto arquivo_pdf hash_pdf status output_path agora : pystr) :
  ledger_ok f ->
  exists f',
    append_ctrl_csv projeto arquivo_pdf hash_pdf status output_path agora f = Ret f'
    /\ ledger_ok f'
    /\ registros_do_arquivo f `prefix_of` registros_do_arquivo f'
    /\ tem_registro f' projeto arquivo_pdf hash_pdf status output_path.
Proof.
  intros [-> | [rows ->]].
  - eexists. split; [apply append_ctrl_csv_None|].
    split; [right; by eexists|]. split; [by eexists|].
    apply (tem_registro_HEADER _ [projeto; arquivo_pdf; hash_pdf; agora; status; output_path]);
      [apply elem_of_cons; by left | reflexivity | reflexivity].
  - eexists. split; [apply append_ctrl_csv_HEADER|].
    split; [right; by eexists|]. split; [cbn; by eexists|].
    case_bool_decide as Hin.
    + rewrite app_nil_r.
      apply list_elem_of_fmap in Hin as (r & Hk & Hr).
      apply list_elem_of_filter in Hr as [Hnb Hr].
      by apply (tem_registro_HEADER rows r).
    + apply (tem_registro_HEADER _ [projeto; arquivo_pdf; hash_pdf; agora; status; output_path]);
        [apply elem_of_app; right; apply elem_of_cons; by left | reflexivity | reflexivity].
Qed.



(** X2: on such a ledger two equal calls, whatever the two timestamps,
    leave the file that the first call alone leaves. *)
Theorem append_ctrl_csv_idempotent
    (f : csv_file) (projeto arquivo_pdf hash_pdf status output_path agora1 agora2 : pystr) :
  ledger_ok f ->
  (append_ctrl_csv projeto arquivo_pdf hash_pdf status output_path agora1 f
   ≫= append_ctrl_csv projeto arquivo_pdf hash_pdf status output_path agora2)
  = append_ctrl_csv projeto arquivo_pdf hash_pdf status output_path agora1 f.
Proof.
  assert (Hsame : forall rows,
    (Some projeto, Some arquivo_pdf, Some hash_pdf, Some status, Some output_path)
    ∈ map chave_linha (filter (fun r => nonblank r = true) rows) ->
    append_ctrl_csv projeto arquivo_pdf hash_pdf status output_path agora2
      (Some (HEADER :: rows)) = Ret (Some (HEADER :: rows))).
  { intros rows Hin. rewrite append_ctrl_csv_HEADER.
    rewrite bool_decide_eq_true_2 by done. by rewrite app_nil_r. }
  intros [-> | [rows ->]].
  - rewrite append_ctrl_csv_None, res_bind_Ret. apply Hsame.
    apply elem_of_cons. by left.
  - rewrite append_ctrl_csv_HEADER, res_bind_Ret. case_bool_decide as Hin.
    + rewrite app_nil_r. by apply Hsame.
    + apply Hsame. rewrite filter_app, map_app. apply elem_of_app. right.
      apply elem_of_cons. by left.
Qed.

Lemma append_ctrl_csv_idempotent_witness :
  (append_ctrl_csv (py "p") (py "b.pdf") (py "h2") (py "error") (py "o")
     (py "2025-02-01T09:03:00") Ex.ledger
   ≫= append_ctrl_csv (py "p") (py "b.pdf") (py "h2") (py "error") (py "o")
        (py "2025-02-01T09:04:00"))
  = append_ctrl_csv (py "p") (py "b.pdf") (py "h2") (py "error") (py "o")
      (py "2025-02-01T09:03:00") Ex.ledger.
Proof.
  apply (append_ctrl_csv_idempotent Ex.ledger).
  right. eexists. reflexivity.
Defined.

(** X3: a ledger file that exists but is empty never gets its header: the
    first record written becomes the header line, so it is not found as a
    record and an equal second call appends it once more. *)
Theorem append_ctrl_csv_empty_file_gets_no_header
    (projeto arquivo_pdf hash_pdf status output_path agora1 agora2 : pystr) :
  append_ctrl_csv projeto arquivo_pdf hash_pdf status output_path agora1 (Some [])
  = Ret (Some [[projeto; arquivo_pdf; hash_pdf; agora1; status; output_path]])
  /\ ~ tem_registro (Some [[projeto; arquivo_pdf; hash_pdf; agora1; status; output_path]])
        projeto arquivo_pdf hash_pdf status output_path
  /\ append_ctrl_csv projeto arquivo_pdf hash_pdf status output_path agora2
       (Some [[projeto; arquivo_pdf; hash_pdf; agora1; status; output_path]])
     = Ret (Some [[projeto; arquivo_pdf; hash_pdf; agora1; status; output_path];
                  [projeto; arquivo_pdf; hash_pdf; agora2; status; output_path]]).
Proof.
  split; [|split].
  - unfold append_ctrl_csv. cbn.
    rewrite bool_decide_eq_false_2 by apply not_elem_of_empty. reflexivity.
  - intros (records & row & Hf & Hrow & _). injection Hf as <-.
    cbn in Hrow. by apply elem_of_nil in Hrow.
  - unfold append_ctrl_csv. cbn.
    rewrite bool_decide_eq_false_2 by apply not_elem_of_empty. reflexivity.
Qed.

(** ** process_project and the ledger *)

Lemma tem_registro_mono (f f' : csv_file)
    (projeto arquivo_pdf hash_pdf status output_path : pystr) :
  ledger_ok f' ->
  registros_do_arquivo f `prefix_of` registros_do_arquivo f' ->
  tem_registro f projeto arquivo_pdf hash_pdf status output_path ->
  tem_registro f' projeto arquivo_pdf hash_pdf status output_path.
Proof.
  intros Hok' [more Hpre] Ht.
  destruct Ht as (records & row & -> & Hrow & Hk).
  destruct records as [|hdr rows]; [by apply elem_of_nil in Hrow|].
  destruct Hok' as [-> | [rows' ->]]; cbn in Hpre; [discriminate|].
  injection Hpre as <- ->.
  apply tem_registro_prefix. by exists (HEADER :: rows), row.
Qed.

Section process_project_ledger.
Variables (RESULTS_BASE_PATH project_name : pystr) (ctrl : gmap key3 row_dict).

Lemma process_pdf_file_on_ledger_ok (i : nat) (e : pdf_env) (st : run) :
  ledger_ok (ledger st) ->
  let r := process_pdf_file RESULTS_BASE_PATH project_name ctrl i e st in
  ledger_ok (ledger r.1)
  /\ registros_do_arquivo (ledger st) `prefix_of` registros_do_arquivo (ledger r.1)
  /\ ((r = (st, None) /\ foi_pulado project_name ctrl e = true)
      \/ (exists x, r = (st, Some x) /\ ~ sem_falha project_name ctrl e)
      \/ (r.2 = None /\ foi_pulado project_name ctrl e = false
          /\ sem_falha project_name ctrl e
          /\ extracted r.1 = extracted st ++ [i]
          /\ success_count r.1
             = (success_count st
                + if extraido_com_sucesso project_name ctrl e then 1 else 0)%nat
          /\ exists h, hash_pdf e = Ret h
               /\ tem_registro (ledger r.1) project_name (filename_pdf e) h (status_final e)
                    (json_output_de RESULTS_BASE_PATH project_name (filename_pdf e)))).
Proof.
  intros Hok. unfold process_pdf_file, foi_pulado, sem_falha, extraido_com_sucesso,
    foi_pulado, status_final. cbn zeta.
  set (out := json_output_de RESULTS_BASE_PATH project_name (filename_pdf e)).
  destruct (hash_pdf e) as [h|x] eqn:Hh.
  2:{ cbn. split; [done|]. split; [done|]. right; left. exists x. split; [done|].
      intros (h' & b & [=] & _). }
  destruct (ja_processado _ _) as [[|]|x] eqn:Hja.
  - cbn. split; [done|]. split; [done|]. by left.
  - destruct (append_ctrl_csv_on_ledger_ok (ledger st) project_name (filename_pdf e) h
                (py "processing") out
                (agora_processing e) Hok) as (l1 & E1 & Hok1 & Hpre1 & _).
    rewrite E1.
    assert (Hsem : exists h0 b, Ret h = Ret h0 /\ ja_processado
        (ctrl !! (Some project_name, Some (filename_pdf e), Some h0))
        (json_output_exists e) = Ret b) by by exists h, false.
    destruct (extraction e) as [[|]|x] eqn:Hex.
    + destruct (append_ctrl_csv_on_ledger_ok l1 project_name (filename_pdf e) h
                  (py "success") out (agora_status e) Hok1) as (l2 & E2 & Hok2 & Hpre2 & Ht2).
      rewrite res_bind_Ret, E2. cbn.
      split; [done|]. split; [by etrans|]. right; right.
      repeat apply conj; try done; try (cbn; lia). by exists h.
    + destruct (append_ctrl_csv_on_ledger_ok l1 project_name (filename_pdf e) h
                  (py "error") out (agora_status e) Hok1) as (l2 & E2 & Hok2 & Hpre2 & Ht2).
      rewrite res_bind_Ret, E2. cbn.
      split; [done|]. split; [by etrans|]. right; right.
      repeat apply conj; try done; try (cbn; lia). by exists h.
    + destruct (append_ctrl_csv_on_ledger_ok l1 project_name (filename_pdf e) h
                  (py "error") out (agora_error e) Hok1) as (l2 & E2 & Hok2 & Hpre2 & Ht2).
      cbn. rewrite E2. cbn.
      split; [done|]. split; [by etrans|]. right; right.
      repeat apply conj; try done; try (cbn; lia). by exists h.
  - cbn. split; [done|]. split; [done|]. right; left. exists x. split; [done|].
    intros (h' & b & [= <-] & Hb). rewrite Hja in Hb. discriminate.
Qed.

Lemma process_pdf_files_on_ledger_ok (pdf_files : list pdf_env) (start : nat) (st : run) :
  ledger_ok (ledger st) ->
  let r := process_pdf_files RESULTS_BASE_PATH project_name ctrl start pdf_files st in
  ledger_ok (ledger r.1)
  /\ registros_do_arquivo (ledger st) `prefix_of` registros_do_arquivo (ledger r.1)
  /\ forall j, j ∈ extracted r.1 ->
       j ∈ extracted st
       \/ exists e h,
            (start <= j)%nat /\ pdf_files !! (j - start)%nat = Some e /\ hash_pdf e = Ret h
            /\ tem_registro (ledger r.1) project_name (filename_pdf e) h (status_final e)
                 (json_output_de RESULTS_BASE_PATH project_name (filename_pdf e)).
Proof.
  revert start st. induction pdf_files as [|e rest IH]; intros start st Hok; cbn.
  - split; [done|]. split; [done|]. intros j Hj. by left.
  - destruct (process_pdf_file_on_ledger_ok start e st Hok) as (Hok1 & Hpre1 & Hcase).
    destruct (process_pdf_file _ _ _ start e st) as [st1 [x|]] eqn:Hstep; cbn in *.
    + destruct Hcase as [[[=] _] | [(x' & [= -> ->] & _) | ([=] & _)]].
      split; [done|]. split; [done|]. intros j Hj. by left.
    + destruct (IH (S start) st1 Hok1) as (Hok2 & Hpre2 & Hrest).
      split; [done|]. split; [by etrans|].
      intros j Hj. destruct (Hrest j Hj) as [Hj1 | (e' & h & Hle & Hlook & Hh & Ht)].
      * destruct Hcase as [[[= ->] _] | [(x' & [=] & _) | (_ & _ & _ & Hext & _ & h & Hh & Ht)]];
          [by left|].
        rewrite Hext in Hj1. apply elem_of_app in Hj1 as [Hj1|Hj1]; [by left|].
        apply list_elem_of_singleton in Hj1 as ->. right. exists e, h.
        rewrite Nat.sub_diag. repeat apply conj; try done.
        by apply (tem_registro_mono (ledger st1)).
      * right. exists e', h. repeat apply conj; try done; [lia|].
        by replace (j - start)%nat with (S (j - S start)) by lia.
Qed.


Lemma process_pdf_files_stops (pdf_files : list pdf_env) (start : nat) (st : run)
    (k : nat) (e : pdf_env) (x : exn) :
  pdf_files !! k = Some e -> hash_pdf e = Raise x ->
  exists st' x',
    process_pdf_files RESULTS_BASE_PATH project_name ctrl start pdf_files st = (st', Some x')
    /\ forall j, j ∈ extracted st' -> j ∈ extracted st \/ (j < start + k)%nat.
Proof.
  revert start st k. induction pdf_files as [|e0 rest IH]; intros start st k Hk Hx.
  - by rewrite lookup_nil in Hk.
  - cbn. pose proof (process_pdf_file_extracted RESULTS_BASE_PATH project_name ctrl
                       start e0 st) as Hone. cbn in Hone.
    destruct k as [|k]; cbn in Hk.
    + injection Hk as ->. unfold process_pdf_file. rewrite Hx.
      exists st, x. split; [done|]. intros j Hj. by left.
    + destruct (process_pdf_file _ _ _ start e0 st) as [st1 [x1|]] eqn:Hstep; cbn in *.
      * exists st1, x1. split; [done|]. intros j Hj.
        destruct Hone as [Heq | [Heq _]]; rewrite Heq in Hj; [by left|].
        apply elem_of_app in Hj as [Hj|Hj]; [by left|].
        apply list_elem_of_singleton in Hj as ->. right. lia.
      * destruct (IH (S start) st1 k Hk Hx) as (st' & x' & E & Hb).
        exists st', x'. split; [done|]. intros j Hj.
        destruct (Hb j Hj) as [Hj1 | Hlt]; [|right; lia].
        destruct Hone as [Heq | [Heq _]]; rewrite Heq in Hj1; [by left|].
        apply elem_of_app in Hj1 as [Hj1|Hj1]; [by left|].
        apply list_elem_of_singleton in Hj1 as ->. right. lia.
Qed.

End process_project_ledger.

(** X4: started on a ledger that is absent or begins with the header,
    [process_project] leaves such a ledger, keeps every earlier record in
    place, and for each file on which it ran extraction the ledger holds
    afterwards a record with that file's project, name, hash and output
    path and the status of the run: [success] when extraction returned
    [True], [error] when it returned [False] or raised. *)
Theorem process_project_records_every_extraction
    (RESULTS_BASE_PATH project_name : pystr) (ctrl : gmap key3 row_dict)
    (pdf_files : list pdf_env) (l0 : csv_file) :
  ledger_ok l0 ->
  let st := (process_project RESULTS_BASE_PATH project_name ctrl pdf_files l0).2 in
  ledger_ok (ledger st)
  /\ registros_do_arquivo l0 `prefix_of` registros_do_arquivo (ledger st)
  /\ forall i, i ∈ extracted st ->
       exists e h,
         pdf_files !! i = Some e /\ hash_pdf e = Ret h
         /\ tem_registro (ledger st) project_name (filename_pdf e) h (status_final e)
              (json_output_de RESULTS_BASE_PATH project_name (filename_pdf e)).
Proof.
  intros Hok. unfold process_project.
  destruct pdf_files as [|e0 rest].
  { cbn. split; [done|]. split; [done|]. intros i Hi. by apply elem_of_nil in Hi. }
  pose proof (process_pdf_files_on_ledger_ok RESULTS_BASE_PATH project_name ctrl
                (e0 :: rest) 0 {| ledger := l0; success_count := 0; extracted := [] |} Hok)
    as (Hok' & Hpre & Hext).
  destruct (process_pdf_files _ _ _ 0 (e0 :: rest) _) as [st [x|]]; cbn in *;
    (split; [done|]; split; [done|]; intros i Hi;
     destruct (Hext i Hi) as [Hnil | (e & h & _ & Hlook & Hh & Ht)];
     [by apply elem_of_nil in Hnil|];
     rewrite Nat.sub_0_r in Hlook; by exists e, h).
Qed.

Lemma process_project_records_every_extraction_witness :
  let st := (process_project (py "R") (py "p") Ex.ctrl [Ex.a_pdf false] Ex.ledger).2 in
  ledger_ok (ledger st)
  /\ registros_do_arquivo Ex.ledger `prefix_of` registros_do_arquivo (ledger st)
  /\ forall i, i ∈ extracted st ->
       exists e h,
         [Ex.a_pdf false] !! i = Some e /\ hash_pdf e = Ret h
         /\ tem_registro (ledger st) (py "p") (filename_pdf e) h (status_final e)
              (json_output_de (py "R") (py "p") (filename_pdf e)).
Proof.
  apply (process_project_records_every_extraction (py "R") (py "p") Ex.ctrl
           [Ex.a_pdf false] Ex.ledger).
  right. eexists. reflexivity.
Defined.



(** X6: when hashing one file raises, [process_project] returns
    [(project_name, False, 0)], whatever was extracted before, and runs
    extraction on no file from that one on. *)
Theorem process_project_aborts_on_hash_error
    (RESULTS_BASE_PATH project_name : pystr) (ctrl : gmap key3 row_dict)
    (pdf_files : list pdf_env) (l0 : csv_file) (k : nat) (e : pdf_env) (x : exn) :
  pdf_files !! k = Some e ->
  hash_pdf e = Raise x ->
  (process_project RESULTS_BASE_PATH project_name ctrl pdf_files l0).1
  = (project_name, false, 0%nat)
  /\ forall j, (k <= j)%nat ->
       j ∉ extracted (process_project RESULTS_BASE_PATH project_name ctrl pdf_files l0).2.
Proof.
  intros Hk Hx. unfold process_project.
  destruct pdf_files as [|e0 rest]; [by rewrite lookup_nil in Hk|].
  destruct (process_pdf_files_stops RESULTS_BASE_PATH project_name ctrl (e0 :: rest) 0
              {| ledger := l0; success_count := 0; extracted := [] |} k e x Hk Hx)
    as (st' & x' & E & Hb).
  rewrite E. cbn. split; [done|]. intros j Hle Hj.
  destruct (Hb j Hj) as [Hnil | Hlt]; [by apply elem_of_nil in Hnil | lia].
Qed.

Lemma process_project_aborts_on_hash_error_witness :
  (process_project (py "R") (py "p") Ex.ctrl [Ex.a_pdf false; Ex2.ilegivel] Ex.ledger).1
  = (py "p", false, 0%nat)
  /\ forall j, (1 <= j)%nat ->
       j ∉ extracted
             (process_project (py "R") (py "p") Ex.ctrl [Ex.a_pdf false; Ex2.ilegivel]
                Ex.ledger).2.
Proof.
  apply (process_project_aborts_on_hash_error (py "R") (py "p") Ex.ctrl
           [Ex.a_pdf false; Ex2.ilegivel] Ex.ledger 1 Ex2.ilegivel
           (PermissionError (py "b.pdf"))); reflexivity.
Defined.

Lemma tem_registro_HEADER_inv (rows : list csv_row)
    (projeto arquivo_pdf hash_pdf status output_path : pystr) :
  tem_registro (Some (HEADER :: rows)) projeto arquivo_pdf hash_pdf status output_path ->
  (Some projeto, Some arquivo_pdf, Some hash_pdf, Some status, Some output_path)
  ∈ map chave_linha (filter (fun r => nonblank r = true) rows).
Proof.
  intros (records & row & Hf & Hrow & Hp & Ha & Hh & Hs & Ho). injection Hf as <-.
  cbn in Hrow. apply list_elem_of_fmap in Hrow as (r & -> & Hr).
  apply list_elem_of_fmap. exists r. split; [|done].
  destruct (dict_row_HEADER_lookups r) as (Hp' & Ha' & Hh' & Hs' & Ho').
  unfold chave_linha. congruence.
Qed.

(** X7: a success that comes after a failure is not written down. When the
    ledger already holds the [processing] and the [success] record of a
    file, and the ledger check still does not pass (the last record of the
    file is a later [error], or the JSON output was missing), a run that
    extracts the file with success counts it and leaves the ledger as it
    was: whatever the ledger said about the file, it says on the next run. *)
Theorem process_project_success_after_error_not_recorded
    (RESULTS_BASE_PATH project_name : pystr) (ctrl : gmap key3 row_dict)
    (e : pdf_env) (h : pystr) (rows : list csv_row) :
  hash_pdf e = Ret h ->
  extraction e = Ret true ->
  ja_processado (ctrl !! (Some project_name, Some (filename_pdf e), Some h))
    (json_output_exists e) = Ret false ->
  tem_registro (Some (HEADER :: rows)) project_name (filename_pdf e) h (py "processing")
    (json_output_de RESULTS_BASE_PATH project_name (filename_pdf e)) ->
  tem_registro (Some (HEADER :: rows)) project_name (filename_pdf e) h (py "success")
    (json_output_de RESULTS_BASE_PATH project_name (filename_pdf e)) ->
  process_project RESULTS_BASE_PATH project_name ctrl [e] (Some (HEADER :: rows))
  = ((project_name, true, 1%nat),
     {| ledger := Some (HEADER :: rows); success_count := 1; extracted := [0%nat] |}).
Proof.
  intros Hh Hx Hja Hproc Hsucc.
  apply tem_registro_HEADER_inv in Hproc, Hsucc.
  unfold process_project. cbn [process_pdf_files]. unfold process_pdf_file.
  rewrite Hh, Hja, Hx. cbn zeta. cbn [ledger success_count extracted].
  rewrite append_ctrl_csv_HEADER, (bool_decide_eq_true_2 _ Hproc), app_nil_r.
  rewrite res_bind_Ret.
  rewrite append_ctrl_csv_HEADER, (bool_decide_eq_true_2 _ Hsucc), app_nil_r.
  reflexivity.
Qed.

Lemma process_project_success_after_error_not_recorded_witness :
  process_project (py "R") (py "p") Ex2.ctrl_sucesso_e_erro [Ex.a_pdf true]
    Ex2.sucesso_e_erro
  = ((py "p", true, 1%nat),
     {| ledger := Ex2.sucesso_e_erro; success_count := 1; extracted := [0%nat] |}).
Proof.
  apply (process_project_success_after_error_not_recorded (py "R") (py "p")
           Ex2.ctrl_sucesso_e_erro (Ex.a_pdf true) (py "h")).
  - reflexivity.
  - reflexivity.
  - vm_compute. reflexivity.
  - apply (tem_registro_HEADER _
             [py "p"; py "a.pdf"; py "h"; py "2025-01-01T10:00:00"; py "processing";
              py "R/p/a/openai_vision_a.json"]);
      [apply elem_of_cons; by left | reflexivity | vm_compute; reflexivity].
  - apply (tem_registro_HEADER _
             [py "p"; py "a.pdf"; py "h"; py "2025-01-01T10:03:00"; py "success";
              py "R/p/a/openai_vision_a.json"]);
      [apply elem_of_cons; right; apply elem_of_cons; by left | reflexivity
      | vm_compute; reflexivity].
Defined.

(** ** The other readers and writers of the ledger *)

Lemma getitem_arquivo_pdf_HEADER (rows : list csv_row) :
  mapM (fun row => getitem row (py "arquivo_pdf")) (map (dict_row HEADER) rows)
  = Ret (map (fun r : csv_row => r !! 1%nat) rows).
Proof.
  induction rows as [|r rows IH]; [reflexivity|].
  cbn [map mapM]. destruct (dict_row_HEADER_lookups r) as (_ & Ha & _).
  rewrite (getitem_Ret _ _ _ Ha). cbn. rewrite IH. reflexivity.
Qed.

Lemma carregar_csv_em_memoria_HEADER (rows : list csv_row) :
  carregar_csv_em_memoria (Some (HEADER :: rows))
  = Ret (nomes_do_arquivo (Some (HEADER :: rows)),
         map (dict_row HEADER) (filter (fun r => nonblank r = true) rows)).
Proof.
  unfold carregar_csv_em_memoria, DictReader. rewrite getitem_arquivo_pdf_HEADER.
  reflexivity.
Qed.

Lemma nomes_do_arquivo_snoc (rows : list csv_row) (dados : csv_row) :
  dados <> [] ->
  nomes_do_arquivo (Some (HEADER :: rows ++ [dados]))
  = nomes_do_arquivo (Some (HEADER :: rows)) ∪ {[ dados !! 1%nat ]}.
Proof.
  intros Hd. unfold nomes_do_arquivo, registros_do_arquivo. cbn [default from_option id tail].
  rewrite filter_app, map_app, list_to_set_app_L. f_equal.
  rewrite filter_cons, decide_True by by destruct dados.
  rewrite filter_nil. cbn. by rewrite (right_id_L ∅ (∪)).
Qed.

Lemma append_registro_csv_on_ledger_ok (dados : csv_row) (f : csv_file) :
  ledger_ok f -> dados <> [] ->
  ledger_ok (append_registro_csv dados f)
  /\ registros_do_arquivo f `prefix_of` registros_do_arquivo (append_registro_csv dados f)
  /\ nomes_do_arquivo (append_registro_csv dados f)
     = nomes_do_arquivo f ∪ {[ dados !! 1%nat ]}.
Proof.
  intros [-> | [rows ->]] Hd.
  - split; [right; by eexists|]. split; [by eexists|].
    change (append_registro_csv dados None) with (Some (HEADER :: [] ++ [dados])).
    rewrite nomes_do_arquivo_snoc by done. reflexivity.
  - change (append_registro_csv dados (Some (HEADER :: rows)))
      with (Some (HEADER :: rows ++ [] ++ [dados])).
    cbn [app]. split; [right; by eexists|]. split; [cbn; by eexists|].
    by apply nomes_do_arquivo_snoc.
Qed.

Lemma carregar_csv_em_memoria_on_ledger_ok (f : csv_file) :
  ledger_ok f ->
  exists linhas, carregar_csv_em_memoria f = Ret (nomes_do_arquivo f, linhas).
Proof.
  intros [-> | [rows ->]].
  - by exists [].
  - eexists. apply carregar_csv_em_memoria_HEADER.
Qed.

(** X8: what [append_registro_csv] writes, [carregar_csv_em_memoria] reads
    back. On a ledger that is absent or starts with the header, after a
    non-empty record is appended the file loads without error, its names
    are the earlier names and the second field of the record, and its lines
    are the earlier lines followed by the record under the header's
    names. *)
Theorem append_registro_csv_then_carregar (dados : csv_row) (f : csv_file) :
  ledger_ok f -> dados <> [] ->
  exists nomes linhas,
    carregar_csv_em_memoria f = Ret (nomes, linhas)
    /\ carregar_csv_em_memoria (append_registro_csv dados f)
       = Ret (nomes ∪ {[ dados !! 1%nat ]}, linhas ++ [dict_row HEADER dados]).
Proof.
  intros Hok Hd.
  destruct (append_registro_csv_on_ledger_ok dados f Hok Hd) as (_ & _ & Hn).
  destruct Hok as [-> | [rows ->]].
  - exists ∅, []. split; [reflexivity|].
    change (append_registro_csv dados None) with (Some (HEADER :: [] ++ [dados])) in *.
    rewrite carregar_csv_em_memoria_HEADER, Hn. cbn [app].
    rewrite filter_cons, decide_True by by destruct dados.
    reflexivity.
  - eexists _, _. split; [apply carregar_csv_em_memoria_HEADER|].
    change (append_registro_csv dados (Some (HEADER :: rows)))
      with (Some (HEADER :: rows ++ [] ++ [dados])) in *.
    cbn [app] in *. rewrite carregar_csv_em_memoria_HEADER, Hn.
    rewrite filter_app, map_app, filter_cons, decide_True by by destruct dados.
    reflexivity.
Qed.

Lemma append_registro_csv_then_carregar_witness :
  exists nomes linhas,
    carregar_csv_em_memoria Ex.ledger = Ret (nomes, linhas)
    /\ carregar_csv_em_memoria
         (append_registro_csv
            [py "q"; py "c.pdf"; py "h9"; py "2025-03-01T08:00:00"; py "missing_in_csv";
             py "Processados/q/q/c.pdf"] Ex.ledger)
       = Ret (nomes ∪ {[ Some (py "c.pdf") ]},
              linhas ++ [dict_row HEADER
                           [py "q"; py "c.pdf"; py "h9"; py "2025-03-01T08:00:00";
                            py "missing_in_csv"; py "Processados/q/q/c.pdf"]]).
Proof.
  apply (append_registro_csv_then_carregar
           [py "q"; py "c.pdf"; py "h9"; py "2025-03-01T08:00:00"; py "missing_in_csv";
            py "Processados/q/q/c.pdf"] Ex.ledger).
  - right. eexists. reflexivity.
  - discriminate.
Defined.

Lemma faltantes_nil (nomes : gset (option pystr)) (pdfs : list pdf_achado) :
  (forall pdf, pdf ∈ pdfs -> Some (a_name pdf) ∈ nomes) -> faltantes nomes pdfs = [].
Proof.
  induction pdfs as [|pdf rest IH]; intros Hall; [reflexivity|].
  unfold faltantes. rewrite filter_cons, decide_False.
  - apply IH. intros. apply Hall, elem_of_cons. by right.
  - intros Hn. apply Hn, Hall, elem_of_cons. by left.
Qed.

Lemma corrigir_loop_on_ledger_ok (nomes : gset (option pystr)) (pdfs : list pdf_achado)
    (f : csv_file) (acc : list pystr) :
  ledger_ok f ->
  (forall pdf, pdf ∈ pdfs -> projeto_legivel pdf) ->
  exists f',
    corrigir_loop nomes pdfs f acc = (f', acc ++ map a_str (faltantes nomes pdfs), None)
    /\ ledger_ok f'
    /\ registros_do_arquivo f `prefix_of` registros_do_arquivo f'
    /\ nomes_do_arquivo f'
       = nomes_do_arquivo f
         ∪ list_to_set (map (fun pdf => Some (a_name pdf)) (faltantes nomes pdfs))
    /\ (faltantes nomes pdfs = [] -> f' = f).
Proof.
  revert f acc. induction pdfs as [|pdf rest IH]; intros f acc Hok Hall.
  - exists f. cbn. rewrite app_nil_r, (right_id_L ∅ (∪)). done.
  - assert (Hrest : forall pdf', pdf' ∈ rest -> projeto_legivel pdf')
      by (intros; apply Hall, elem_of_cons; by right).
    destruct (Hall pdf) as [projeto Hp]; [apply elem_of_cons; by left|].
    cbn [corrigir_loop]. unfold faltantes. rewrite filter_cons. fold (faltantes nomes rest).
    case_bool_decide as Hin.
    + rewrite decide_False by (intros Hn; by apply Hn).
      apply (IH f acc Hok Hrest).
    + rewrite decide_True by done. rewrite Hp.
      set (registro := [projeto; a_name pdf; _; a_agora pdf; py "missing_in_csv"; a_str pdf]).
      destruct (append_registro_csv_on_ledger_ok registro f Hok) as (Hok1 & Hpre1 & Hn1);
        [done|].
      destruct (IH (append_registro_csv registro f) (acc ++ [a_str pdf]) Hok1 Hrest)
        as (f' & E & Hok' & Hpre' & Hn' & _).
      exists f'. rewrite E. cbn [map]. rewrite <- app_assoc. cbn [app].
      split; [done|]. split; [done|]. split; [by etrans|]. split; [|done].
      rewrite Hn', Hn1. cbn [list_to_set]. by rewrite (assoc_L (∪)).
Qed.



(** X10: under the same conditions a second run over the same PDFs reports
    none and leaves the file that the first run left. *)
Theorem corrigir_csv_second_run_adds_nothing (pdfs : list pdf_achado) (f : csv_file) :
  ledger_ok f ->
  (forall pdf, pdf ∈ pdfs -> projeto_legivel pdf) ->
  forall f1, (corrigir_csv_com_base_processados pdfs f).1.1 = f1 ->
  corrigir_csv_com_base_processados pdfs f1 = (f1, [], None).
Proof.
  intros Hok Hall f1 Hf1. unfold corrigir_csv_com_base_processados in Hf1.
  destruct (carregar_csv_em_memoria_on_ledger_ok f Hok) as [linhas Hl].
  destruct (corrigir_loop_on_ledger_ok (nomes_do_arquivo f) pdfs f [] Hok Hall)
    as (f' & E & Hok' & _ & Hn & _).
  rewrite Hl, E in Hf1. cbn [fst] in Hf1. subst f1.
  unfold corrigir_csv_com_base_processados.
  destruct (carregar_csv_em_memoria_on_ledger_ok f' Hok') as [linhas' ->].
  assert (Hnone : faltantes (nomes_do_arquivo f') pdfs = []).
  { apply faltantes_nil. intros pdf Hpdf. rewrite Hn.
    destruct (decide (Some (a_name pdf) ∈ nomes_do_arquivo f)) as [Hin|Hin];
      apply elem_of_union; [by left|right].
    apply elem_of_list_to_set, list_elem_of_fmap.
    exists pdf. split; [done|]. by apply list_elem_of_filter. }
  destruct (corrigir_loop_on_ledger_ok (nomes_do_arquivo f') pdfs f' [] Hok' Hall)
    as (f'' & E' & _ & _ & _ & Hsame).
  rewrite E', Hnone, (Hsame Hnone). reflexivity.
Qed.

Lemma corrigir_csv_second_run_adds_nothing_witness :
  corrigir_csv_com_base_processados Ex2.achados
    (corrigir_csv_com_base_processados Ex2.achados Ex.ledger).1.1
  = ((corrigir_csv_com_base_processados Ex2.achados Ex.ledger).1.1, [], None).
Proof.
  apply (corrigir_csv_second_run_adds_nothing Ex2.achados Ex.ledger).
  - right. eexists. reflexivity.
  - intros pdf Hpdf. unfold Ex2.achados in Hpdf.
    repeat (apply elem_of_cons in Hpdf as [-> | Hpdf]; [eexists; reflexivity|]).
    by apply elem_of_nil in Hpdf.
  - reflexivity.
Defined.

(** ** The factory and its cache *)

Lemma dict_get_set_eq {V} (k : pystr) (v : V) (d : list (pystr * V)) :
  dict_get k (dict_set k v d) = Some v.
Proof.
  induction d as [|[k' v'] d IH]; cbn.
  - by rewrite bool_decide_eq_true_2.
  - case_bool_decide as E; cbn.
    + by rewrite bool_decide_eq_true_2.
    + by rewrite bool_decide_eq_false_2.
Qed.

Lemma dict_get_set_ne {V} (k k' : pystr) (v : V) (d : list (pystr * V)) :
  k <> k' -> dict_get k' (dict_set k v d) = dict_get k' d.
Proof.
  intros Hne. induction d as [|[k0 v0] d IH]; cbn.
  - by rewrite bool_decide_eq_false_2.
  - case_bool_decide as E; cbn.
    + subst k0. by rewrite !bool_decide_eq_false_2.
    + case_bool_decide; [done|apply IH].
Qed.

Lemma dict_get_elem_of_keys {V} (k : pystr) (d : list (pystr * V)) :
  k ∈ keys d <-> is_Some (dict_get k d).
Proof.
  destruct (dict_get k d) as [v|] eqn:E.
  - split; [by eexists|]. intros _.
    destruct (decide (k ∈ keys d)) as [|Hn]; [done|].
    apply dict_get_None in Hn. congruence.
  - apply dict_get_None in E. split; [done|]. intros [? [=]].
Qed.

Lemma keys_dict_set {V} (k : pystr) (v : V) (d : list (pystr * V)) :
  keys (dict_set k v d) = if bool_decide (k ∈ keys d) then keys d else keys d ++ [k].
Proof.
  induction d as [|[k' v'] d IH]; cbn.
  - rewrite bool_decide_eq_false_2 by apply not_elem_of_nil. reflexivity.
  - destruct (decide (k = k')) as [->|Hne].
    + rewrite !bool_decide_eq_true_2; [done | apply elem_of_cons; by left | done].
    + rewrite (bool_decide_eq_false_2 (k = k')) by done. cbn.
      unfold keys in IH. rewrite IH.
      destruct (decide (k ∈ map fst d)) as [Hin|Hin].
      * rewrite !bool_decide_eq_true_2; [done| |done]. apply elem_of_cons. by right.
      * rewrite !bool_decide_eq_false_2; [done| |done].
        intros [?|?]%elem_of_cons; done.
Qed.

Lemma get_extractor_cache_key (l : libs) (cls : ExtractorFactory) (t : pystr)
    (config : option ConfigManager) :
  get_extractor l cls t config
  = match dict_get (cache_key t config) (_instances cls) with
    | Some x => (Ret x, cls)
    | None =>
        match create_extractor l cls t config with
        | (Ret x, cls') =>
            (Ret x, {| _extractors := _extractors cls';
                       _instances := dict_set (cache_key t config) x (_instances cls') |})
        | (Raise e, cls') => (Raise e, cls')
        end
    end.
Proof. reflexivity. Qed.

Lemma create_extractor_factory (l : libs) (cls : ExtractorFactory) (t : pystr)
    (config : option ConfigManager) :
  (create_extractor l cls t config).2 = cls.
Proof.
  unfold create_extractor. destruct (negb _); [done|].
  by destruct (dict_get t (_extractors cls)).
Qed.

Lemma create_extractor_Ret (l : libs) (cls : ExtractorFactory) (t : pystr)
    (config : option ConfigManager) (x : extractor) :
  (create_extractor l cls t config).1 = Ret x ->
  exists c, dict_get t (_extractors cls) = Some c /\ class_of x = c.
Proof.
  unfold create_extractor. destruct (negb _); [discriminate|].
  destruct (dict_get t (_extractors cls)) as [c|]; [|discriminate].
  cbn. intros H. exists c. split; [done|]. by apply new_class_of in H.
Qed.

(** What one call of [get_extractor] does to the factory. *)
Lemma get_extractor_step (l : libs) (cls : ExtractorFactory) (t : pystr)
    (config : option ConfigManager) :
  let r := get_extractor l cls t config in
  _extractors r.2 = _extractors cls
  /\ (forall k x, dict_get k (_instances cls) = Some x ->
        dict_get k (_instances r.2) = Some x)
  /\ (forall k x, dict_get k (_instances r.2) = Some x ->
        dict_get k (_instances cls) = Some x
        \/ (k = cache_key t config
            /\ exists c, dict_get t (_extractors cls) = Some c /\ class_of x = c))
  /\ (forall x, r.1 = Ret x -> dict_get (cache_key t config) (_instances r.2) = Some x)
  /\ (forall e, r.1 = Raise e -> r.2 = cls).
Proof.
  rewrite get_extractor_cache_key.
  destruct (dict_get (cache_key t config) (_instances cls)) as [x0|] eqn:Hc; cbn.
  { repeat apply conj; try done; [by left | by intros x [= <-]]. }
  pose proof (create_extractor_factory l cls t config) as Hf.
  pose proof (create_extractor_Ret l cls t config) as Hr.
  destruct (create_extractor l cls t config) as [[x|e] cls']; cbn in *; subst cls'.
  - repeat apply conj; try done.
    + intros k y Hk. rewrite dict_get_set_ne; [done|]. intros <-. congruence.
    + intros k y Hk. destruct (decide (cache_key t config = k)) as [<-|Hne].
      * rewrite dict_get_set_eq in Hk. injection Hk as <-. right. split; [done|].
        by apply Hr.
      * rewrite dict_get_set_ne in Hk by done. by left.
    + intros y [= <-]. apply dict_get_set_eq.
  - repeat apply conj; try done. by left.
Qed.

(** X11: [get_extractor] gives one instance per type and config id for as
    long as the cache is not cleared. Once it has returned an instance,
    an equal call returns that instance and leaves the factory as it is,
    also after the type was registered again with another class, with
    another set of installed libraries, and for another config object
    that has the same [id]. *)
Theorem get_extractor_reuses_instance
    (l l' : libs) (cls cls1 : ExtractorFactory) (t : pystr)
    (config config' : option ConfigManager) (x : extractor) (c : extractor_class) :
  get_extractor l cls t config = (Ret x, cls1) ->
  option_map cm_id config' = option_map cm_id config ->
  get_extractor l' cls1 t config' = (Ret x, cls1)
  /\ get_extractor l' (register_extractor cls1 t c) t config'
     = (Ret x, register_extractor cls1 t c).
Proof.
  intros Hget Hid.
  assert (Hkey : cache_key t config' = cache_key t config).
  { unfold cache_key. destruct config, config'; cbn in Hid; try done. congruence. }
  destruct (get_extractor_step l cls t config) as (_ & _ & _ & Hin & _).
  rewrite Hget in Hin. specialize (Hin x eq_refl). cbn in Hin.
  rewrite !get_extractor_cache_key, Hkey. cbn [register_extractor _instances].
  by rewrite Hin.
Qed.

Lemma get_extractor_reuses_instance_witness :
  get_extractor Ex.sem_pytesseract
    (get_extractor Ex.instaladas Ex.fabrica (py "ocr") None).2 (py "ocr") None
  = (Ret (OCR {| ocr_language := py "por"; ocr_dpi := 300; max_pages := None |}),
     (get_extractor Ex.instaladas Ex.fabrica (py "ocr") None).2)
  /\ get_extractor Ex.sem_pytesseract
       (register_extractor (get_extractor Ex.instaladas Ex.fabrica (py "ocr") None).2
          (py "ocr") DirectExtractor_class) (py "ocr") None
     = (Ret (OCR {| ocr_language := py "por"; ocr_dpi := 300; max_pages := None |}),
        register_extractor (get_extractor Ex.instaladas Ex.fabrica (py "ocr") None).2
          (py "ocr") DirectExtractor_class).
Proof.
  apply (get_extractor_reuses_instance Ex.instaladas Ex.sem_pytesseract Ex.fabrica _
           (py "ocr") None None); [vm_compute; reflexivity | reflexivity].
Defined.

(** X12: registering a type makes [create_extractor] build that class for
    it, leaves the creation of every other registered type as it was, and
    keeps the order of the available types: a type registered again stays
    in its place, a new one goes last. *)
Theorem register_extractor_then_create
    (l : libs) (cls : ExtractorFactory) (t : pystr) (c : extractor_class)
    (config : option ConfigManager) :
  create_extractor l (register_extractor cls t c) t config
  = (new l c match config with Some cm => to_dict cm | None => empty_config end,
     register_extractor cls t c)
  /\ (forall t', t' <> t -> t' ∈ get_available_extractors cls ->
        (create_extractor l (register_extractor cls t c) t' config).1
        = (create_extractor l cls t' config).1)
  /\ get_available_extractors (register_extractor cls t c)
     = if bool_decide (t ∈ get_available_extractors cls)
       then get_available_extractors cls
       else get_available_extractors cls ++ [t].
Proof.
  assert (Hin : forall t', t' ∈ keys (_extractors cls) ->
                          t' ∈ keys (dict_set t c (_extractors cls))).
  { intros t' Ht'. rewrite keys_dict_set. case_bool_decide; [done|].
    apply elem_of_app. by left. }
  split; [|split].
  - unfold create_extractor, register_extractor. cbn [_extractors].
    rewrite bool_decide_eq_true_2.
    + cbn. by rewrite dict_get_set_eq.
    + apply dict_get_elem_of_keys. rewrite dict_get_set_eq. by eexists.
  - intros t' Hne Ht'. unfold get_available_extractors in Ht'.
    unfold create_extractor, register_extractor. cbn [_extractors].
    rewrite !bool_decide_eq_true_2 by auto. cbn.
    rewrite dict_get_set_ne by done.
    by destruct (dict_get t' (_extractors cls)).
  - unfold get_available_extractors, register_extractor. cbn [_extractors].
    apply keys_dict_set.
Qed.

Lemma is_suitable_for_validate (x : extractor) (p : path_env) :
  is_suitable_for x p = validate_pdf p.
Proof. destruct x; cbn; by destruct (validate_pdf p). Qed.

Lemma get_extractor_hybrid_Ret (l : libs) (cls : ExtractorFactory)
    (config : option ConfigManager) :
  dict_get (py "hybrid") (_extractors cls) = Some HybridExtractor_class ->
  exists x, (get_extractor l cls (py "hybrid") config).1 = Ret x.
Proof.
  intros Hreg. rewrite get_extractor_cache_key.
  destruct (dict_get (cache_key _ _) (_instances cls)) as [x|]; [by exists x|].
  unfold create_extractor.
  rewrite bool_decide_eq_true_2 by (apply dict_get_elem_of_keys; rewrite Hreg; by eexists).
  rewrite Hreg. cbn. by eexists.
Qed.

Lemma cache_key_inj (t t' : pystr) (config : option ConfigManager) :
  cache_key t config = cache_key t' config -> t = t'.
Proof. unfold cache_key. by intros H%app_inv_tail. Qed.

Lemma suitable_loop_spec (l : libs) (config : option ConfigManager)
    (envs : pystr -> path_env) (types : list pystr) (cls : ExtractorFactory)
    (acc : list (pystr * extractor)) :
  let r := suitable_loop l config envs types cls acc in
  _extractors r.2 = _extractors cls
  /\ (forall k x, dict_get k (_instances cls) = Some x ->
        dict_get k (_instances r.2) = Some x)
  /\ (forall k x, dict_get k (_instances r.2) = Some x ->
        dict_get k (_instances cls) = Some x
        \/ exists t, k = cache_key t config
             /\ exists c, dict_get t (_extractors cls) = Some c /\ class_of x = c)
  /\ (forall t x, (t, x) ∈ r.1 ->
        (t, x) ∈ acc
        \/ dict_get (cache_key t config) (_instances r.2) = Some x)
  /\ (forall tx, tx ∈ acc -> tx ∈ r.1)
  /\ ((forall t, t ∈ types -> validate_pdf (envs t) = false) -> r.1 = acc)
  /\ (py "hybrid" ∈ types ->
      dict_get (py "hybrid") (_extractors cls) = Some HybridExtractor_class ->
      validate_pdf (envs (py "hybrid")) = true ->
      exists x, (py "hybrid", x) ∈ r.1).
Proof.
  revert cls acc. induction types as [|t rest IH]; intros cls acc; cbn zeta.
  { cbn. repeat apply conj; try done.
    - intros; by left.
    - intros; by left.
    - intros H. by apply elem_of_nil in H. }
  cbn [suitable_loop].
  destruct (get_extractor_step l cls t config) as (He & Hkeep & Horig & Hret & _).
  pose proof (get_extractor_hybrid_Ret l cls config) as Hhyb.
  destruct (get_extractor l cls t config) as [[x|e] cls'] eqn:Hget; cbn [fst snd] in *.
  - set (acc' := if is_suitable_for x (envs t) then acc ++ [(t, x)] else acc).
    destruct (IH cls' acc') as (He' & Hkeep' & Horig' & Hsuit' & Hacc' & Hnone' & Hhyb').
    assert (Hsub : forall tx, tx ∈ acc -> tx ∈ acc').
    { intros tx Htx. unfold acc'. destruct (is_suitable_for _ _); [|done].
      apply elem_of_app. by left. }
    repeat apply conj.
    + congruence.
    + auto.
    + intros k y Hk. destruct (Horig' k y Hk) as [Hk1 | (t' & -> & c & Hc & Hcl)].
      * destruct (Horig k y Hk1) as [?|[-> ?]]; [by left|right; by exists t].
      * right. exists t'. split; [done|]. exists c. split; [congruence|done].
    + intros t' y Hty. destruct (Hsuit' t' y Hty) as [Hin|Hin]; [|by right].
      unfold acc' in Hin. destruct (is_suitable_for _ _); [|by left].
      apply elem_of_app in Hin as [Hin|Hin]; [by left|].
      apply list_elem_of_singleton in Hin. injection Hin as -> ->.
      right. apply Hkeep'. by apply Hret.
    + auto.
    + intros Hall. rewrite Hnone'.
      * unfold acc'. rewrite is_suitable_for_validate, Hall; [done|].
        apply elem_of_cons. by left.
      * intros t' Ht'. apply Hall, elem_of_cons. by right.
    + intros Hin Hreg Hval. destruct (decide (t = py "hybrid")) as [->|Hne].
      * exists x. apply Hacc'. unfold acc'. rewrite is_suitable_for_validate, Hval.
        apply elem_of_app. right. apply elem_of_cons. by left.
      * apply Hhyb'; [|congruence|done].
        apply elem_of_cons in Hin as [Hin|Hin]; [congruence|done].
  - destruct (IH cls' acc) as (He' & Hkeep' & Horig' & Hsuit' & Hacc' & Hnone' & Hhyb').
    repeat apply conj.
    + congruence.
    + auto.
    + intros k y Hk. destruct (Horig' k y Hk) as [Hk1 | (t' & -> & c & Hc & Hcl)].
      * destruct (Horig k y Hk1) as [?|[-> ?]]; [by left|right; by exists t].
      * right. exists t'. split; [done|]. exists c. split; [congruence|done].
    + done.
    + done.
    + intros Hall. apply Hnone'. intros t' Ht'. apply Hall, elem_of_cons. by right.
    + intros Hin Hreg Hval. destruct (decide (t = py "hybrid")) as [->|Hne].
      * destruct (Hhyb Hreg) as [y Hy]. rewrite Hget in Hy. discriminate.
      * apply Hhyb'; [|congruence|done].
        apply elem_of_cons in Hin as [Hin|Hin]; [congruence|done].
Qed.

(** X13: with the hybrid extractor registered under ['hybrid'],
    [auto_select_extractor] never selects by the PDF. Whether the file is
    valid or not (the answer being the same for each extractor asked), it
    raises nothing and returns the instance cached for ['hybrid'] and this
    config; the registered types are unchanged, and unless a stale instance
    was cached under that key before, the instance is a
    [HybridExtractor]. *)
Theorem auto_select_extractor_returns_hybrid
    (l : libs) (cls : ExtractorFactory) (envs : pystr -> path_env)
    (config : option ConfigManager) (valid : bool) :
  dict_get (py "hybrid") (_extractors cls) = Some HybridExtractor_class ->
  (forall t, validate_pdf (envs t) = valid) ->
  exists x cls',
    auto_select_extractor l cls envs config = (Ret x, cls')
    /\ dict_get (cache_key (py "hybrid") config) (_instances cls') = Some x
    /\ _extractors cls' = _extractors cls
    /\ (dict_get (cache_key (py "hybrid") config) (_instances cls) = None ->
        class_of x = HybridExtractor_class).
Proof.
  intros Hreg Hvalid. unfold auto_select_extractor.
  assert (Hin : py "hybrid" ∈ keys (_extractors cls))
    by (apply dict_get_elem_of_keys; rewrite Hreg; by eexists).
  destruct (suitable_loop_spec l config envs (keys (_extractors cls)) cls [])
    as (He & Hkeep & Horig & Hsuit & _ & Hnone & Hhyb).
  destruct (suitable_loop l config envs (keys (_extractors cls)) cls [])
    as [suitable cls1]; cbn [fst snd] in *.
  assert (Hclass : forall cls2 x,
            (forall k y, dict_get k (_instances cls2) = Some y ->
               dict_get k (_instances cls) = Some y
               \/ exists t, k = cache_key t config
                    /\ exists c, dict_get t (_extractors cls) = Some c /\ class_of y = c) ->
            dict_get (cache_key (py "hybrid") config) (_instances cls2) = Some x ->
            dict_get (cache_key (py "hybrid") config) (_instances cls) = None ->
            class_of x = HybridExtractor_class).
  { intros cls2 x Ho Hx Hn. destruct (Ho _ _ Hx) as [?|(t & Hk & c & Hc & Hcl)]; [congruence|].
    apply cache_key_inj in Hk as <-. congruence. }
  destruct valid.
  - destruct (Hhyb Hin Hreg (Hvalid _)) as [x Hx].
    destruct suitable as [|[t0 x0] rest]; [by apply elem_of_nil in Hx|].
    destruct (find _ _) as [[t1 x1]|] eqn:Hfind.
    + apply find_some in Hfind as [Hin1 Ht1]. cbn in Ht1.
      apply bool_decide_eq_true in Ht1 as ->. apply list_elem_of_In in Hin1.
      destruct (Hsuit _ _ Hin1) as [Hnil|Hc]; [by apply elem_of_nil in Hnil|].
      exists x1, cls1. repeat apply conj; try done. by apply (Hclass cls1).
    + exfalso. apply list_elem_of_In in Hx.
      pose proof (find_none _ _ Hfind (py "hybrid", x) Hx) as Hf. cbn in Hf.
      by rewrite bool_decide_eq_true_2 in Hf.
  - rewrite Hnone by (intros; apply Hvalid).
    rewrite bool_decide_eq_true_2 by (by rewrite He).
    destruct (get_extractor_step l cls1 (py "hybrid") config) as (He2 & _ & Horig2 & Hret2 & _).
    destruct (get_extractor_hybrid_Ret l cls1 config) as [x Hx]; [congruence|].
    destruct (get_extractor l cls1 (py "hybrid") config) as [r cls2]; cbn [fst snd] in *.
    subst r. exists x, cls2. repeat apply conj; try done; [by apply Hret2 | congruence|].
    apply (Hclass cls2); [|by apply Hret2].
    intros k y Hk. destruct (Horig2 k y Hk) as [Hk1|[-> (c & Hc & Hcl)]].
    + by apply Horig.
    + right. exists (py "hybrid"). split; [done|]. exists c. split; [congruence|done].
Qed.

Lemma auto_select_extractor_returns_hybrid_witness :
  exists x cls',
    auto_select_extractor Ex.sem_pytesseract Ex.fabrica (fun _ => Ex.fatura) None
    = (Ret x, cls')
    /\ dict_get (cache_key (py "hybrid") None) (_instances cls') = Some x
    /\ _extractors cls' = _extractors Ex.fabrica
    /\ (dict_get (cache_key (py "hybrid") None) (_instances Ex.fabrica) = None ->
        class_of x = HybridExtractor_class).
Proof.
  apply (auto_select_extractor_returns_hybrid Ex.sem_pytesseract Ex.fabrica
           (fun _ => Ex.fatura) None true).
  - vm_compute. reflexivity.
  - intros _. vm_compute. reflexivity.
Defined.

(** ** The hybrid extractor *)

Lemma _is_extraction_successful_aprovado (self : HybridExtractor) (r : ExtractionResult) :
  _is_extraction_successful self r = true <-> aprovado self r.
Proof.
  unfold _is_extraction_successful, aprovado.
  destruct (success r); cbn; [|intuition congruence].
  destruct (Z.ltb_spec (Z.of_nat (length (strip (text_content r)))) (min_text_threshold self));
    [intuition (try congruence; lia)|].
  destruct (Nat.eqb_spec (pages_processed r) 0); intuition (try congruence; lia).
Qed.

(** X14: a failed hybrid extraction can return the text of the previous
    file. After a call in which direct extraction passed the quality check
    for file A, a call for file B in which direct extraction raises and OCR
    does not pass returns A's result, relabelled [(Direct - Partial)]: its
    [success] is [True], its path and its text are those of A. *)
Theorem hybrid_extract_text_returns_previous_result
    (self : HybridExtractor) (envA envB : hybrid_env) (rA : ExtractionResult) (e : exn) :
  prefer_direct self = true ->
  validate_pdf (h_path envA) = true ->
  h_direct envA = Ret rA ->
  _is_extraction_successful self rA = true ->
  validate_pdf (h_path envB) = true ->
  h_direct envB = Raise e ->
  ocr_sem_exito self envB ->
  let self1 := (hybrid_extract_text self envA).1.2 in
  let rB := (hybrid_extract_text self1 envB).1.1 in
  rB = with_method rA (hybrid_name ++ py " (Direct - Partial)")
  /\ success rB = true
  /\ file_path rB = file_path rA
  /\ text_content rB = text_content rA.
Proof.
  intros Hp HvA HdA HsA HvB HdB Hocr. cbn zeta.
  assert (HrB : (hybrid_extract_text (hybrid_extract_text self envA).1.2 envB).1.1
                = with_method rA (hybrid_name ++ py " (Direct - Partial)")).
  { unfold hybrid_extract_text at 2. rewrite HvA, Hp. cbn [negb].
    unfold _try_direct_extraction. rewrite HdA.
    change (_is_extraction_successful (set_last_direct self (Some rA)) rA)
      with (_is_extraction_successful self rA). rewrite HsA. cbn [fst snd].
    unfold hybrid_extract_text. rewrite HvB. cbn [negb prefer_direct set_last_direct].
    rewrite Hp. unfold _try_direct_extraction. rewrite HdB.
    cbn [_is_extraction_successful error_result success negb].
    unfold ocr_strategy, _try_ocr_extraction, ocr_sem_exito in *.
    destruct (h_ocr envB) as [r|e'].
    - match goal with |- context [_is_extraction_successful ?s r] =>
        change (_is_extraction_successful s r) with (_is_extraction_successful self r) end.
      rewrite Hocr. unfold partial_result. cbn. rewrite Hp.
      by destruct (ocr_fallback self).
    - unfold partial_result. cbn. rewrite Hp. by destruct (ocr_fallback self). }
  rewrite HrB. repeat apply conj; try reflexivity.
  cbn. unfold _is_extraction_successful in HsA. by destruct (success rA).
Qed.

Lemma hybrid_extract_text_returns_previous_result_witness :
  let envB :=
    {| h_path := Ex.fatura; h_start := 20000; h_clock := 21000;
       h_direct := Raise (OtherError (py "arquivo corrompido"));
       h_ocr := Raise (OtherError (py "tesseract não encontrado")) |} in
  let self1 :=
    (hybrid_extract_text Ex.hibrido (Ex.leitura_hibrida Ex.resultado_direto_longo)).1.2 in
  let rB := (hybrid_extract_text self1 envB).1.1 in
  rB = with_method Ex.resultado_direto_longo (hybrid_name ++ py " (Direct - Partial)")
  /\ success rB = true
  /\ file_path rB = file_path Ex.resultado_direto_longo
  /\ text_content rB = text_content Ex.resultado_direto_longo.
Proof.
  apply (hybrid_extract_text_returns_previous_result Ex.hibrido
           (Ex.leitura_hibrida Ex.resultado_direto_longo)
           {| h_path := Ex.fatura; h_start := 20000; h_clock := 21000;
              h_direct := Raise (OtherError (py "arquivo corrompido"));
              h_ocr := Raise (OtherError (py "tesseract não encontrado")) |}
           Ex.resultado_direto_longo (OtherError (py "arquivo corrompido")));
    try reflexivity; try (vm_compute; reflexivity).
Defined.

Lemma hybrid_labels_distinct :
  hybrid_name ++ py " (Direct - Partial)" <> hybrid_name ++ py " (Direct)"
  /\ hybrid_name ++ py " (Direct - Partial)" <> hybrid_name ++ py " (OCR)"
  /\ hybrid_name ++ py " (OCR - Partial)" <> hybrid_name ++ py " (Direct)"
  /\ hybrid_name ++ py " (OCR - Partial)" <> hybrid_name ++ py " (OCR)"
  /\ hybrid_name <> hybrid_name ++ py " (Direct)"
  /\ hybrid_name <> hybrid_name ++ py " (OCR)"
  /\ hybrid_name ++ py " (OCR)" <> hybrid_name ++ py " (Direct)".
Proof. repeat split; vm_compute; discriminate. Qed.

(** X15: the label tells whether the text passed the quality check. A
    result that [HybridExtractor.extract_text] returns labelled [(Direct)]
    or [(OCR)] succeeded, its stripped text has at least
    [min_text_threshold] characters and at least one page was read; every
    other result is labelled [(Direct - Partial)], [(OCR - Partial)] or
    with the plain extractor name. *)
Theorem hybrid_extract_text_label_means_checked
    (self : HybridExtractor) (env : hybrid_env) :
  let r := (hybrid_extract_text self env).1.1 in
  (extraction_method r = hybrid_name ++ py " (Direct)"
   \/ extraction_method r = hybrid_name ++ py " (OCR)" ->
   aprovado self r)
  /\ (extraction_method r = hybrid_name ++ py " (Direct)"
      \/ extraction_method r = hybrid_name ++ py " (OCR)"
      \/ extraction_method r = hybrid_name ++ py " (Direct - Partial)"
      \/ extraction_method r = hybrid_name ++ py " (OCR - Partial)"
      \/ extraction_method r = hybrid_name).
Proof.
  destruct hybrid_labels_distinct as (L1 & L2 & L3 & L4 & L5 & L6 & L7).
  assert (Hpart : forall s,
    let r := (partial_result s env).1 in
    (extraction_method r = hybrid_name ++ py " (Direct)"
     \/ extraction_method r = hybrid_name ++ py " (OCR)" -> aprovado self r)
    /\ (extraction_method r = hybrid_name ++ py " (Direct)"
        \/ extraction_method r = hybrid_name ++ py " (OCR)"
        \/ extraction_method r = hybrid_name ++ py " (Direct - Partial)"
        \/ extraction_method r = hybrid_name ++ py " (OCR - Partial)"
        \/ extraction_method r = hybrid_name)).
  { intros s. unfold partial_result.
    destruct (prefer_direct s), (_last_direct_result s), (_last_ocr_result s); cbn;
      (split; [intros [?|?]; congruence | tauto]). }
  assert (Hocr : forall s tried,
    let r := (ocr_strategy s env tried).1.1 in
    min_text_threshold s = min_text_threshold self ->
    (extraction_method r = hybrid_name ++ py " (Direct)"
     \/ extraction_method r = hybrid_name ++ py " (OCR)" -> aprovado self r)
    /\ (extraction_method r = hybrid_name ++ py " (Direct)"
        \/ extraction_method r = hybrid_name ++ py " (OCR)"
        \/ extraction_method r = hybrid_name ++ py " (Direct - Partial)"
        \/ extraction_method r = hybrid_name ++ py " (OCR - Partial)"
        \/ extraction_method r = hybrid_name)).
  { intros s tried r Hth. subst r. unfold ocr_strategy.
    destruct (ocr_fallback s); [|apply Hpart].
    destruct (_try_ocr_extraction s env) as [ocr_result s1] eqn:Htry.
    assert (Hth1 : min_text_threshold s1 = min_text_threshold self).
    { unfold _try_ocr_extraction in Htry.
      destruct (h_ocr env); injection Htry as <- <-; exact Hth. }
    destruct (_is_extraction_successful s1 ocr_result) eqn:Hs; [|apply Hpart].
    cbn. split; [|tauto]. intros _.
    apply _is_extraction_successful_aprovado.
    unfold _is_extraction_successful in *. cbn. by rewrite <- Hth1. }
  cbn zeta. unfold hybrid_extract_text.
  destruct (validate_pdf (h_path env)); cbn [negb].
  2:{ cbn. split; [intros [?|?]; congruence | tauto]. }
  destruct (prefer_direct self); [|by apply Hocr].
  destruct (_try_direct_extraction self env) as [direct_result s1] eqn:Htry.
  assert (Hth1 : min_text_threshold s1 = min_text_threshold self).
  { unfold _try_direct_extraction in Htry.
    destruct (h_direct env); injection Htry as <- <-; reflexivity. }
  destruct (_is_extraction_successful s1 direct_result) eqn:Hs; [|by apply Hocr].
  cbn. split; [|tauto]. intros _.
  apply _is_extraction_successful_aprovado.
  unfold _is_extraction_successful in *. cbn. by rewrite <- Hth1.
Qed.

Lemma tipos_distintos :
  py "scanned" <> py "native" /\ py "mixed" <> py "native" /\ py "mixed" <> py "scanned".
Proof. repeat split; vm_compute; discriminate. Qed.

(** X16: for a file over 50 MiB [extract_with_adaptive_strategy] ignores
    the instance: whatever the threshold, [prefer_direct], [ocr_fallback]
    and the results kept from earlier calls, and without validating the
    path, it asks OCR first and returns a result that depends on the two
    sub-extractors only; that result succeeded exactly when OCR did or,
    failing that, direct extraction did. *)
Theorem extract_with_adaptive_strategy_large_file
    (self self' : HybridExtractor) (env : hybrid_env) (st_size : N) :
  p_st_size (h_path env) = Ret st_size ->
  52428800 < st_size ->
  (extract_with_adaptive_strategy self env).1.1
  = (extract_with_adaptive_strategy self' env).1.1
  /\ head (extract_with_adaptive_strategy self env).2 = Some OCRAttempt
  /\ (success (extract_with_adaptive_strategy self env).1.1 = true
      <-> (exists r, h_ocr env = Ret r /\ success r = true)
          \/ (exists r, h_direct env = Ret r /\ success r = true)).
Proof.
  intros Hsize Hbig. destruct tipos_distintos as (T1 & _ & _).
  assert (Hshape : forall s,
    extract_with_adaptive_strategy s env
    = let '(ocr_result, self1) := _try_ocr_extraction s env in
      if success ocr_result then
        let r := with_method ocr_result (hybrid_name ++ py " (OCR Direct)") in
        (r, match h_ocr env with
            | Ret _ => set_last_ocr self1 (Some r)
            | Raise _ => self1
            end, [OCRAttempt])
      else
        let '(direct_result, self2) := _try_direct_extraction self1 env in
        if success direct_result then
          let r := with_method direct_result (hybrid_name ++ py " (Direct Fallback)") in
          (r, match h_direct env with
              | Ret _ => set_last_direct self2 (Some r)
              | Raise _ => self2
              end, [OCRAttempt; DirectAttempt])
        else (direct_result, self2, [OCRAttempt; DirectAttempt])).
  { intros s. unfold extract_with_adaptive_strategy, _estimate_pdf_type.
    rewrite Hsize. apply N.ltb_lt in Hbig. rewrite Hbig.
    rewrite bool_decide_eq_false_2 by exact T1.
    rewrite bool_decide_eq_true_2 by reflexivity. reflexivity. }
  rewrite !Hshape. unfold _try_ocr_extraction, _try_direct_extraction.
  destruct (h_ocr env) as [ro|eo]; cbn [error_result success].
  - destruct (success ro) eqn:Hso; cbn; rewrite ?Hso.
    + split; [reflexivity|]. split; [reflexivity|].
      split; [|done]. intros _. left. by exists ro.
    + destruct (h_direct env) as [rd|ed]; cbn.
      * destruct (success rd) eqn:Hsd; cbn; rewrite ?Hsd.
        -- split; [reflexivity|]. split; [reflexivity|].
           split; [|done]. intros _. right. by exists rd.
        -- split; [reflexivity|]. split; [reflexivity|].
           split; [discriminate|]. intros [(r & [= <-] & ?) | (r & [= <-] & ?)]; congruence.
      * split; [reflexivity|]. split; [reflexivity|].
        split; [discriminate|]. intros [(r & [= <-] & ?) | (r & [=] & ?)]; congruence.
  - destruct (h_direct env) as [rd|ed]; cbn.
    + destruct (success rd) eqn:Hsd; cbn; rewrite ?Hsd.
      * split; [reflexivity|]. split; [reflexivity|].
        split; [|done]. intros _. right. by exists rd.
      * split; [reflexivity|]. split; [reflexivity|].
        split; [discriminate|]. intros [(r & [=] & ?) | (r & [= <-] & ?)]; congruence.
    + split; [reflexivity|]. split; [reflexivity|].
      split; [discriminate|]. intros [(r & [=] & ?) | (r & [=] & ?)].
Qed.

Lemma extract_with_adaptive_strategy_large_file_witness :
  let grande :=
    {| h_path := {| p_path := py "C:/docs/p/atlas.pdf"; p_exists := Ret true;
                    p_is_file := Ret true; p_suffix := py ".pdf";
                    p_st_size := Ret 60000000 |};
       h_start := 1000; h_clock := 11000;
       h_direct := Ret Ex.resultado_direto; h_ocr := Ret Ex.resultado_ocr |} in
  let sem_ocr :=
    {| min_text_threshold := 5000; prefer_direct := true; ocr_fallback := false;
       _last_direct_result := None; _last_ocr_result := None |} in
  (extract_with_adaptive_strategy Ex.hibrido grande).1.1
  = (extract_with_adaptive_strategy sem_ocr grande).1.1
  /\ head (extract_with_adaptive_strategy Ex.hibrido grande).2 = Some OCRAttempt
  /\ (success (extract_with_adaptive_strategy Ex.hibrido grande).1.1 = true
      <-> (exists r, h_ocr grande = Ret r /\ success r = true)
          \/ (exists r, h_direct grande = Ret r /\ success r = true)).
Proof.
  cbn zeta.
  apply (extract_with_adaptive_strategy_large_file Ex.hibrido _
           {| h_path := {| p_path := py "C:/docs/p/atlas.pdf"; p_exists := Ret true;
                           p_is_file := Ret true; p_suffix := py ".pdf";
                           p_st_size := Ret 60000000 |};
              h_start := 1000; h_clock := 11000;
              h_direct := Ret Ex.resultado_direto; h_ocr := Ret Ex.resultado_ocr |}
           60000000); [reflexivity | lia].
Defined.

(** ** Direct extraction and OCR: what a successful result holds *)

Lemma lstrip_keeps (c : N) (s : pystr) :
  c ∈ s -> isspace c = false -> c ∈ lstrip s.
Proof.
  intros Hin Hc. induction s as [|x s IH]; [done|].
  cbn [lstrip]. destruct (isspace x) eqn:Hx; [|done].
  apply elem_of_cons in Hin as [->|Hin]; [congruence|by apply IH].
Qed.

Lemma strip_nonblank (c : N) (s : pystr) :
  c ∈ s -> isspace c = false -> strip s <> [].
Proof.
  intros Hin Hc. unfold strip, rstrip.
  assert (Hrev : forall l : pystr, c ∈ l -> c ∈ rev l).
  { intros l Hl. apply list_elem_of_In. apply in_rev. rewrite rev_involutive.
    by apply list_elem_of_In. }
  assert (H : c ∈ rev (lstrip (rev (lstrip s)))).
  { apply Hrev, lstrip_keeps; [|done]. apply Hrev, lstrip_keeps; done. }
  intros E. rewrite E in H. by apply elem_of_nil in H.
Qed.

Lemma page_block_sinal (page_num : nat) (text : pystr) : 61 ∈ page_block page_num text.
Proof.
  unfold page_block. apply elem_of_app. left.
  assert (H : py "=== PÁGINA " = 61 :: tail (py "=== PÁGINA ")) by (vm_compute; reflexivity).
  rewrite H. apply elem_of_cons. by left.
Qed.

Lemma join_keeps (sep : pystr) (parts : list pystr) (x : pystr) (c : N) :
  x ∈ parts -> c ∈ x -> c ∈ join sep parts.
Proof.
  intros Hx Hc. destruct (join_elem sep parts x Hx) as (pre & post & ->).
  apply elem_of_app. right. apply elem_of_app. by left.
Qed.

Lemma blocos_page_block (pages : list page_read) (page_num : nat) (x : pystr) :
  x ∈ blocos page_num pages -> exists k text, x = page_block k text.
Proof.
  revert page_num. induction pages as [|pg rest IH]; intros page_num Hx.
  - by apply elem_of_nil in Hx.
  - destruct pg as [[text|]|e]; cbn [blocos] in Hx; [|by eapply IH..].
    destruct (com_texto _); [|by eapply IH].
    apply elem_of_cons in Hx as [->|Hx]; [by eexists _, _|by eapply IH].
Qed.

Lemma extract_with_success (method : pystr) (p : path_env) (start_time : Z) (size : N)
    (b : backend_env) :
  let r := extract_with method p start_time size b in
  success r = true ->
  (1 <= pages_processed r)%nat /\ strip (text_content r) <> []
  /\ error_message r = None /\ extraction_method r = method.
Proof.
  cbn zeta. destruct (b_open b) as [e|pages] eqn:Hb.
  { unfold extract_with. rewrite Hb. discriminate. }
  destruct (extract_with_Opened method p start_time size b pages Hb) as (Ht & Hp & Hs).
  rewrite Hs, Ht, Hp. intros Hlen%Nat.ltb_lt.
  split; [lia|]. split; [|unfold extract_with; rewrite Hb, read_pages_blocos; by cbn].
  destruct (blocos 1 pages) as [|x rest] eqn:Hbl; [cbn in Hlen; lia|].
  destruct (blocos_page_block pages 1 x) as (k & text & ->);
    [rewrite Hbl; apply elem_of_cons; by left|].
  apply (strip_nonblank 61); [|reflexivity].
  apply (join_keeps _ _ (page_block k text)); [apply elem_of_cons; by left|].
  apply page_block_sinal.
Qed.

(** X17: what a successful direct extraction holds. When
    [DirectExtractor.extract_text] returns [success = True], the path was
    valid, at least one page was read, the text is not blank, there is no
    error message and the method names the library that read the file. *)
Theorem direct_extract_text_success_has_text (self : DirectExtractor) (env : direct_env) :
  let r := (direct_extract_text self env).1 in
  success r = true ->
  validate_pdf (d_path env) = true
  /\ (1 <= pages_processed r)%nat
  /\ strip (text_content r) <> []
  /\ error_message r = None
  /\ (extraction_method r = py "pdfplumber" \/ extraction_method r = py "PyPDF2").
Proof.
  cbn zeta. unfold direct_extract_text.
  destruct (validate_pdf (d_path env)); cbn [negb]; [|discriminate].
  pose proof (extract_with_success (py "pdfplumber") (d_path env) (d_start env)
                (file_info_size (d_path env)) (d_plumber env)) as Hpl.
  pose proof (extract_with_success (py "PyPDF2") (d_path env) (d_start env)
                (file_info_size (d_path env)) (d_pypdf2 env)) as Hpy.
  cbn zeta in Hpl, Hpy. fold _extract_with_pdfplumber in Hpl. fold _extract_with_pypdf2 in Hpy.
  destruct (use_pdfplumber self).
  - destruct (success (_extract_with_pdfplumber _ _ _ _)) eqn:Hs1; cbn [andb].
    + destruct (truthy _); cbn.
      * intros _. destruct (Hpl eq_refl) as (? & ? & ? & ?). repeat apply conj; auto.
      * destruct (use_pypdf2 self); [|discriminate].
        destruct (success (_extract_with_pypdf2 _ _ _ _)) eqn:Hs2; cbn; [|discriminate].
        intros _. destruct (Hpy eq_refl) as (? & ? & ? & ?). repeat apply conj; auto.
    + destruct (use_pypdf2 self); [|discriminate].
      destruct (success (_extract_with_pypdf2 _ _ _ _)) eqn:Hs2; cbn; [|discriminate].
      intros _. destruct (Hpy eq_refl) as (? & ? & ? & ?). repeat apply conj; auto.
  - cbn. destruct (use_pypdf2 self); [|discriminate].
    destruct (success (_extract_with_pypdf2 _ _ _ _)) eqn:Hs2; cbn; [|discriminate].
    intros _. destruct (Hpy eq_refl) as (? & ? & ? & ?). repeat apply conj; auto.
Qed.

Lemma direct_extract_text_success_has_text_witness :
  let r := (direct_extract_text Ex.ambos Ex.leitura).1 in
  validate_pdf (d_path Ex.leitura) = true
  /\ (1 <= pages_processed r)%nat
  /\ strip (text_content r) <> []
  /\ error_message r = None
  /\ (extraction_method r = py "pdfplumber" \/ extraction_method r = py "PyPDF2").
Proof.
  apply (direct_extract_text_success_has_text Ex.ambos Ex.leitura).
  vm_compute. reflexivity.
Defined.

Lemma ocr_pages_spec (images : list (res pystr)) (page_num : nat)
    (text_content : list pystr) (pages_processed : nat) (lidas : list nat) :
  ocr_pages page_num images text_content pages_processed lidas
  = (text_content ++ ocr_blocos page_num images,
     (pages_processed + length (ocr_blocos page_num images))%nat,
     lidas ++ seq (S page_num) (length images)).
Proof.
  revert page_num text_content pages_processed lidas.
  induction images as [|img rest IH]; intros page_num text_content pages_processed lidas.
  - cbn. by rewrite !app_nil_r, Nat.add_0_r.
  - destruct img as [text|e]; cbn [ocr_pages ocr_blocos length seq].
    + destruct (truthy (strip text)); rewrite IH, <- !app_assoc; cbn [app length];
        rewrite ?Nat.add_succ_r; reflexivity.
    + rewrite IH, <- !app_assoc. reflexivity.
Qed.

Lemma ocr_blocos_page_block (images : list (res pystr)) (page_num : nat) (x : pystr) :
  x ∈ ocr_blocos page_num images -> exists k text, x = page_block k text.
Proof.
  revert page_num. induction images as [|img rest IH]; intros page_num Hx.
  - by apply elem_of_nil in Hx.
  - destruct img as [text|e]; cbn [ocr_blocos] in Hx; [|by eapply IH].
    destruct (truthy _); [|by eapply IH].
    apply elem_of_cons in Hx as [->|Hx]; [by eexists _, _|by eapply IH].
Qed.

Lemma length_ocr_blocos (images : list (res pystr)) (page_num : nat) :
  (length (ocr_blocos page_num images) <= length images)%nat.
Proof.
  revert page_num. induction images as [|img rest IH]; intros page_num; [done|].
  destruct img as [text|e]; cbn [ocr_blocos length].
  - destruct (truthy _); cbn [length]; specialize (IH (S page_num)); lia.
  - specialize (IH (S page_num)). lia.
Qed.

Lemma nota_sinal (total_pages : nat) (m : Z) : 91 ∈ nota total_pages m.
Proof.
  unfold nota. apply elem_of_app. right. apply elem_of_app. left.
  assert (H : py "[NOTA: PDF tem " = 91 :: tail (py "[NOTA: PDF tem "))
    by (vm_compute; reflexivity).
  rewrite H. apply elem_of_cons. by left.
Qed.

(** X18: the pages that OCR reads. On a valid PDF that converts to
    images, [pytesseract] is given pages 1, 2, ... in order, each once; all
    of them when [ocr_max_pages] is absent or 0 (0 is no limit), otherwise
    the first [ocr_max_pages] of them, and none when that number is
    negative. [pages_processed] never exceeds the number of pages read. *)
Theorem ocr_extract_text_pages_read
    (self : OCRExtractor) (env : ocr_env) (images : list (res pystr)) :
  validate_pdf (o_path env) = true ->
  o_convert env = Ret images ->
  let out := ocr_extract_text self env in
  out.2 = seq 1 (length out.2)
  /\ (pages_processed out.1.1 <= length out.2)%nat
  /\ (max_pages self = None \/ max_pages self = Some 0%Z -> length out.2 = length images)
  /\ (forall m, max_pages self = Some m -> m <> 0%Z ->
        Z.of_nat (length out.2) = Z.max 0 (Z.min (Z.of_nat (length images)) m)).
Proof.
  intros Hv Hc. cbn zeta. unfold ocr_extract_text, _extract_with_ocr.
  rewrite Hv, Hc. cbn [negb]. rewrite ocr_pages_spec. cbn [app fst snd].
  rewrite length_seq, length_take.
  pose proof (length_ocr_blocos (take (pages_to_process self (length images)) images) 0)
    as Hle. rewrite length_take in Hle.
  split; [reflexivity|]. split; [cbn; lia|].
  unfold pages_to_process. split.
  - intros [-> | ->]; cbn; lia.
  - intros m -> Hm. rewrite (proj2 (Z.eqb_neq m 0) Hm). lia.
Qed.

Lemma ocr_extract_text_pages_read_witness :
  let env :=
    {| o_path := Ex.fatura; o_start := 1000;
       o_convert := Ret [Ret (py "  "); Ret (py "Fatura 2024"); Raise (OtherError (py "x"))];
       o_clock := 9000 |} in
  let self := {| ocr_language := py "por"; ocr_dpi := 300; max_pages := Some 0%Z |} in
  let out := ocr_extract_text self env in
  out.2 = seq 1 (length out.2)
  /\ (pages_processed out.1.1 <= length out.2)%nat
  /\ (max_pages self = None \/ max_pages self = Some 0%Z -> length out.2 = 3%nat)
  /\ (forall m, max_pages self = Some m -> m <> 0%Z ->
        Z.of_nat (length out.2) = Z.max 0 (Z.min (Z.of_nat 3) m)).
Proof.
  apply (ocr_extract_text_pages_read
           {| ocr_language := py "por"; ocr_dpi := 300; max_pages := Some 0%Z |}
           {| o_path := Ex.fatura; o_start := 1000;
              o_convert :=
                Ret [Ret (py "  "); Ret (py "Fatura 2024"); Raise (OtherError (py "x"))];
              o_clock := 9000 |}
           [Ret (py "  "); Ret (py "Fatura 2024"); Raise (OtherError (py "x"))]);
    [vm_compute; reflexivity | reflexivity].
Defined.

(** X19: a page limit that cuts the document makes OCR report success
    whatever it read. When [ocr_max_pages] is not 0 and smaller than the
    number of pages, the result has [success = True], no error message and
    a non-blank text that ends with the note; if no page gave text,
    [pages_processed] is 0 and the text is the note alone, a result that
    the hybrid extractor's quality check rejects under every setting. *)
Theorem ocr_extract_text_truncated_reports_success
    (self : OCRExtractor) (env : ocr_env) (images : list (res pystr)) (m : Z) :
  validate_pdf (o_path env) = true ->
  o_convert env = Ret images ->
  max_pages self = Some m ->
  m <> 0%Z ->
  (m < Z.of_nat (length images))%Z ->
  let r := (ocr_extract_text self env).1.1 in
  success r = true
  /\ error_message r = None
  /\ strip (text_content r) <> []
  /\ (exists blocks, text_content r = join [10] (blocks ++ [nota (length images) m]))
  /\ (pages_processed r = 0%nat ->
      text_content r = nota (length images) m
      /\ forall h, _is_extraction_successful h r = false).
Proof.
  intros Hv Hc Hm Hne Hlt. cbn zeta. unfold ocr_extract_text, _extract_with_ocr.
  rewrite Hv, Hc. cbn [negb]. rewrite ocr_pages_spec. cbn [app fst snd].
  unfold limited. rewrite Hm. cbn [default from_option id].
  rewrite (proj2 (Z.eqb_neq m 0) Hne), (proj2 (Z.ltb_lt _ _) Hlt). cbn [negb andb].
  set (blocks := ocr_blocos 0 (take (pages_to_process self (length images)) images)).
  assert (Hlen : (0 <? length (blocks ++ [nota (length images) m]))%nat = true).
  { apply Nat.ltb_lt. rewrite length_app. cbn. lia. }
  rewrite Hlen. cbn.
  split; [reflexivity|]. split; [reflexivity|]. split; [|split].
  - apply (strip_nonblank 91); [|reflexivity].
    apply (join_keeps _ _ (nota (length images) m)); [|apply nota_sinal].
    apply elem_of_app. right. apply elem_of_cons. by left.
  - by exists blocks.
  - intros Hz. destruct blocks; [|discriminate]. cbn. split; [reflexivity|].
    intros h. unfold _is_extraction_successful. cbn.
    by destruct (_ <? _)%Z.
Qed.

Lemma ocr_extract_text_truncated_reports_success_witness :
  let env :=
    {| o_path := Ex.fatura; o_start := 1000;
       o_convert := Ret [Ret (py "  "); Ret (py "Fatura 2024"); Raise (OtherError (py "x"))];
       o_clock := 9000 |} in
  let self := {| ocr_language := py "por"; ocr_dpi := 300; max_pages := Some 1%Z |} in
  let r := (ocr_extract_text self env).1.1 in
  success r = true
  /\ error_message r = None
  /\ strip (text_content r) <> []
  /\ (exists blocks, text_content r = join [10] (blocks ++ [nota 3 1]))
  /\ (pages_processed r = 0%nat ->
      text_content r = nota 3 1
      /\ forall h, _is_extraction_successful h r = false).
Proof.
  apply (ocr_extract_text_truncated_reports_success
           {| ocr_language := py "por"; ocr_dpi := 300; max_pages := Some 1%Z |}
           {| o_path := Ex.fatura; o_start := 1000;
              o_convert :=
                Ret [Ret (py "  "); Ret (py "Fatura 2024"); Raise (OtherError (py "x"))];
              o_clock := 9000 |}
           [Ret (py "  "); Ret (py "Fatura 2024"); Raise (OtherError (py "x"))] 1%Z);
    [vm_compute; reflexivity | reflexivity | reflexivity | discriminate | cbn; lia].
Defined.

(** ** The asynchronous processor *)

Lemma foldl_update_stats (rs : list ExtractionResult) (stats : ProcessingStats) :
  let st := foldl _update_stats stats rs in
  total_files st = total_files stats
  /\ processed_files st = (processed_files stats + length rs)%nat
  /\ successful_extractions st
     = (successful_extractions stats + length (filter (fun r => success r = true) rs))%nat
  /\ failed_extractions st
     = (failed_extractions stats + length (filter (fun r => success r <> true) rs))%nat
  /\ total_characters_extracted st
     = (total_characters_extracted stats
        + sum_list (map characters_extracted (filter (fun r => success r = true) rs)))%nat.
Proof.
  revert stats. induction rs as [|r rs IH]; intros stats; cbn zeta.
  - cbn. repeat split; lia.
  - cbn [foldl]. destruct (IH (_update_stats stats r)) as (H1 & H2 & H3 & H4 & H5).
    rewrite H1, H2, H3, H4, H5. rewrite !filter_cons. unfold _update_stats.
    destruct (success r) eqn:Hs; cbn [total_files processed_files successful_extractions
      failed_extractions total_characters_extracted].
    + rewrite decide_True, decide_False by (done || congruence). cbn. repeat split; lia.
    + rewrite decide_False, decide_True by (done || congruence). cbn. repeat split; lia.
Qed.

Lemma process_batches_all (self : AsyncPDFProcessor) (pdf_files : list tarefa) :
  (1 <= batch_size self)%Z ->
  (1 <= max_workers self)%Z ->
  (forall cb a b, progress_callback self = Some cb -> cb a b = None) ->
  forall fuel i results stats calls,
    (length pdf_files - i <= fuel)%nat ->
    exists calls',
      process_batches self pdf_files
        (range_step fuel i (length pdf_files) (Z.to_nat (batch_size self)))
        results stats calls
      = (Ret (results ++ map resultado_de (drop i pdf_files)),
         foldl _update_stats stats (map resultado_de (drop i pdf_files)), calls').
Proof.
  intros Hbs Hmw Hcb. induction fuel as [|fuel IH]; intros i results stats calls Hfuel.
  - cbn. rewrite drop_ge by lia. cbn. rewrite app_nil_r. by eexists.
  - cbn [range_step]. destruct (Nat.ltb_spec i (length pdf_files)) as [Hlt|Hge].
    2:{ cbn. rewrite drop_ge by lia. cbn. rewrite app_nil_r. by eexists. }
    cbn [process_batches]. unfold _process_batch.
    rewrite (proj2 (Z.leb_gt _ _)) by lia.
    set (bs := Z.to_nat (batch_size self)) in *.
    assert (Hsplit : map resultado_de (drop i pdf_files)
                     = map resultado_de (take bs (drop i pdf_files))
                       ++ map resultado_de (drop (i + bs) pdf_files)).
    { rewrite <- map_app, <- drop_drop, take_drop. reflexivity. }
    assert (Hnext : (length pdf_files - (i + bs) <= fuel)%nat) by (unfold bs; lia).
    destruct (progress_callback self) as [cb|] eqn:Hp.
    + rewrite (Hcb cb _ _ eq_refl).
      destruct (IH (i + bs)%nat (results ++ map resultado_de (take bs (drop i pdf_files)))
                  (foldl _update_stats stats
                     (map resultado_de (take bs (drop i pdf_files))))
                  (calls ++ [(length (results
                                      ++ map resultado_de (take bs (drop i pdf_files))),
                              length pdf_files)]) Hnext) as [calls' ->].
      exists calls'. by rewrite Hsplit, foldl_app, app_assoc.
    + destruct (IH (i + bs)%nat (results ++ map resultado_de (take bs (drop i pdf_files)))
                  (foldl _update_stats stats
                     (map resultado_de (take bs (drop i pdf_files)))) calls Hnext)
        as [calls' ->].
      exists calls'. by rewrite Hsplit, foldl_app, app_assoc.
Qed.

(** X20: whatever the batch size, [process_files] handles every file
    once. With [batch_size >= 1], [max_workers >= 1] and a progress
    callback that does not raise (or none), it returns one result per
    file, in the order of the list, an error result standing for a task
    that raised; the statistics count every file as processed, the
    successes and the failures add up to the number of files, and the
    successes are the results with [success = True]. *)
Theorem process_files_every_file_once
    (self : AsyncPDFProcessor) (pdf_files : list tarefa) :
  (1 <= batch_size self)%Z ->
  (1 <= max_workers self)%Z ->
  (forall cb a b, progress_callback self = Some cb -> cb a b = None) ->
  let out := process_files self pdf_files in
  out.1.1 = Ret (map resultado_de pdf_files)
  /\ total_files out.1.2 = length pdf_files
  /\ processed_files out.1.2 = length pdf_files
  /\ (successful_extractions out.1.2 + failed_extractions out.1.2)%nat = length pdf_files
  /\ successful_extractions out.1.2
     = length (filter (fun t => success (resultado_de t) = true) pdf_files)
  /\ total_characters_extracted out.1.2
     = sum_list (map (fun t => length (text_content (resultado_de t)))
                   (filter (fun t => success (resultado_de t) = true) pdf_files)).
Proof.
  intros Hbs Hmw Hcb. cbn zeta. unfold process_files.
  rewrite (proj2 (Z.eqb_neq _ 0)) by lia. rewrite (proj2 (Z.ltb_ge _ 0)) by lia.
  destruct (process_batches_all self pdf_files Hbs Hmw Hcb (length pdf_files) 0 []
              {| total_files := length pdf_files; processed_files := 0;
                 successful_extractions := 0; failed_extractions := 0;
                 total_characters_extracted := 0 |} []) as [calls' ->]; [lia|].
  rewrite drop_0. cbn [fst snd app].
  destruct (foldl_update_stats (map resultado_de pdf_files)
              {| total_files := length pdf_files; processed_files := 0;
                 successful_extractions := 0; failed_extractions := 0;
                 total_characters_extracted := 0 |}) as (H1 & H2 & H3 & H4 & H5).
  cbn zeta in *. rewrite H1, H2, H3, H4, H5. cbn [total_files processed_files
    successful_extractions failed_extractions total_characters_extracted].
  rewrite length_map.
  assert (Hsucc : forall l : list tarefa,
            length (filter (fun r => success r = true) (map resultado_de l))
            = length (filter (fun t => success (resultado_de t) = true) l)).
  { induction l as [|t l IHl]; [done|]. cbn [map]. rewrite !filter_cons.
    destruct (decide (success (resultado_de t) = true)); cbn; by rewrite IHl. }
  assert (Hfail : forall l : list ExtractionResult,
            (length (filter (fun r => success r = true) l)
             + length (filter (fun r => success r <> true) l))%nat = length l).
  { induction l as [|r l IHl]; [done|]. rewrite !filter_cons.
    destruct (decide (success r = true)) as [E|E].
    - rewrite decide_False by (intros ?; done). cbn. lia.
    - rewrite decide_True by done. cbn. lia. }
  assert (Hchars : forall l : list tarefa,
            sum_list (map characters_extracted
                        (filter (fun r => success r = true) (map resultado_de l)))
            = sum_list (map (fun t => length (text_content (resultado_de t)))
                          (filter (fun t => success (resultado_de t) = true) l))).
  { induction l as [|t l IHl]; [done|]. cbn [map]. rewrite !filter_cons.
    destruct (decide (success (resultado_de t) = true)); [|done].
    cbn [map sum_list]. rewrite IHl. f_equal.
    unfold characters_extracted. destruct (text_content (resultado_de t)); reflexivity. }
  repeat apply conj; try done.
  - pose proof (Hfail (map resultado_de pdf_files)) as Hf. rewrite length_map in Hf. lia.
  - by rewrite Hsucc.
  - by rewrite Hchars.
Qed.

Lemma process_files_every_file_once_witness :
  let out := process_files Ex3.processador Ex3.tarefas in
  out.1.1 = Ret (map resultado_de Ex3.tarefas)
  /\ total_files out.1.2 = length Ex3.tarefas
  /\ processed_files out.1.2 = length Ex3.tarefas
  /\ (successful_extractions out.1.2 + failed_extractions out.1.2)%nat
     = length Ex3.tarefas
  /\ successful_extractions out.1.2
     = length (filter (fun t => success (resultado_de t) = true) Ex3.tarefas)
  /\ total_characters_extracted out.1.2
     = sum_list (map (fun t => length (text_content (resultado_de t)))
                   (filter (fun t => success (resultado_de t) = true) Ex3.tarefas)).
Proof.
  apply (process_files_every_file_once Ex3.processador Ex3.tarefas).
  - cbn. lia.
  - cbn. lia.
  - intros cb a b H. discriminate H.
Defined.

Lemma range_step_last (step stop : nat) :
  (1 <= step)%nat ->
  forall fuel i, (stop - i <= fuel)%nat -> (i < stop)%nat ->
    exists j, last (range_step fuel i stop step) = Some j
              /\ (j < stop)%nat /\ (stop <= j + step)%nat.
Proof.
  intros Hstep. induction fuel as [|fuel IH]; intros i Hfuel Hlt; [lia|].
  cbn [range_step]. rewrite (proj2 (Nat.ltb_lt _ _) Hlt).
  destruct (Nat.lt_ge_cases (i + step) stop) as [Hnext|Hstop].
  - destruct (IH (i + step)%nat) as (j & Hj & Hb); [lia|done|].
    exists j. split; [|done]. rewrite last_cons, Hj. reflexivity.
  - exists i. split; [|lia].
    destruct fuel; [reflexivity|]. cbn [range_step].
    by rewrite (proj2 (Nat.ltb_ge _ _) Hstop).
Qed.

Lemma process_batches_calls (self : AsyncPDFProcessor) (pdf_files : list tarefa)
    (cb : nat -> nat -> option exn) :
  (1 <= batch_size self)%Z ->
  (1 <= max_workers self)%Z ->
  progress_callback self = Some cb ->
  (forall a b, cb a b = None) ->
  forall fuel i results stats calls,
    length results = Nat.min i (length pdf_files) ->
    (process_batches self pdf_files
       (range_step fuel i (length pdf_files) (Z.to_nat (batch_size self)))
       results stats calls).2
    = calls
      ++ map (fun j => (Nat.min (j + Z.to_nat (batch_size self)) (length pdf_files),
                        length pdf_files))
           (range_step fuel i (length pdf_files) (Z.to_nat (batch_size self))).
Proof.
  intros Hbs Hmw Hp Hcb. induction fuel as [|fuel IH]; intros i results stats calls Hlen.
  - cbn. by rewrite app_nil_r.
  - cbn [range_step]. destruct (Nat.ltb_spec i (length pdf_files)) as [Hlt|Hge].
    2:{ cbn. by rewrite app_nil_r. }
    cbn [process_batches map]. unfold _process_batch.
    rewrite (proj2 (Z.leb_gt _ _)) by lia. rewrite Hp, Hcb.
    set (bs := Z.to_nat (batch_size self)) in *.
    assert (Hl : length (results ++ map resultado_de (take bs (drop i pdf_files)))
                 = Nat.min (i + bs) (length pdf_files)).
    { rewrite length_app, length_map, length_take, length_drop. lia. }
    rewrite IH by exact Hl. rewrite Hl, <- app_assoc. reflexivity.
Qed.

(** X21: the progress callback is called once after each batch, with the
    number of results so far and the number of files; with
    [batch_size >= 1], [max_workers >= 1] and a callback that does not
    raise, the calls are those of the batch starts and, when there is a
    file at all, the last call reports all of them. *)
Theorem process_files_progress_calls
    (self : AsyncPDFProcessor) (pdf_files : list tarefa) (cb : nat -> nat -> option exn) :
  (1 <= batch_size self)%Z ->
  (1 <= max_workers self)%Z ->
  progress_callback self = Some cb ->
  (forall a b, cb a b = None) ->
  let n := length pdf_files in
  let bs := Z.to_nat (batch_size self) in
  (process_files self pdf_files).2
  = map (fun j => (Nat.min (j + bs) n, n)) (range_step n 0 n bs)
  /\ (pdf_files <> [] -> last (process_files self pdf_files).2 = Some (n, n)).
Proof.
  intros Hbs Hmw Hp Hcb. cbn zeta.
  assert (Hcalls : (process_files self pdf_files).2
                   = map (fun j => (Nat.min (j + Z.to_nat (batch_size self))
                                      (length pdf_files), length pdf_files))
                       (range_step (length pdf_files) 0 (length pdf_files)
                          (Z.to_nat (batch_size self)))).
  { unfold process_files.
    rewrite (proj2 (Z.eqb_neq _ 0)) by lia. rewrite (proj2 (Z.ltb_ge _ 0)) by lia.
    rewrite (process_batches_calls self pdf_files cb Hbs Hmw Hp Hcb); [done|].
    cbn. lia. }
  split; [exact Hcalls|]. intros Hne. rewrite Hcalls, fmap_last.
  destruct (range_step_last (Z.to_nat (batch_size self)) (length pdf_files)) with
    (fuel := length pdf_files) (i := 0%nat) as (j & -> & Hj1 & Hj2); [lia|lia| |].
  - destruct pdf_files; [done|cbn; lia].
  - cbn. f_equal. f_equal. lia.
Qed.

Lemma process_files_progress_calls_witness :
  let n := length Ex3.tarefas in
  let bs := Z.to_nat (batch_size Ex3.com_progresso) in
  (process_files Ex3.com_progresso Ex3.tarefas).2
  = map (fun j => (Nat.min (j + bs) n, n)) (range_step n 0 n bs)
  /\ (Ex3.tarefas <> [] -> last (process_files Ex3.com_progresso Ex3.tarefas).2 = Some (n, n)).
Proof.
  apply (process_files_progress_calls Ex3.com_progresso Ex3.tarefas (fun _ _ => None)).
  - cbn. lia.
  - cbn. lia.
  - reflexivity.
  - reflexivity.
Defined.

(** *** The text that is written out *)

Lemma replace1_elem (old : N) (new s : pystr) (x : N) :
  x ∈ replace1 old new s -> x ∈ new \/ (x ∈ s /\ x <> old).
Proof.
  induction s as [|c s IH]; cbn; [intros H; by apply elem_of_nil in H|].
  intros [H|H]%elem_of_app.
  - destruct (N.eqb_spec c old) as [->|Hne]; [by left|].
    apply list_elem_of_singleton in H as ->. right. split; [apply elem_of_cons; by left|done].
  - destruct (IH H) as [?|[? ?]]; [by left|right]. split; [apply elem_of_cons; by right|done].
Qed.

Lemma replace2_elem (a b : N) (new s : pystr) (x : N) :
  x ∈ replace2 a b new s -> x ∈ new \/ x ∈ s.
Proof.
  remember (length s) as n eqn:Hn. revert s Hn.
  induction n as [n IH] using lt_wf_ind. intros s Hn.
  destruct s as [|c [|d s'']]; cbn [replace2].
  - intros H. by apply elem_of_nil in H.
  - by right.
  - destruct ((c =? a) && (d =? b)).
    + intros [H|H]%elem_of_app; [by left|].
      destruct (IH (length s'')) with (s := s'') as [?|?]; [cbn in Hn; lia|done|done|by left|].
      right. apply elem_of_cons. right. apply elem_of_cons. by right.
    + intros [->|H]%elem_of_cons; [right; apply elem_of_cons; by left|].
      destruct (IH (length (d :: s''))) with (s := d :: s'') as [?|?];
        [cbn in *; lia|done|done|by left|].
      right. apply elem_of_cons. by right.
Qed.

Lemma replace1_absent (old : N) (new s : pystr) :
  old ∉ s -> replace1 old new s = s.
Proof.
  unfold replace1. induction s as [|c s IH]; [done|].
  intros [Hc Hs]%not_elem_of_cons. cbn [flat_map].
  destruct (N.eqb_spec c old) as [->|_]; [done|]. cbn [app]. by rewrite IH.
Qed.

Lemma replace2_absent (a b : N) (new s : pystr) :
  a ∉ s -> replace2 a b new s = s.
Proof.
  induction s as [|c s IH]; [done|]. intros [Hc Hs]%not_elem_of_cons.
  cbn [replace2]. destruct s as [|d s'']; [done|].
  destruct (N.eqb_spec c a) as [->|_]; [done|]. cbn [andb]. by rewrite IH.
Qed.

(** X22: the text that [_save_text_result] writes holds no NUL, no byte
    order mark and no carriage return; a text without them is written as
    it is, so cleaning twice changes nothing more. *)
Theorem cleaned_content_normalised (text_content : pystr) :
  (0 ∉ cleaned_content text_content)
  /\ (65279 ∉ cleaned_content text_content)
  /\ (13 ∉ cleaned_content text_content)
  /\ ((0 ∉ text_content) -> (65279 ∉ text_content) -> (13 ∉ text_content) ->
      cleaned_content text_content = text_content)
  /\ cleaned_content (cleaned_content text_content) = cleaned_content text_content.
Proof.
  assert (H0 : 0 ∉ cleaned_content text_content).
  { unfold cleaned_content. intros H.
    apply replace1_elem in H as [H|[H _]]; [by apply list_elem_of_singleton in H|].
    apply replace2_elem in H as [H|H]; [by apply list_elem_of_singleton in H|].
    apply replace1_elem in H as [H|[H _]]; [by apply elem_of_nil in H|].
    apply replace1_elem in H as [H|[_ H]]; [by apply elem_of_nil in H|done]. }
  assert (Hbom : 65279 ∉ cleaned_content text_content).
  { unfold cleaned_content. intros H.
    apply replace1_elem in H as [H|[H _]]; [by apply list_elem_of_singleton in H|].
    apply replace2_elem in H as [H|H]; [by apply list_elem_of_singleton in H|].
    apply replace1_elem in H as [H|[_ H]]; [by apply elem_of_nil in H|done]. }
  assert (Hcr : 13 ∉ cleaned_content text_content).
  { unfold cleaned_content. intros H.
    apply replace1_elem in H as [H|[_ H]]; [by apply list_elem_of_singleton in H|done]. }
  assert (Hfix : forall s, 0 ∉ s -> 65279 ∉ s -> 13 ∉ s -> cleaned_content s = s).
  { intros s A B C. unfold cleaned_content.
    rewrite (replace1_absent 0 [] s A), (replace1_absent 65279 [] s B),
      (replace2_absent 13 10 [10] s C), (replace1_absent 13 [10] s C). reflexivity. }
  split; [exact H0|]. split; [exact Hbom|]. split; [exact Hcr|].
  split; [apply Hfix | by apply Hfix].
Qed.

(** ** verificar_pdf_valido and gerar_csv_arquivos_pdfs *)

Lemma externo_not_true (t : nat) (e : exn) (msg : pystr) :
  (externo t e).1 <> Return (true, msg).
Proof.
  unfold externo. destruct (arquivo_em_uso e); [|discriminate].
  destruct (t <? max_tentativas)%nat; discriminate.
Qed.

Lemma converter_true (t : nat) (env : tentativa_env) (msg : pystr) :
  (converter t env).1 = Return (true, msg) ->
  msg = py "PDF válido" /\ exists pages, t_convert env = Ret pages /\ (0 < pages)%nat.
Proof.
  unfold converter. destruct (t_convert env) as [pages|e].
  - destruct (Nat.ltb_spec 0 pages); cbn; [|discriminate].
    intros [= <-]. split; [done|]. by exists pages.
  - destruct (arquivo_em_uso e).
    + destruct (t <? max_tentativas)%nat; discriminate.
    + match goal with |- context [existsb ?f keywords] => destruct (existsb f keywords) end;
        discriminate.
Qed.

Lemma tentar_true (t : nat) (env : tentativa_env) (msg : pystr) :
  (tentar t env).1 = Return (true, msg) -> msg = py "PDF válido" /\ converte env.
Proof.
  unfold tentar, converte.
  destruct (t_exists env) as [[|]|e]; [|discriminate|intros Hf; by apply externo_not_true in Hf].
  destruct (t_st_size env) as [n|e]; [|intros Hf; by apply externo_not_true in Hf].
  destruct (N.eqb_spec n 0); [discriminate|].
  destruct (N.ltb_spec n 100); [discriminate|].
  destruct (t_tempdir env) as [e|]; [intros Hf; by apply externo_not_true in Hf|].
  pose proof (converter_true t env msg) as Hc.
  destruct (converter t env) as [fl ev].
  destruct (t_cleanup env) as [e|].
  - pose proof (externo_not_true t e msg) as He.
    destruct (externo t e) as [fl' ev']. cbn in *. intros Hf. by apply He in Hf.
  - cbn in *. intros Hf. destruct (Hc Hf) as [-> Hp].
    split; [done|]. repeat split; try done. by exists n.
Qed.

(** X23: a PDF that [verificar_pdf_valido] accepts was converted. When
    the result is [(True, msg)], [msg] is ["PDF válido"] and in one of the
    attempts 1 to 3 the file was there with at least 100 bytes,
    [convert_from_path] gave at least one page and the temporary directory
    was opened and removed without error. *)
Theorem verificar_pdf_valido_true_means_converted
    (envs : nat -> tentativa_env) (msg : pystr) :
  (verificar_pdf_valido envs).1 = (true, msg) ->
  msg = py "PDF válido"
  /\ exists t, (1 <= t <= 3)%nat /\ converte (envs t).
Proof.
  assert (Hloop : forall k t r ev,
            tentativas_loop envs t k = (r, ev) -> r.1 = true ->
            r.2 = py "PDF válido"
            /\ exists t', (t <= t' < t + k)%nat /\ converte (envs t')).
  { induction k as [|k IH]; intros t r ev Hl Hr.
    - cbn in Hl. injection Hl as <- <-. discriminate.
    - cbn [tentativas_loop] in Hl.
      pose proof (tentar_true t (envs t)) as Ht.
      destruct (tentar t (envs t)) as [[r1|] ev1].
      + injection Hl as <- <-. destruct r1 as [b m]. cbn in Hr. subst b.
        destruct (Ht m eq_refl) as [-> Hc]. split; [done|]. exists t. split; [lia|done].
      + destruct (tentativas_loop envs (S t) k) as [r2 ev2] eqn:Hrest.
        injection Hl as <- <-. destruct (IH (S t) r2 ev2 Hrest Hr) as (Hm & t' & Hb & Hc).
        split; [done|]. exists t'. split; [lia|done]. }
  unfold verificar_pdf_valido, max_tentativas. intros H.
  destruct (tentativas_loop envs 1 3) as [r ev] eqn:Hl. cbn in H. subst r.
  destruct (Hloop 3%nat 1%nat _ _ Hl eq_refl) as (Hm & t & Hb & Hc).
  split; [done|]. exists t. split; [lia|done].
Qed.

Lemma verificar_pdf_valido_true_means_converted_witness :
  py "PDF válido" = py "PDF válido"
  /\ exists t, (1 <= t <= 3)%nat
       /\ converte
            ((fun _ => {| t_exists := Ret true; t_st_size := Ret 2048; t_tempdir := None;
                          t_convert := Ret 2%nat; t_cleanup := None |}) t).
Proof.
  apply (verificar_pdf_valido_true_means_converted
           (fun _ => {| t_exists := Ret true; t_st_size := Ret 2048; t_tempdir := None;
                        t_convert := Ret 2%nat; t_cleanup := None |}) (py "PDF válido")).
  reflexivity.
Defined.

Lemma espera_app (ev ev' : list event) : espera (ev ++ ev') = (espera ev + espera ev')%Z.
Proof.
  unfold espera. induction ev as [|e ev IH]; [cbn; lia|].
  destruct e; cbn [app foldr]; lia.
Qed.

Lemma externo_espera (t : nat) (e : exn) :
  (0 <= espera (externo t e).2 <= 1000 * Z.of_nat t)%Z
  /\ ((externo t e).1 = Continue -> (t < 3)%nat)
  /\ ((max_tentativas <= t)%nat -> espera (externo t e).2 = 0%Z).
Proof.
  unfold externo, max_tentativas. destruct (arquivo_em_uso e); [|cbn; split; [lia|done]].
  destruct (Nat.ltb_spec t 3) as [Ht|Ht]; cbn.
  - split; [lia|]. split; [done|]. lia.
  - split; [lia|]. split; [discriminate|]. done.
Qed.

Lemma converter_espera (t : nat) (env : tentativa_env) :
  (0 <= espera (converter t env).2)%Z
  /\ ((converter t env).1 = Continue ->
      (t < 3)%nat /\ espera (converter t env).2 = (1000 * Z.of_nat t + 200)%Z)
  /\ ((converter t env).1 <> Continue -> (espera (converter t env).2 <= 400)%Z).
Proof.
  unfold converter, max_tentativas. destruct (t_convert env) as [pages|e].
  - destruct (0 <? pages)%nat; cbn; (split; [lia|split; [discriminate|lia]]).
  - destruct (arquivo_em_uso e).
    + destruct (Nat.ltb_spec t 3) as [Ht|Ht]; cbn.
      * split; [lia|]. split; [intros _; split; [done|lia]|]. intros Hc. by destruct Hc.
      * split; [lia|]. split; [discriminate|]. intros _. lia.
    + match goal with |- context [existsb ?f keywords] => destruct (existsb f keywords) end;
        cbn; (split; [lia|split; [discriminate|lia]]).
Qed.

Lemma tentar_espera (t : nat) (env : tentativa_env) :
  (0 <= espera (tentar t env).2)%Z
  /\ ((1 <= t < 3)%nat -> (espera (tentar t env).2 <= 2000 * Z.of_nat t + 200)%Z)
  /\ ((3 <= t)%nat -> (espera (tentar t env).2 <= 400)%Z)
  /\ ((tentar t env).1 = Continue -> (1 <= t < 3)%nat ->
      (1000 * Z.of_nat t <= espera (tentar t env).2)%Z).
Proof.
  assert (Hext : forall e,
            (0 <= espera (externo t e).2)%Z
            /\ ((1 <= t < 3)%nat -> (espera (externo t e).2 <= 2000 * Z.of_nat t + 200)%Z)
            /\ ((3 <= t)%nat -> (espera (externo t e).2 <= 400)%Z)
            /\ ((externo t e).1 = Continue -> (1 <= t < 3)%nat ->
                (1000 * Z.of_nat t <= espera (externo t e).2)%Z)).
  { intros e. destruct (externo_espera t e) as (H1 & H2 & H3).
    split; [lia|]. split; [lia|]. split; [intros; rewrite H3; [lia|done]|].
    unfold externo, max_tentativas. destruct (arquivo_em_uso e); [|discriminate].
    destruct (Nat.ltb_spec t 3); [|discriminate]. cbn. lia. }
  unfold tentar.
  destruct (t_exists env) as [[|]|e]; [|cbn; repeat split; (lia || discriminate)|apply Hext].
  destruct (t_st_size env) as [n|e]; [|apply Hext].
  destruct (n =? 0); [cbn; repeat split; (lia || discriminate)|].
  destruct (n <? 100); [cbn; repeat split; (lia || discriminate)|].
  destruct (t_tempdir env) as [e|]; [apply Hext|].
  destruct (converter_espera t env) as (C1 & C2 & C3).
  destruct (converter t env) as [fl ev] eqn:Hconv. cbn [fst snd] in *.
  destruct (t_cleanup env) as [e|].
  - destruct (externo_espera t e) as (E1 & E2 & E3). destruct (Hext e) as (_ & _ & _ & E4).
    destruct (externo t e) as [fl' ev'] eqn:Hex. cbn [fst snd] in *.
    rewrite espera_app.
    assert (Hev : (1 <= t < 3)%nat -> (espera ev <= 1000 * Z.of_nat t + 200)%Z).
    { intros Ht. destruct fl as [r|]; [|by destruct (C2 eq_refl) as [_ ->]].
      assert (espera ev <= 400)%Z by (by apply C3). lia. }
    assert (Hev3 : (3 <= t)%nat -> (espera ev <= 400)%Z).
    { intros Ht. destruct fl as [r|]; [by apply C3|]. destruct (C2 eq_refl). lia. }
    split; [lia|]. split; [intros Ht; specialize (Hev Ht); lia|].
    split; [intros Ht; rewrite E3 by done; specialize (Hev3 Ht); lia|].
    intros Hc Ht. specialize (E4 Hc Ht). lia.
  - cbn [fst snd]. split; [lia|]. split.
    + intros Ht. destruct fl as [r|]; [|destruct (C2 eq_refl) as [_ ->]; lia].
      assert (espera ev <= 400)%Z by (by apply C3). lia.
    + split.
      * intros Ht. destruct fl as [r|]; [by apply C3|]. destruct (C2 eq_refl). lia.
      * intros -> Ht. destruct (C2 eq_refl) as [_ ->]. lia.
Qed.

(** X24: [verificar_pdf_valido] waits a bounded time. Whatever the three
    attempts meet, the calls of [time.sleep] add up to at most 6.8 seconds;
    a run that reaches the second attempt has slept at least one second and
    one that reaches the third at least three. *)
Theorem verificar_pdf_valido_bounded_wait (envs : nat -> tentativa_env) :
  let ev := (verificar_pdf_valido envs).2 in
  (0 <= espera ev <= 6800)%Z
  /\ (Tentativa 2 ∈ ev -> (1000 <= espera ev)%Z)
  /\ (Tentativa 3 ∈ ev -> (3000 <= espera ev)%Z).
Proof.
  cbn zeta. unfold verificar_pdf_valido, max_tentativas. cbn [tentativas_loop].
  destruct (tentar_espera 1 (envs 1%nat)) as (A1 & B1 & _ & D1).
  destruct (tentar_espera 2 (envs 2%nat)) as (A2 & B2 & _ & D2).
  destruct (tentar_espera 3 (envs 3%nat)) as (A3 & _ & C3 & _).
  specialize (B1 ltac:(lia)). specialize (B2 ltac:(lia)). specialize (C3 ltac:(lia)).
  assert (Hno : forall t env n, Tentativa n ∉ (tentar t env).2).
  { intros t env n Hin.
    assert (Hnone : forall l, Tentativa n ∈ l -> tentativas_de l <> []).
    { induction l as [|[m|ms] l IHl]; intros Hl; [by apply elem_of_nil in Hl|done|].
      apply elem_of_cons in Hl as [?|Hl]; [done|]. by apply IHl. }
    apply Hnone in Hin. apply Hin. clear Hin Hnone.
    assert (Hext : forall e, tentativas_de (externo t e).2 = []).
    { intros e. unfold externo.
      destruct (arquivo_em_uso e), (t <? max_tentativas)%nat; reflexivity. }
    assert (Hconv : tentativas_de (converter t env).2 = []).
    { unfold converter. destruct (t_convert env) as [pages|e].
      - destruct (0 <? pages)%nat; reflexivity.
      - destruct (arquivo_em_uso e); [destruct (t <? max_tentativas)%nat; reflexivity|].
        match goal with |- context [existsb ?f keywords] => destruct (existsb f keywords) end;
          reflexivity. }
    unfold tentar.
    destruct (t_exists env) as [[|]|e]; [|reflexivity|apply Hext].
    destruct (t_st_size env) as [k|e]; [|apply Hext].
    destruct (k =? 0); [reflexivity|]. destruct (k <? 100); [reflexivity|].
    destruct (t_tempdir env) as [e|]; [apply Hext|].
    destruct (converter t env) as [fl ev].
    destruct (t_cleanup env) as [e|]; [|exact Hconv].
    specialize (Hext e). destruct (externo t e) as [fl' ev']. cbn in *.
    unfold tentativas_de in *. by rewrite omap_app, Hconv, Hext. }
  pose proof (Hno 1%nat (envs 1%nat)) as N1.
  pose proof (Hno 2%nat (envs 2%nat)) as N2.
  pose proof (Hno 3%nat (envs 3%nat)) as N3.
  destruct (tentar 1 (envs 1%nat)) as [[r1|] ev1]; cbn [fst snd] in *.
  { cbn [espera foldr]. fold (espera ev1). split; [lia|].
    split; intros [?|Hin]%elem_of_cons; try done; by apply N1 in Hin. }
  specialize (D1 eq_refl ltac:(lia)).
  destruct (tentar 2 (envs 2%nat)) as [[r2|] ev2]; cbn [fst snd] in *.
  { cbn [espera foldr]. fold (espera (ev1 ++ Tentativa 2 :: ev2)).
    rewrite espera_app. cbn [espera foldr]. fold (espera ev2).
    split; [lia|]. split; [intros _; lia|].
    intros [?|Hin]%elem_of_cons; [done|].
    apply elem_of_app in Hin as [Hin|Hin]; [by apply N1 in Hin|].
    apply elem_of_cons in Hin as [?|Hin]; [done|by apply N2 in Hin]. }
  specialize (D2 eq_refl ltac:(lia)).
  destruct (tentar 3 (envs 3%nat)) as [[r3|] ev3]; cbn [fst snd] in *.
  - cbn [espera foldr]. rewrite !espera_app. cbn [espera foldr]. rewrite !espera_app.
    cbn [espera foldr]. fold (espera ev1) (espera ev2) (espera ev3).
    split; [lia|]. split; intros _; lia.
  - cbn [espera foldr]. rewrite !espera_app. cbn [espera foldr]. rewrite !espera_app.
    cbn [espera foldr]. rewrite ?espera_app. cbn [espera foldr app].
    fold (espera ev1) (espera ev2) (espera ev3).
    split; [lia|]. split; intros _; lia.
Qed.

Section escrita_gravada.
Variables (path_csv : pystr) (registros : list (pystr * pystr * pystr)).
Variables (envs : nat -> escrita_env) (temp_csv_path : pystr) (temp_escrita : option exn).

Lemma escrever_uma_cases (tentativas : nat) (fs : files) :
  let out := escrever_uma path_csv registros envs temp_csv_path temp_escrita tentativas fs in
  match out.1.1 with
  | Ret true =>
      out.1.2 !! path_csv = Some (conteudo registros)
      \/ (out.1.2 !! temp_csv_path = Some (conteudo registros)
          /\ EscreveTemp temp_csv_path ∈ out.2)
  | Ret false => (tentativas < max_tentativas)%nat
  | Raise _ => True
  end.
Proof.
  cbn zeta. unfold escrever_uma.
  destruct (if bool_decide (is_Some (fs !! path_csv)) && (1 <? tentativas)%nat
            then match w_copy2 (envs tentativas), fs !! path_csv with
                 | None, Some c =>
                     (<[w_backup_path (envs tentativas) := c]> fs,
                      [BackupCriado (w_backup_path (envs tentativas))])
                 | _, _ => (fs, [BackupFalhou])
                 end
            else (fs, [])) as [fs1 ev1].
  destruct (w_escrita (envs tentativas)) as [e|]; cbn [fst snd].
  2:{ left. apply lookup_insert_eq. }
  destruct (is_PermissionError e).
  - destruct (Nat.ltb_spec tentativas max_tentativas); cbn [fst snd]; [done|].
    destruct temp_escrita; cbn [fst snd]; [done|]. right. split; [apply lookup_insert_eq|].
    apply elem_of_app. right. apply elem_of_cons. right. apply elem_of_cons. by left.
  - destruct (Nat.leb_spec max_tentativas tentativas); cbn [fst snd]; [done|lia].
Qed.

Lemma escrever_gravado (restantes tentativas : nat) (fs : files) :
  (tentativas < max_tentativas)%nat ->
  (max_tentativas - tentativas <= restantes)%nat ->
  let out := escrever path_csv registros envs temp_csv_path temp_escrita restantes
               tentativas fs in
  out.1.1 = Ret tt ->
  out.1.2 !! path_csv = Some (conteudo registros)
  \/ (out.1.2 !! temp_csv_path = Some (conteudo registros)
      /\ EscreveTemp temp_csv_path ∈ out.2).
Proof.
  revert tentativas fs. induction restantes as [|restantes IH]; intros tentativas fs Hlt Hrest.
  { lia. }
  cbn zeta. cbn [escrever]. rewrite (proj2 (Nat.ltb_lt _ _) Hlt).
  pose proof (escrever_uma_cases (S tentativas) fs) as Hone. cbn zeta in Hone.
  destruct (escrever_uma path_csv registros envs temp_csv_path temp_escrita (S tentativas) fs)
    as [[[[|]|e] fs'] ev]; cbn [fst snd] in *.
  - intros _. exact Hone.
  - specialize (IH (S tentativas) fs' Hone ltac:(lia)). cbn zeta in IH.
    destruct (escrever path_csv registros envs temp_csv_path temp_escrita restantes
                (S tentativas) fs') as [[r fs''] ev']; cbn [fst snd] in *.
    intros Hr. destruct (IH Hr) as [?|[? ?]]; [by left|right]. split; [done|].
    apply elem_of_app. by right.
  - discriminate.
Qed.

End escrita_gravada.

(** X25: when there are PDFs to record and [gerar_csv_arquivos_pdfs]
    returns without raising, the records were written: the CSV holds the
    header and the sorted records, or, after three refused writes, the
    temporary file holds them. *)
Theorem gerar_csv_arquivos_pdfs_returns_after_writing
    (path_csv : pystr) (registros : list (pystr * pystr * pystr))
    (envs : nat -> escrita_env) (temp_csv_path : pystr) (temp_escrita : option exn)
    (em_uso : bool) (mkdir : option exn) (fs : files) :
  let out := gerar_csv_arquivos_pdfs path_csv registros envs temp_csv_path temp_escrita
               false em_uso mkdir fs in
  out.1.1 = Ret tt ->
  em_uso = false /\ mkdir = None
  /\ (out.1.2 !! path_csv = Some (conteudo registros)
      \/ (out.1.2 !! temp_csv_path = Some (conteudo registros)
          /\ EscreveTemp temp_csv_path ∈ out.2)).
Proof.
  cbn zeta. unfold gerar_csv_arquivos_pdfs.
  destruct em_uso; [discriminate|]. destruct mkdir as [e|]; [discriminate|].
  intros H. split; [done|]. split; [done|].
  apply (escrever_gravado path_csv registros envs temp_csv_path temp_escrita
           max_tentativas 0 fs); [unfold max_tentativas; lia | lia | exact H].
Qed.

Lemma gerar_csv_arquivos_pdfs_returns_after_writing_witness :
  let out := gerar_csv_arquivos_pdfs (py "C:/saida/arquivos.csv") Ex.novos
               Ex.sempre_bloqueado (py "C:/Users/u/Documents/csv_entrada_arquivos_temp.csv")
               None false false None Ex.arquivos in
  false = false /\ @None exn = None
  /\ (out.1.2 !! py "C:/saida/arquivos.csv" = Some (conteudo Ex.novos)
      \/ (out.1.2 !! py "C:/Users/u/Documents/csv_entrada_arquivos_temp.csv"
          = Some (conteudo Ex.novos)
          /\ EscreveTemp (py "C:/Users/u/Documents/csv_entrada_arquivos_temp.csv") ∈ out.2)).
Proof.
  apply (gerar_csv_arquivos_pdfs_returns_after_writing (py "C:/saida/arquivos.csv") Ex.novos
           Ex.sempre_bloqueado (py "C:/Users/u/Documents/csv_entrada_arquivos_temp.csv")
           None false None Ex.arquivos).
  vm_compute. reflexivity.
Defined.

(** ** The CSVs of directories *)

Lemma foldl_insert_lookup_ne {V} (f : V -> option pystr) (k : pystr)
    (l : list (pystr * V)) (d : row_dict) :
  k ∉ map fst l ->
  foldl (fun d kv => <[kv.1 := f kv.2]> d) d l !! k = d !! k.
Proof.
  revert d. induction l as [|[k' v] l IH]; intros d Hk; [done|].
  cbn in Hk. apply not_elem_of_cons in Hk as [Hne Hk]. cbn [foldl].
  rewrite IH by done. cbn. by apply lookup_insert_ne.
Qed.

Lemma dict_row_lookup_absent (fieldnames row : csv_row) (k : pystr) :
  k ∉ fieldnames -> dict_row fieldnames row !! k = None.
Proof.
  intros Hk. unfold dict_row.
  assert (H2 : forall (l : list pystr) (d : row_dict),
            k ∉ l -> foldl (fun d k' => <[k' := None]> d) d l !! k = d !! k).
  { induction l as [|k' l IH]; intros d Hl; [done|].
    apply not_elem_of_cons in Hl as [Hne Hl]. cbn [foldl]. rewrite IH by done.
    by apply lookup_insert_ne. }
  rewrite H2.
  - rewrite (foldl_insert_lookup_ne Some); [apply lookup_empty|].
    intros Hin. apply Hk. apply list_elem_of_fmap in Hin as ([k' v] & -> & Hin).
    cbn. apply list_elem_of_lookup in Hin as [i Hi].
    apply lookup_zip_with_Some in Hi as (x & y & [= <- <-] & Hx & _).
    by eapply list_elem_of_lookup_2.
  - intros Hin. apply Hk. apply list_elem_of_lookup in Hin as [i Hi].
    rewrite lookup_drop in Hi. by eapply list_elem_of_lookup_2.
Qed.

Lemma elem_of_nomes_da_coluna (coluna_nome : pystr) (records : list csv_row) (nome : pystr) :
  nome ∈ nomes_da_coluna coluna_nome records
  <-> exists row, row ∈ DictReader records
        /\ row_get row coluna_nome = Some nome /\ truthy nome = true.
Proof.
  unfold nomes_da_coluna. rewrite elem_of_list_to_set, list_elem_of_omap.
  split.
  - intros (row & Hrow & H). exists row. split; [done|].
    destruct (row_get row coluna_nome) as [n|]; [|done].
    destruct (truthy n) eqn:Ht; [|done]. by injection H as ->.
  - intros (row & Hrow & Hg & Ht). exists row. split; [done|]. by rewrite Hg, Ht.
Qed.

Lemma remover_loop_spec (nomes : gset pystr) (items : list pasta) :
  (forall nome, nome ∈ (remover_loop nomes items).1 ->
     exists item, item ∈ items /\ item_name item = nome
                  /\ item_is_dir item = true /\ nome ∉ nomes)
  /\ ((forall item, item ∈ items -> item_rmtree item = None) ->
      remover_loop nomes items
      = (map item_name
           (filter (fun item => item_is_dir item = true /\ item_name item ∉ nomes) items),
         None)).
Proof.
  induction items as [|item rest [IH1 IH2]]; split.
  - intros nome H. by apply elem_of_nil in H.
  - done.
  - intros nome. cbn [remover_loop].
    destruct (item_is_dir item) eqn:Hd; cbn [andb].
    + case_bool_decide as Hn.
      * destruct (item_rmtree item); [intros H; by apply elem_of_nil in H|].
        destruct (remover_loop nomes rest) as [r x]; cbn [fst snd] in *.
        intros [->|H]%elem_of_cons.
        -- exists item. repeat split; try done. apply elem_of_cons. by left.
        -- destruct (IH1 nome H) as (it & Hit & ?). exists it. split; [|done].
           apply elem_of_cons. by right.
      * intros H. destruct (IH1 nome H) as (it & Hit & ?). exists it. split; [|done].
        apply elem_of_cons. by right.
    + intros H. destruct (IH1 nome H) as (it & Hit & ?). exists it. split; [|done].
      apply elem_of_cons. by right.
  - intros Hall. cbn [remover_loop]. rewrite filter_cons.
    assert (Hrest : forall it, it ∈ rest -> item_rmtree it = None)
      by (intros; apply Hall, elem_of_cons; by right).
    rewrite (Hall item) by (apply elem_of_cons; by left). rewrite (IH2 Hrest).
    destruct (item_is_dir item) eqn:Hd; cbn [andb].
    + case_bool_decide as Hn.
      * rewrite decide_True by done. reflexivity.
      * rewrite decide_False by (intros [_ ?]; done). reflexivity.
    + rewrite decide_False by (intros [? _]; done). reflexivity.
Qed.

Lemma manter_loop_rows (subdirs : list (pystr * pystr)) (vistos : gset pystr)
    (row : csv_row) :
  row ∈ manter_loop subdirs vistos ->
  exists nome caminho, row = [nome; caminho] /\ (nome, caminho) ∈ subdirs.
Proof.
  revert vistos. induction subdirs as [|[n c] rest IH]; intros vistos H.
  - by apply elem_of_nil in H.
  - cbn [manter_loop] in H. case_bool_decide.
    + apply elem_of_cons in H as [->|H].
      * exists n, c. split; [done|]. apply elem_of_cons. by left.
      * destruct (IH _ H) as (n' & c' & -> & Hin). exists n', c'. split; [done|].
        apply elem_of_cons. by right.
    + destruct (IH _ H) as (n' & c' & -> & Hin). exists n', c'. split; [done|].
      apply elem_of_cons. by right.
Qed.

Lemma manter_loop_names (subdirs : list (pystr * pystr)) (vistos : gset pystr)
    (nome : pystr) :
  nome ∈ map fst subdirs -> nome ∉ vistos ->
  exists caminho, [nome; caminho] ∈ manter_loop subdirs vistos.
Proof.
  revert vistos. induction subdirs as [|[n c] rest IH]; intros vistos Hin Hv.
  - by apply elem_of_nil in Hin.
  - cbn [manter_loop]. cbn in Hin. destruct (decide (nome = n)) as [->|Hne].
    + rewrite bool_decide_eq_true_2 by done. exists c. apply elem_of_cons. by left.
    + apply elem_of_cons in Hin as [?|Hin]; [done|]. case_bool_decide.
      * destruct (IH ({[n]} ∪ vistos) Hin) as [c' Hc'].
        { intros [Hs|Hs]%elem_of_union; [by apply elem_of_singleton in Hs|done]. }
        exists c'. apply elem_of_cons. by right.
      * by apply IH.
Qed.

Lemma nomes_do_csv_de_diretorios (subdirs : list (pystr * pystr)) (nome : pystr) :
  nome ∈ nomes_da_coluna (py "nome") ([py "nome"; py "caminho"] :: manter_loop subdirs ∅)
  <-> nome ∈ map fst subdirs /\ nome <> [].
Proof.
  assert (Hget : forall n c,
            row_get (dict_row [py "nome"; py "caminho"] [n; c]) (py "nome") = Some n).
  { intros n c. unfold row_get, dict_row. cbn.
    rewrite lookup_insert_ne by (vm_compute; discriminate).
    by rewrite lookup_insert_eq. }
  rewrite elem_of_nomes_da_coluna. cbn [DictReader]. split.
  - intros (row & Hrow & Hg & Ht). apply list_elem_of_fmap in Hrow as (r & -> & Hr).
    apply list_elem_of_filter in Hr as [_ Hr].
    apply manter_loop_rows in Hr as (n & c & -> & Hin).
    rewrite Hget in Hg. injection Hg as ->. split.
    + apply list_elem_of_fmap. by exists (nome, c).
    + by destruct nome.
  - intros [Hin Hne]. destruct (manter_loop_names subdirs ∅ nome Hin) as [c Hc];
      [apply not_elem_of_empty|].
    exists (dict_row [py "nome"; py "caminho"] [nome; c]). split; [|split].
    + apply list_elem_of_fmap. exists [nome; c]. split; [done|].
      by apply list_elem_of_filter.
    + apply Hget.
    + by destruct nome.
Qed.

(** X26: [remover_pastas_csv] after [gerar_csv_manter_diretorios]. With
    the CSV that [gerar_csv_manter_diretorios] wrote for a list of
    subdirectories, [remover_pastas_csv] removes directories only, and none
    whose name is the non-empty name of a listed subdirectory; when no
    removal fails it raises nothing and removes every other directory. *)
Theorem remover_pastas_csv_keeps_listed
    (subdirs : list (pystr * pystr)) (path_csv : pystr) (fs : files) (items : list pasta) :
  let fs' := (gerar_csv_manter_diretorios (Ret subdirs) None path_csv fs).2 in
  let out := remover_pastas_csv path_csv true (Ret items) fs' in
  (forall nome, nome ∈ out.1 ->
     (nome ∉ map fst subdirs \/ nome = [])
     /\ exists item, item ∈ items /\ item_name item = nome /\ item_is_dir item = true)
  /\ ((forall item, item ∈ items -> item_rmtree item = None) ->
      out.2 = None
      /\ forall item, item ∈ items -> item_is_dir item = true ->
           item_name item ∉ map fst subdirs -> item_name item ∈ out.1).
Proof.
  cbn zeta. unfold gerar_csv_manter_diretorios, remover_pastas_csv. cbn [snd negb].
  rewrite lookup_insert_eq.
  set (nomes := nomes_da_coluna (py "nome") _).
  destruct (remover_loop_spec nomes items) as [H1 H2]. split.
  - intros nome Hn. destruct (H1 nome Hn) as (item & Hi & Hnm & Hd & Hnot). split.
    + destruct (decide (nome = [])) as [|Hne]; [by right|left].
      intros Hin. apply Hnot. apply nomes_do_csv_de_diretorios. by split.
    + by exists item.
  - intros Hall. rewrite (H2 Hall). cbn [fst snd]. split; [done|].
    intros item Hi Hd Hnot. apply list_elem_of_fmap. exists item. split; [done|].
    apply list_elem_of_filter. split; [|done]. split; [done|].
    intros Hin. apply nomes_do_csv_de_diretorios in Hin as [? _]. done.
Qed.

(** X27: a CSV without a [nome] column keeps nothing. When the header of
    the CSV given to [remover_pastas_csv] has no field [nome] and no
    removal fails, every directory of the input directory is removed. *)
Theorem remover_pastas_csv_without_nome_column
    (path_csv : pystr) (fs : files) (fieldnames : csv_row) (rows : list csv_row)
    (items : list pasta) :
  fs !! path_csv = Some (fieldnames :: rows) ->
  py "nome" ∉ fieldnames ->
  (forall item, item ∈ items -> item_rmtree item = None) ->
  remover_pastas_csv path_csv true (Ret items) fs
  = (map item_name (filter (fun item => item_is_dir item = true) items), None).
Proof.
  intros Hfs Hno Hall. unfold remover_pastas_csv. rewrite Hfs. cbn [negb].
  assert (Hempty : nomes_da_coluna (py "nome") (fieldnames :: rows) = ∅).
  { apply set_eq. intros nome. rewrite elem_of_nomes_da_coluna.
    split; [|intros Hin; by apply elem_of_empty in Hin].
    intros (row & Hrow & Hg & _). cbn [DictReader] in Hrow.
    apply list_elem_of_fmap in Hrow as (r & -> & _).
    unfold row_get in Hg. by rewrite dict_row_lookup_absent in Hg. }
  rewrite Hempty. destruct (remover_loop_spec ∅ items) as [_ H2]. rewrite (H2 Hall).
  f_equal. f_equal. apply list_filter_iff. intros item. split; [by intros [? _]|].
  intros Hd. split; [done|]. apply not_elem_of_empty.
Qed.

Lemma remover_pastas_csv_without_nome_column_witness :
  remover_pastas_csv (py "C:/saida/manter.csv") true (Ret Ex4.pastas) Ex4.sem_coluna_nome
  = (map item_name (filter (fun item => item_is_dir item = true) Ex4.pastas), None).
Proof.
  apply (remover_pastas_csv_without_nome_column (py "C:/saida/manter.csv")
           Ex4.sem_coluna_nome [py "pasta"; py "caminho"] [[py "p1"; py "C:/entrada/p1"]]
           Ex4.pastas).
  - vm_compute. reflexivity.
  - vm_compute. intros H. repeat (apply elem_of_cons in H as [H|H]; [discriminate H|]).
    by apply elem_of_nil in H.
  - intros item Hi. unfold Ex4.pastas in Hi.
    repeat (apply elem_of_cons in Hi as [->|Hi]; [reflexivity|]).
    by apply elem_of_nil in Hi.
Defined.

Lemma filter_none {A} (P : A -> Prop) `{forall x, Decision (P x)} (l : list A) :
  (forall x, x ∈ l -> ~ P x) -> filter P l = [].
Proof.
  induction l as [|x l IH]; intros Hall; [reflexivity|].
  rewrite filter_cons, decide_False by (apply Hall, elem_of_cons; by left).
  apply IH. intros y Hy. apply Hall, elem_of_cons. by right.
Qed.

(** X28: comparing a CSV with itself. Whatever the column and the
    records, [comparar_csvs_faltantes] with the same non-empty CSV as
    source and as comparison raises nothing and writes the header alone:
    a record with a name is in the comparison, one without a name is never
    missing. *)
Theorem comparar_csvs_faltantes_with_itself
    (path_csv path_csv_saida coluna_nome : pystr) (fs : files)
    (fieldnames : csv_row) (rows : list csv_row) :
  fs !! path_csv = Some (fieldnames :: rows) ->
  comparar_csvs_faltantes path_csv path_csv path_csv_saida coluna_nome fs
  = (Ret tt, <[path_csv_saida := [fieldnames]]> fs).
Proof.
  intros Hfs. unfold comparar_csvs_faltantes. rewrite Hfs.
  rewrite filter_none; [reflexivity|].
  intros record Hr. unfold falta.
  destruct (row_get (dict_row fieldnames record) coluna_nome) as [nome|] eqn:Hg; [|done].
  destruct (truthy nome) eqn:Ht; [|done]. cbn [andb].
  rewrite bool_decide_eq_false_2; [done|]. intros Hnot. apply Hnot.
  apply elem_of_nomes_da_coluna. exists (dict_row fieldnames record).
  split; [|done]. cbn [DictReader]. apply list_elem_of_fmap. by exists record.
Qed.

Lemma comparar_csvs_faltantes_with_itself_witness :
  comparar_csvs_faltantes (py "C:/saida/fonte.csv") (py "C:/saida/fonte.csv")
    (py "C:/saida/faltantes.csv") (py "nome") Ex4.fonte
  = (Ret tt, <[py "C:/saida/faltantes.csv" := [[py "nome"; py "caminho"]]]> Ex4.fonte).
Proof.
  apply (comparar_csvs_faltantes_with_itself (py "C:/saida/fonte.csv")
           (py "C:/saida/faltantes.csv") (py "nome") Ex4.fonte [py "nome"; py "caminho"]
           [[py "a.pdf"; py "C:/docs/a.pdf"]; []; [py ""; py "C:/docs/x"]; [py "b.pdf"]]).
  vm_compute. reflexivity.
Defined.

(** ** The text and the files of the vision extraction *)

Lemma insere_menor (x : nat * option pystr) (l : list (nat * option pystr)) :
  (forall y, head l = Some y -> (x.1 <= y.1)%nat) -> insere x l = x :: l.
Proof.
  destruct l as [|y l]; [done|]. intros H. cbn [insere].
  by rewrite (proj2 (Nat.leb_le _ _) (H y eq_refl)).
Qed.

Lemma ordena_paginas (respostas : list (res (option pystr))) (k : nat) :
  ordena (imap (fun i r => ((k + i)%nat, page_text_de r)) respostas)
  = imap (fun i r => ((k + i)%nat, page_text_de r)) respostas.
Proof.
  revert k. induction respostas as [|r rest IH]; intros k; [reflexivity|].
  cbn [imap]. unfold ordena in *. cbn [foldr].
  assert (Hshift : imap ((fun i r0 => ((k + i)%nat, page_text_de r0)) ∘ S) rest
                   = imap (fun i r0 => ((S k + i)%nat, page_text_de r0)) rest).
  { apply imap_ext. intros i x _. cbn. f_equal. lia. }
  rewrite Hshift, IH. apply insere_menor.
  intros y Hy. destruct rest as [|r' rest']; [discriminate|].
  cbn in Hy. injection Hy as <-. cbn. lia.
Qed.

Lemma flat_map_trecho_lookup (respostas : list (res (option pystr))) (k : nat) :
  let corpo := flat_map trecho_pagina
                 (imap (fun i r => ((k + i)%nat, page_text_de r)) respostas) in
  length corpo = (3 * length respostas)%nat
  /\ forall i resposta, respostas !! i = Some resposta ->
       corpo !! (3 * i)%nat = Some (cabecalho_pagina (k + i))
       /\ corpo !! (3 * i + 1)%nat = Some (miolo_pagina resposta)
       /\ corpo !! (3 * i + 2)%nat = Some separador.
Proof.
  revert k. induction respostas as [|r rest IH]; intros k; cbn zeta.
  { split; [reflexivity|]. intros i resposta H. by rewrite lookup_nil in H. }
  cbn [imap flat_map].
  assert (Hshift : imap ((fun i r0 => ((k + i)%nat, page_text_de r0)) ∘ S) rest
                   = imap (fun i r0 => ((S k + i)%nat, page_text_de r0)) rest).
  { apply imap_ext. intros i x _. cbn. f_equal. lia. }
  rewrite Hshift. destruct (IH (S k)) as [Hlen Hlook]. cbn zeta in Hlen, Hlook.
  assert (Htrecho : trecho_pagina ((k + 0)%nat, page_text_de r)
                    = [cabecalho_pagina k; miolo_pagina r; separador]).
  { rewrite Nat.add_0_r. unfold trecho_pagina, miolo_pagina. cbn [fst snd].
    destruct (page_text_de r) as [t|]; [|reflexivity].
    by destruct (truthy t && truthy (strip t) && negb (startswith (py "[ERRO") t)). }
  rewrite Htrecho. split.
  - cbn [app length]. rewrite Hlen. cbn [length]. lia.
  - intros i resposta Hi. destruct i as [|i].
    + cbn in Hi. injection Hi as <-. rewrite Nat.add_0_r. by cbn.
    + cbn in Hi. destruct (Hlook i resposta Hi) as (H1 & H2 & H3).
      replace (3 * S i)%nat with (S (S (S (3 * i)))) by lia.
      replace (k + S i)%nat with (S k + i)%nat by lia.
      split; [exact H1|]. split; [exact H2|exact H3].
Qed.

(** X29: every page is in the text, under its number and in page order,
    whatever its request gave. After the six header strings,
    [extracted_text] holds three strings per page: the delimiter
    [=== PÁGINA i ===], then the stripped answer, or the error text of a
    failed request, or the placeholder for a blank page, then the
    separator; sorting the results changes nothing, since
    [asyncio.gather] returns them in page order. *)
Theorem extracted_text_lists_every_page
    (basename agora : pystr) (max_concurrent : Z) (respostas : list (res (option pystr))) :
  let texto := extracted_text basename agora max_concurrent respostas in
  length texto = (6 + 3 * length respostas)%nat
  /\ forall i resposta, respostas !! i = Some resposta ->
       texto !! (6 + 3 * i)%nat = Some (cabecalho_pagina (S i))
       /\ texto !! (6 + 3 * i + 1)%nat = Some (miolo_pagina resposta)
       /\ texto !! (6 + 3 * i + 2)%nat = Some separador.
Proof.
  cbn zeta. unfold extracted_text.
  change (imap (fun i resposta => (S i, page_text_de resposta)) respostas)
    with (imap (fun i r => ((1 + i)%nat, page_text_de r)) respostas).
  rewrite ordena_paginas.
  destruct (flat_map_trecho_lookup respostas 1) as [Hlen Hlook]. cbn zeta in Hlen, Hlook.
  split.
  - rewrite length_app. cbn [cabecalho length]. rewrite Hlen. lia.
  - intros i resposta Hi. destruct (Hlook i resposta Hi) as (H1 & H2 & H3).
    rewrite !lookup_app_r by (cbn [cabecalho length]; lia). cbn [cabecalho length].
    replace (6 + 3 * i - 6)%nat with (3 * i)%nat by lia.
    replace (6 + 3 * i + 1 - 6)%nat with (3 * i + 1)%nat by lia.
    replace (6 + 3 * i + 2 - 6)%nat with (3 * i + 2)%nat by lia.
    by rewrite H1, H2, H3.
Qed.

Lemma start_phase_ativa (phase_name : pystr) (self : StructuredLogger) :
  phase_name ∈ phase_times (start_phase phase_name self).
Proof.
  unfold start_phase. cbn. apply elem_of_app. right. apply elem_of_cons. by left.
Qed.

Lemma encerrar_fases_tamanho (restantes pos di_used : nat) (self : StructuredLogger) :
  length (phase_times self) <> di_used ->
  encerrar_fases restantes pos di_used self
  = (Some (OtherError (py "dictionary changed size during iteration")), self).
Proof.
  intros Hne. destruct restantes; cbn [encerrar_fases];
    by rewrite (proj2 (Nat.eqb_neq _ _) Hne).
Qed.

(** With a phase active, the loop of the handler ends the first phase of
    the dict and raises when it asks for the next one. *)
Lemma encerrar_fases_ativa (self : StructuredLogger) (phase : pystr) (rest : list pystr) :
  phase_times self = phase :: rest ->
  encerrar_fases (length (phase_times self)) 0 (length (phase_times self)) self
  = (Some (OtherError (py "dictionary changed size during iteration")),
     end_phase phase self).
Proof.
  destruct self as [pt]. cbn [phase_times]. intros ->.
  cbn [length encerrar_fases phase_times]. rewrite Nat.eqb_refl.
  cbn [negb lookup list_lookup]. apply encerrar_fases_tamanho.
  unfold end_phase. cbn [phase_times].
  rewrite bool_decide_eq_false_2 by (intros Hn; apply Hn, elem_of_cons; by left).
  cbn [phase_times]. rewrite filter_cons, decide_False by (intros Hn; by apply Hn).
  pose proof (length_filter (fun p => p <> phase) rest). lia.
Qed.

(** With no phase active, the loop does nothing. *)
Lemma encerrar_fases_nenhuma (self : StructuredLogger) :
  phase_times self = [] ->
  encerrar_fases (length (phase_times self)) 0 (length (phase_times self)) self
  = (None, self).
Proof. destruct self as [pt]. cbn [phase_times]. intros ->. reflexivity. Qed.

Lemma registrar_erro_fase_ativa (self : StructuredLogger) (phase : pystr)
    (rest : list pystr) (txt_path : pystr) (e : exn) (env : salvar_env) (fs : textos) :
  phase_times self = phase :: rest ->
  registrar_erro (Some self) txt_path e env fs
  = (Raise (OtherError (py "dictionary changed size during iteration")), fs,
     Some (end_phase phase self)).
Proof.
  intros Hpt. unfold registrar_erro. by rewrite (encerrar_fases_ativa self phase rest Hpt).
Qed.

(** X30: with a logger, a failure while the results are saved is never
    reported as such. When [extract_text_openai_vision_async] comes to
    save, the phase [FILE_SAVE] is active, whatever the logger held
    before. The function then either returns after writing the text and
    the consolidated JSON to the three files ([True], or [False] when the
    text file is not found afterwards), or its handler, which ends the
    phases while it iterates over them, ends the first one and raises
    [RuntimeError] ("dictionary changed size during iteration"): the
    original error is hidden, no error text is written, and the text file
    holds the extracted text if that was written, otherwise what it held;
    a consolidation request that failed is such a case and leaves
    [json_output_txt] empty. A handler that finds no phase active writes
    the error text and returns [False]. *)
Theorem salvar_with_logger
    (self : StructuredLogger) (txt_path json_output_txt json_output : pystr)
    (extracted_text : list pystr) (env : salvar_env) (fs : textos) :
  txt_path <> json_output_txt ->
  let logger := ate_salvar self in
  let out := salvar (Some logger) txt_path json_output_txt json_output extracted_text
               env fs in
  py "FILE_SAVE" ∈ phase_times logger
  /\ match out.1.1 with
     | Ret b =>
         b = s_exists env
         /\ s_txt env = None /\ s_json_txt env = None /\ s_json env = None
         /\ (exists extracted_json,
               s_requisicao env = Some extracted_json
               /\ out.1.2 = <[json_output := extracted_json]>
                              (<[json_output_txt := extracted_json]>
                                 (<[txt_path := concat extracted_text]> fs)))
         /\ out.2 = Some (end_phase (py "FILE_SAVE") logger)
     | Raise e =>
         e = OtherError (py "dictionary changed size during iteration")
         /\ (exists phase, head (phase_times logger) = Some phase
                           /\ out.2 = Some (end_phase phase logger))
         /\ out.1.2 !! txt_path
            = match s_txt env with
              | None => Some (concat extracted_text)
              | Some _ => fs !! txt_path
              end
         /\ (s_txt env = None -> s_json_txt env = None -> s_requisicao env = None ->
             out.1.2 !! json_output_txt = Some [])
     end
  /\ (forall (parado : StructuredLogger) (e : exn),
        phase_times parado = [] -> s_erro_txt env = None ->
        registrar_erro (Some parado) txt_path e env fs
        = (Ret false,
           <[txt_path := py "ERRO NA OPENAI VISION API ASSÍNCRONA: " ++ exn_str e ++ [10]
                         ++ py "Verifique se a chave da API está configurada corretamente."
                         ++ [10]]> fs,
           Some parado)).
Proof.
  intros Hne. cbn zeta.
  assert (Hativa : py "FILE_SAVE" ∈ phase_times (ate_salvar self))
    by apply start_phase_ativa.
  split; [exact Hativa|]. split.
  - destruct (phase_times (ate_salvar self)) as [|phase rest] eqn:Hpt;
      [by apply elem_of_nil in Hativa|].
    assert (Herro : forall e fs',
              registrar_erro (Some (ate_salvar self)) txt_path e env fs'
              = (Raise (OtherError (py "dictionary changed size during iteration")), fs',
                 Some (end_phase phase (ate_salvar self))))
      by (intros; by apply (registrar_erro_fase_ativa _ phase rest)).
    unfold salvar.
    destruct (s_txt env) as [e1|].
    { rewrite Herro. cbn [fst snd]. split; [done|]. split; [by exists phase|].
      split; [done|]. intros [=]. }
    destruct (s_json_txt env) as [e2|].
    { rewrite Herro. cbn [fst snd]. split; [done|]. split; [by exists phase|].
      split; [apply lookup_insert_eq|]. intros _ [=]. }
    destruct (s_requisicao env) as [j|].
    + destruct (s_json env) as [e3|].
      * rewrite Herro. cbn [fst snd]. split; [done|]. split; [by exists phase|].
        split; [|intros _ _ [=]].
        rewrite lookup_insert_ne by done. apply lookup_insert_eq.
      * cbn [fst snd fmap option_fmap option_map]. repeat split. by exists j.
    + rewrite Herro. cbn [fst snd]. split; [done|]. split; [by exists phase|]. split.
      * rewrite lookup_insert_ne by done. apply lookup_insert_eq.
      * intros _ _ _. apply lookup_insert_eq.
  - intros parado e Hpt Herr. unfold registrar_erro.
    rewrite (encerrar_fases_nenhuma parado Hpt), Herr. reflexivity.
Qed.

Lemma salvar_with_logger_witness :
  let logger := ate_salvar {| phase_times := [] |} in
  let txt_path := py "R/p/a/openai_vision_a.txt" in
  let texto := extracted_text (py "a.pdf") (py "01/02/2025 09:00:00") 5 Ex5.respostas in
  let out := salvar (Some logger) txt_path (py "R/p/a/openai_json_a.txt")
               (py "R/p/a/openai_vision_a.json") texto Ex5.sem_resposta ∅ in
  py "FILE_SAVE" ∈ phase_times logger
  /\ match out.1.1 with
     | Ret b =>
         b = s_exists Ex5.sem_resposta
         /\ s_txt Ex5.sem_resposta = None /\ s_json_txt Ex5.sem_resposta = None
         /\ s_json Ex5.sem_resposta = None
         /\ (exists extracted_json,
               s_requisicao Ex5.sem_resposta = Some extracted_json
               /\ out.1.2 = <[py "R/p/a/openai_vision_a.json" := extracted_json]>
                              (<[py "R/p/a/openai_json_a.txt" := extracted_json]>
                                 (<[txt_path := concat texto]> ∅)))
         /\ out.2 = Some (end_phase (py "FILE_SAVE") logger)
     | Raise e =>
         e = OtherError (py "dictionary changed size during iteration")
         /\ (exists phase, head (phase_times logger) = Some phase
                           /\ out.2 = Some (end_phase phase logger))
         /\ out.1.2 !! txt_path
            = match s_txt Ex5.sem_resposta with
              | None => Some (concat texto)
              | Some _ => (∅ : textos) !! txt_path
              end
         /\ (s_txt Ex5.sem_resposta = None -> s_json_txt Ex5.sem_resposta = None ->
             s_requisicao Ex5.sem_resposta = None ->
             out.1.2 !! py "R/p/a/openai_json_a.txt" = Some [])
     end
  /\ (forall (parado : StructuredLogger) (e : exn),
        phase_times parado = [] -> s_erro_txt Ex5.sem_resposta = None ->
        registrar_erro (Some parado) txt_path e Ex5.sem_resposta ∅
        = (Ret false,
           <[txt_path := py "ERRO NA OPENAI VISION API ASSÍNCRONA: " ++ exn_str e ++ [10]
                         ++ py "Verifique se a chave da API está configurada corretamente."
                         ++ [10]]> ∅,
           Some parado)).
Proof.
  apply (salvar_with_logger {| phase_times := [] |} (py "R/p/a/openai_vision_a.txt")
           (py "R/p/a/openai_json_a.txt") (py "R/p/a/openai_vision_a.json")
           (extracted_text (py "a.pdf") (py "01/02/2025 09:00:00") 5 Ex5.respostas)
           Ex5.sem_resposta ∅).
  vm_compute. discriminate.
Defined.
